(** * Transcriber.py: pending-work discovery, per-file worker and pool run

    A shallow embedding of [src/Transcriber.py] and the properties of its
    discovery, worker and pool.

    - A Python [str] is the list of its code points ([N]); comparison,
      slicing and lengths then count code points, as Python does.
    - [os.path] is [posixpath] (separator "/"); [basename], [splitext],
      [dirname] and [join] are transcribed from CPython's [posixpath.py] and
      [genericpath.py].
    - The file system is a finite map from paths to nodes (a regular file
      with its text, or a directory).
    - Code that can raise runs in a state-and-exception monad over the
      world: the file system and the trace of what the run printed and did.
      A call returns a value, raises an instance of [Exception], or ends
      in another way: with a [BaseException] that [except Exception] does
      not catch ([KeyboardInterrupt], [SystemExit]), or never. Of the
      calls the script makes, the call of the model is the one that can
      end so of itself.
    - What the script takes from outside (the folder of the script, CUDA,
      the Whisper model and whether it loads, the failures of the
      operating system, which worker takes an item and which of the calls
      in course ends first) is collected in [Entorno].
    - The pool is run one call at a time, in the order the calls of
      [procesar_archivo] come to an end: at most
      [NUMERO_DE_TRABAJADORES_GPU] are in course, the first ones submitted
      that have not ended. A worker process runs its initializer before its
      first item, and a process that is given no item may be stopped with
      its initializer half done. A worker whose call ends outside
      [Exception] dies with its item: the pool starts another process in
      its place, and the loop of the main process, which never receives
      that item's result, does not come back. As in [multiprocessing], a
      raising initializer leaves the pool without a worker that takes
      items. *)

From Stdlib Require Import ZArith NArith Ascii String DecimalString.
From stdpp Require Import base decidable list sorting gmap.

Local Open Scope Z_scope.

(** ** Python strings *)

Module Py.

Abbreviation str := (list N).

(** A literal whose characters are all ASCII. *)
Definition lit (s : string) : str :=
  map N_of_ascii (list_ascii_of_string s).

(** Python clamps slice bounds: a negative bound counts from the end. *)
Definition norm_idx (n : nat) (i : Z) : nat :=
  if i <? 0 then Z.to_nat (Z.max 0 (Z.of_nat n + i))
  else Z.to_nat (Z.min i (Z.of_nat n)).

(** [s[:j]] *)
Definition slice_to (s : str) (j : Z) : str :=
  take (norm_idx (length s) j) s.

(** [s[i:]] *)
Definition slice_from (s : str) (i : Z) : str :=
  drop (norm_idx (length s) i) s.

(** [s[i:j]] *)
Definition slice (s : str) (i j : Z) : str :=
  let a := norm_idx (length s) i in
  let b := norm_idx (length s) j in
  take (b - a)%nat (drop a s).

(** [s.startswith(t)] *)
Definition startswith (s t : str) : bool :=
  bool_decide (take (length t) s = t).

(** [s.endswith(t)] *)
Definition endswith (s t : str) : bool :=
  (length t <=? length s)%nat
  && bool_decide (drop (length s - length t)%nat s = t).

(** [s.rfind(c)] for a one-character [c]: the highest index holding [c],
    or -1. [rfind_desde i s c acc] scans [s], whose head has index [i]. *)
Fixpoint rfind_desde (i : Z) (s : str) (c : N) (acc : Z) : Z :=
  match s with
  | [] => acc
  | x :: s' => rfind_desde (i + 1) s' c (if N.eqb x c then i else acc)
  end.

Definition rfind (s : str) (c : N) : Z := rfind_desde 0 s c (-1).

(** [t in s] for strings: [t] occurs in [s] as a contiguous block. *)
Fixpoint contiene (t s : str) : bool :=
  startswith s t ||
  match s with
  | [] => false
  | _ :: s' => contiene t s'
  end.

(** Code-point order on strings, as [<=] on Python [str]. *)
Fixpoint leb (s t : str) : bool :=
  match s, t with
  | [], _ => true
  | _ :: _, [] => false
  | x :: s', y :: t' =>
      if N.ltb x y then true
      else if N.eqb x y then leb s' t' else false
  end.

Definition le (s t : str) : Prop := leb s t = true.

Definition lt (s t : str) : Prop := le s t ∧ s ≠ t.

#[global] Instance le_dec s t : Decision (le s t).
Proof. unfold le. apply _. Defined.

(** [sorted(l)] on a list of strings. The order is total, so the sorted
    list is the same whatever the sorting algorithm. *)
Definition sorted (l : list str) : list str := merge_sort le l.

(** [s.rstrip(c)] for a one-character [c]. *)
Fixpoint lstrip (s : str) (c : N) : str :=
  match s with
  | x :: s' => if N.eqb x c then lstrip s' c else s
  | [] => []
  end.

Definition rstrip (s : str) (c : N) : str :=
  reverse (lstrip (reverse s) c).

(** [str(n)] for a non-negative integer. *)
Definition str_of_nat (n : nat) : str :=
  lit (NilEmpty.string_of_uint (Nat.to_uint n)).

End Py.

Abbreviation str := (list N).

(** ** os.path (posixpath) *)

Module os_path.

Definition sep : N := 47.      (* "/" *)
Definition extsep : N := 46.   (* "." *)

(** [posixpath.basename]: [i = p.rfind(sep) + 1; return p[i:]] *)
Definition basename (p : str) : str :=
  let i := Py.rfind p sep + 1 in
  Py.slice_from p i.

(** The [while filenameIndex < dotIndex] loop of [genericpath._splitext];
    [n] is the number of iterations left, [dotIndex - filenameIndex].
    [None] stands for leaving the loop without returning. *)
Fixpoint _splitext_loop (n : nat) (p : str) (filenameIndex dotIndex : Z)
  : option (str * str) :=
  match n with
  | O => None
  | S n' =>
      if bool_decide (Py.slice p filenameIndex (filenameIndex + 1) ≠ [extsep])
      then Some (Py.slice_to p dotIndex, Py.slice_from p dotIndex)
      else _splitext_loop n' p (filenameIndex + 1) dotIndex
  end.

(** [genericpath._splitext(p, sep, None, extsep)], which is
    [posixpath.splitext]. *)
Definition splitext (p : str) : str * str :=
  let sepIndex := Py.rfind p sep in
  let dotIndex := Py.rfind p extsep in
  let sin_extension := (p, Py.slice_to p 0) in
  if sepIndex <? dotIndex then
    let filenameIndex := sepIndex + 1 in
    match _splitext_loop (Z.to_nat (dotIndex - filenameIndex)) p
            filenameIndex dotIndex with
    | Some r => r
    | None => sin_extension
    end
  else sin_extension.

(** [posixpath.dirname] *)
Definition dirname (p : str) : str :=
  let i := Py.rfind p sep + 1 in
  let head := Py.slice_to p i in
  if bool_decide (head ≠ []) && bool_decide (head ≠ replicate (length head) sep)
  then Py.rstrip head sep
  else head.

(** [posixpath.join(a, b)] *)
Definition join (a b : str) : str :=
  if Py.startswith b [sep] then b
  else if bool_decide (a = []) || Py.endswith a [sep] then a ++ b
  else a ++ [sep] ++ b.

(** What [join] puts before a relative second argument: the first argument
    itself, or the first argument and a separator. *)
Definition con_sep (a : str) : str :=
  if bool_decide (a = []) || Py.endswith a [sep] then a else a ++ [sep].

End os_path.

(** ** The file system *)

(** A path holds a regular file with its text, or a directory. *)
Inductive nodo :=
  | Archivo (contenido : str)
  | Directorio.

#[global] Instance nodo_eq_dec : EqDecision nodo.
Proof. solve_decision. Defined.

Abbreviation filesystem := (gmap str nodo).

Module os.
Import os_path.

(** [os.path.exists(p)] *)
Definition exists_ (fs : filesystem) (p : str) : bool :=
  bool_decide (is_Some (fs !! p)).

(** [os.path.isdir(p)] *)
Definition isdir (fs : filesystem) (p : str) : bool :=
  bool_decide (fs !! p = Some Directorio).

(** [os.path.isfile(p)] *)
Definition isfile (fs : filesystem) (p : str) : bool :=
  match fs !! p with
  | Some (Archivo _) => true
  | _ => false
  end.

(** The name under which path [k] is an entry of directory [d]: [k] is
    [d], a separator, and a non-empty name without separator. *)
Definition entrada_de (d k : str) : option str :=
  let n := drop (length d + 1) k in
  if bool_decide (k = d ++ [sep] ++ n ∧ n ≠ [] ∧ sep ∉ n)
  then Some n else None.

(** [os.listdir(d)] for a directory [d]: the names of its entries, in the
    order the map enumerates them (Python promises no order). *)
Definition listdir (fs : filesystem) (d : str) : list str :=
  omap (entrada_de d) (map fst (map_to_list fs)).

(** The proper ancestors of [p] that [os.makedirs(p)] creates when they
    are missing: every prefix of [p] that ends just before a separator. *)
Fixpoint prefijos_dir (visto p : str) : list str :=
  match p with
  | [] => []
  | c :: p' =>
      (if N.eqb c sep && bool_decide (visto ≠ []) then [visto] else [])
      ++ prefijos_dir (visto ++ [c]) p'
  end.

(** The regular files of a file system, with their text. *)
Definition archivos (fs : filesystem) : gmap str str :=
  omap (λ n, match n with Archivo t => Some t | Directorio => None end) fs.

End os.

(** ** Exceptions, events and the world *)

(** An instance of [Exception]: its class name and [str(e)]. *)
Record excepcion := Excepcion { clase : str; mensaje : str }.

(** What a run does besides touching the file system, in order. *)
Inductive evento :=
  | Imprime (linea : str)          (* print(linea) in the main process *)
  | ImprimeTrabajador (n : nat) (linea : str)
                                   (* print(linea) in the n-th process the
                                      pool starts *)
  | CreaPool (procesos : nat)      (* multiprocessing.Pool(processes=...) *)
  | CargaModelo (nombre : str)     (* whisper.load_model(nombre) returns, in
                                      a worker *)
  | Despacha (ruta : str)          (* a worker starts procesar_archivo(ruta) *)
  | BarraProgreso (total : nat)    (* tqdm(total=...) *)
  | Progreso (n : nat).            (* progress_bar.update(n) *)

#[global] Instance evento_eq_dec : EqDecision evento.
Proof. solve_decision. Defined.

Record Mundo := { disco : filesystem; traza : list evento }.

(** The items dispatched, the pools created and the lines the main
    process prints, as recorded in a trace. *)
Definition despachos (t : list evento) : list str :=
  omap (λ e, match e with Despacha r => Some r | _ => None end) t.

Definition pools_creados (t : list evento) : list nat :=
  omap (λ e, match e with CreaPool n => Some n | _ => None end) t.

Definition lineas (t : list evento) : list str :=
  omap (λ e, match e with Imprime l => Some l | _ => None end) t.

(** The models loaded, the progress bars opened and the progress updates,
    as recorded in a trace. *)
Definition cargas (t : list evento) : list str :=
  omap (λ e, match e with CargaModelo n => Some n | _ => None end) t.

Definition barras (t : list evento) : list nat :=
  omap (λ e, match e with BarraProgreso n => Some n | _ => None end) t.

Definition progresos (t : list evento) : list nat :=
  omap (λ e, match e with Progreso n => Some n | _ => None end) t.

(** The lines the worker processes print. *)
Definition lineas_de_trabajadores (t : list evento) : list str :=
  omap (λ e, match e with ImprimeTrabajador _ l => Some l | _ => None end) t.

(** The events of a worker's initializer. *)
Definition de_inicializador (e : evento) : bool :=
  match e with
  | ImprimeTrabajador _ _ | CargaModelo _ => true
  | _ => false
  end.

(** The world after some more events. *)
Definition registrar (w : Mundo) (evs : list evento) : Mundo :=
  {| disco := disco w; traza := traza w ++ evs |}.

(** What ends a call that neither returns nor raises an instance of
    [Exception]: an instance of [BaseException] outside [Exception]
    ([KeyboardInterrupt], [SystemExit], [GeneratorExit]), with its class
    name and [str(e)]; or nothing, when the call never comes back (it
    waits for ever, or its process is killed). *)
Inductive fuga :=
  | Interrupcion (clase_base : str) (mensaje_base : str)
  | Bloqueo.

(** The result of a call: a value, a raised instance of [Exception], or
    one of the other ends. *)
Inductive resultado (A : Type) :=
  | Valor (a : A)
  | Lanza (e : excepcion)
  | Escapa (f : fuga).
Arguments Valor {A} a.
Arguments Lanza {A} e.
Arguments Escapa {A} f.

(** A computation reads and updates the world and returns or raises. *)
Definition M (A : Type) : Type := Mundo → resultado A * Mundo.

#[global] Instance M_ret : MRet M := λ A a w, (Valor a, w).

#[global] Instance M_bind : MBind M := λ A B f c w,
  match c w with
  | (Valor a, w') => f a w'
  | (Lanza e, w') => (Lanza e, w')
  | (Escapa x, w') => (Escapa x, w')
  end.

(** [raise e] *)
Definition lanzar {A} (e : excepcion) : M A := λ w, (Lanza e, w).

(** [try: cuerpo / except Exception as e: manejador(e)]: the handler takes
    the instances of [Exception]; anything else that ends the body ends the
    statement too. *)
Definition try_except {A} (cuerpo : M A) (manejador : excepcion → M A) : M A :=
  λ w, match cuerpo w with
       | (Valor a, w') => (Valor a, w')
       | (Lanza e, w') => manejador e w'
       | (Escapa x, w') => (Escapa x, w')
       end.

(** A call that returns or raises without touching the world. *)
Definition de_resultado {A} (r : resultado A) : M A := λ w, (r, w).

Definition leer_disco : M filesystem := λ w, (Valor (disco w), w).

Definition poner_disco (fs : filesystem) : M unit :=
  λ w, (Valor tt, {| disco := fs; traza := traza w |}).

Definition emitir (e : evento) : M unit :=
  λ w, (Valor tt, {| disco := disco w; traza := traza w ++ [e] |}).

(** [print(linea)] *)
Definition print (linea : str) : M unit := emitir (Imprime linea).

(** [print(linea)] in the [n]-th process the pool starts. *)
Definition print_en (n : nat) (linea : str) : M unit :=
  emitir (ImprimeTrabajador n linea).

(** Some events, one after the other. *)
Definition emitir_todos (evs : list evento) : M unit :=
  λ w, (Valor tt, registrar w evs).

(** A call that never comes back. *)
Definition bloquear {A} : M A := λ w, (Escapa Bloqueo, w).

(** A call that a worker process of a pool makes for the main process.
    What the call returns goes to the main process, which goes on with
    [recibe]; an instance of [Exception] it raises is raised in the main
    process; when it ends in another way nothing goes to the main process,
    which goes on with [pierde]. *)
Definition en_trabajador {A B} (llamada : M A) (recibe : A → M B)
    (pierde : M B) : M B :=
  λ w, match llamada w with
       | (Valor a, w') => recibe a w'
       | (Lanza e, w') => (Lanza e, w')
       | (Escapa _, w') => pierde w'
       end.

(** [for x in l: acc = cuerpo(acc, x)] *)
Fixpoint for_each {A B} (l : list A) (acc : B) (cuerpo : B → A → M B) : M B :=
  match l with
  | [] => mret acc
  | x :: l' => acc' ← cuerpo acc x; for_each l' acc' cuerpo
  end.

(** ** The environment of a run *)

(** The loaded Whisper model: [transcribe(ruta, fp16, language)] returns a
    dictionary, raises, or ends in one of the other ways (the worker is
    interrupted, calls [sys.exit], is killed or hangs in the call). The
    audio files do not change during a run, so the answer depends on the
    path alone. *)
Record Modelo := {
  transcribe : str → bool → str → resultado (gmap str str)
}.

(** Everything the script takes from outside. *)
Record Entorno := {
  (** [os.path.dirname(os.path.abspath(__file__))] *)
  RUTA_BASE_SCRIPT : str;
  (** [torch.cuda.is_available()] *)
  cuda_is_available : bool;
  (** [whisper.load_model(nombre)]: the exception it raises, if it does,
      and the model it returns otherwise *)
  falla_load_model : str → option excepcion;
  load_model : str → Modelo;
  (** [os.getpid()] in the [n]-th process the pool starts *)
  getpid : nat → nat;
  (** the operating system refusing [mkdir], [open(p, "w")] or the write
      and close of the text (permissions, full disk, encoding) *)
  falla_mkdir : str → option excepcion;
  falla_abrir : str → option excepcion;
  falla_escribir : str → str → option excepcion;
  (** of the items the workers hold at a moment, in the order they were
      submitted, the place of the one that comes to an end first *)
  termina_primero : list str → nat;
  (** the worker that takes an item *)
  trabajador_de : str → nat;
  (** how many of the steps of its initializer a worker that is never
      given an item has done when the pool is terminated *)
  avance_ocioso : nat → nat
}.

(** ** Operating-system calls in the monad *)

Module os_io.
Import os_path os.

Definition os_path_exists (p : str) : M bool :=
  fs ← leer_disco; mret (exists_ fs p).

Definition os_path_isdir (p : str) : M bool :=
  fs ← leer_disco; mret (isdir fs p).

Definition errno (cls : string) (n : string) (texto : string) (p : str)
  : excepcion :=
  Excepcion (Py.lit cls)
    (Py.lit "[Errno " ++ Py.lit n ++ Py.lit "] " ++ Py.lit texto
     ++ Py.lit ": '" ++ p ++ Py.lit "'").

(** [os.listdir(p)] *)
Definition os_listdir (p : str) : M (list str) :=
  fs ← leer_disco;
  match fs !! p with
  | Some Directorio => mret (listdir fs p)
  | Some (Archivo _) =>
      lanzar (errno "NotADirectoryError" "20" "Not a directory" p)
  | None =>
      lanzar (errno "FileNotFoundError" "2" "No such file or directory" p)
  end.

(** [os.makedirs(p)]: creates [p] and its missing ancestors as
    directories; raises when [p] exists or an ancestor is a regular file. *)
Definition os_makedirs (env : Entorno) (p : str) : M unit :=
  fs ← leer_disco;
  let ancestros := prefijos_dir [] p in
  if existsb (isfile fs) ancestros
  then lanzar (errno "NotADirectoryError" "20" "Not a directory" p)
  else if exists_ fs p
  then lanzar (errno "FileExistsError" "17" "File exists" p)
  else match falla_mkdir env p with
       | Some e => lanzar e
       | None =>
           poner_disco
             (foldr (λ d fs', if exists_ fs' d then fs' else <[d := Directorio]> fs')
                    fs (ancestros ++ [p]))
       end.

(** [open(p, "w", encoding="utf-8")]: creates the file or empties it. *)
Definition abrir_w (env : Entorno) (p : str) : M unit :=
  fs ← leer_disco;
  if isdir fs p
  then lanzar (errno "IsADirectoryError" "21" "Is a directory" p)
  else if negb (isdir fs (dirname p))
  then lanzar (errno "FileNotFoundError" "2" "No such file or directory" p)
  else match falla_abrir env p with
       | Some e => lanzar e
       | None => poner_disco (<[p := Archivo []]> fs)
       end.

(** [f.write(texto)] and the close at the end of the [with] block, for the
    file opened at [p]. *)
Definition escribir (env : Entorno) (p : str) (texto : str) : M unit :=
  match falla_escribir env p texto with
  | Some e => lanzar e
  | None => fs ← leer_disco; poner_disco (<[p := Archivo texto]> fs)
  end.

End os_io.

(** ** Transcriber.py *)

(** An Outcome: [(nombre_archivo, estado, detalle)]. *)
Abbreviation Outcome := (str * str * str)%type.

Module Transcriber.
Import os_path os os_io.

Definition r0 (r : Outcome) : str := r.1.1.
Definition r1 (r : Outcome) : str := r.1.2.
Definition r2 (r : Outcome) : str := r.2.

(** "ÉXITO" and "FALLO" *)
Definition EXITO : str := 201%N :: Py.lit "XITO".
Definition FALLO : str := Py.lit "FALLO".

Definition NUMERO_DE_TRABAJADORES_GPU : nat := 2.
Definition MODELO_WHISPER : str := Py.lit "medium".
Definition IDIOMA_AUDIO : str := Py.lit "es".

Section Programa.
Context (env : Entorno).

Definition CARPETA_AUDIOS : str :=
  join (RUTA_BASE_SCRIPT env) (Py.lit "audios").
Definition CARPETA_TRANSCRIPCIONES : str :=
  join (RUTA_BASE_SCRIPT env) (Py.lit "transcripciones").

(** Lines 32-36. *)
Definition crear_carpetas_necesarias : M unit :=
  existe ← os_path_exists CARPETA_TRANSCRIPCIONES;
  if negb existe then
    print (128193%N :: Py.lit " Creando carpeta de salida: "
           ++ CARPETA_TRANSCRIPCIONES);;
    os_makedirs env CARPETA_TRANSCRIPCIONES
  else mret tt.

(** [whisper.load_model(nombre)], in a worker. *)
Definition cargar_modelo (nombre : str) : M Modelo :=
  match falla_load_model env nombre with
  | Some e => lanzar e
  | None => emitir (CargaModelo nombre);; mret (load_model env nombre)
  end.

(** Lines 38-46: runs once in each worker process, here the [n]-th the
    pool starts, and returns the value it leaves in that process's
    [modelo_global]. *)
Definition inicializar_trabajador (n : nat) : M (option Modelo) :=
  print_en n (Py.lit "Proceso " ++ Py.str_of_nat (getpid env n)
              ++ Py.lit ": Cargando modelo de Whisper en la GPU...");;
  modelo ← cargar_modelo MODELO_WHISPER;
  let modelo_global := Some modelo in
  print_en n (Py.lit "Proceso " ++ Py.str_of_nat (getpid env n)
              ++ Py.lit ": Modelo cargado y listo.");;
  mret modelo_global.

(** [modelo_global.transcribe(ruta, fp16=..., language=...)], where
    [modelo_global] may still be [None]. *)
Definition llamar_transcribe (modelo_global : option Modelo)
    (ruta : str) (fp16 : bool) (language : str) : M (gmap str str) :=
  match modelo_global with
  | Some m => de_resultado (transcribe m ruta fp16 language)
  | None =>
      lanzar (Excepcion (Py.lit "AttributeError")
                (Py.lit "'NoneType' object has no attribute 'transcribe'"))
  end.

(** [d[k]] on a dictionary with string keys. *)
Definition getitem (d : gmap str str) (k : str) : M str :=
  match d !! k with
  | Some v => mret v
  | None => lanzar (Excepcion (Py.lit "KeyError") (Py.lit "'" ++ k ++ Py.lit "'"))
  end.

(** The path line 54 builds from [ruta_audio], and the path line 74 builds
    from [nombre_archivo]. *)
Definition salida_de_procesar (ruta_audio : str) : str :=
  join CARPETA_TRANSCRIPCIONES
       ((splitext (basename ruta_audio)).1 ++ Py.lit ".txt").

Definition salida_de_encontrar (nombre_archivo : str) : str :=
  join CARPETA_TRANSCRIPCIONES
       ((splitext nombre_archivo).1 ++ Py.lit ".txt").

(** The derived output path in the words of the specification: the output
    directory joined with the input's base name, its extension (what
    [splitext] splits off) replaced by ".txt". *)
Definition reemplazar_extension (nombre ext : str) : str :=
  (splitext nombre).1 ++ ext.

Definition salida_derivada (ruta_audio : str) : str :=
  join CARPETA_TRANSCRIPCIONES
       (reemplazar_extension (basename ruta_audio) (Py.lit ".txt")).

(** Lines 57-60: the body of the [try]. *)
Definition intento_procesar (modelo_global : option Modelo)
    (ruta_audio nombre_archivo ruta_salida_txt : str) : M Outcome :=
  resultado ← llamar_transcribe modelo_global ruta_audio true IDIOMA_AUDIO;
  abrir_w env ruta_salida_txt;;
  texto ← getitem resultado (Py.lit "text");
  escribir env ruta_salida_txt texto;;
  mret (nombre_archivo, EXITO, []).

(** Lines 48-63. *)
Definition procesar_archivo (modelo_global : option Modelo) (ruta_audio : str)
  : M Outcome :=
  let nombre_archivo := basename ruta_audio in
  let ruta_salida_txt :=
    join CARPETA_TRANSCRIPCIONES
         ((splitext nombre_archivo).1 ++ Py.lit ".txt") in
  try_except
    (intento_procesar modelo_global ruta_audio nombre_archivo ruta_salida_txt)
    (λ e, mret (nombre_archivo, FALLO, mensaje e)).

(** Lines 65-78. *)
Definition encontrar_archivos_pendientes : M (option (list str)) :=
  print (Py.lit "Buscando archivos pendientes...");;
  es_dir ← os_path_isdir CARPETA_AUDIOS;
  if negb es_dir then mret None
  else
    nombres ← os_listdir CARPETA_AUDIOS;
    archivos_pendientes ←
      for_each (Py.sorted nombres) [] (λ archivos_pendientes nombre_archivo,
        if Py.endswith nombre_archivo (Py.lit ".opus") then
          let ruta_salida_txt :=
            join CARPETA_TRANSCRIPCIONES
                 ((splitext nombre_archivo).1 ++ Py.lit ".txt") in
          existe ← os_path_exists ruta_salida_txt;
          if negb existe
          then mret (archivos_pendientes ++ [join CARPETA_AUDIOS nombre_archivo])
          else mret archivos_pendientes
        else mret archivos_pendientes);
    print (Py.lit "Se encontraron "
           ++ Py.str_of_nat (length archivos_pendientes)
           ++ Py.lit " archivos para procesar.");;
    mret (Some archivos_pendientes).

(** A name is pending when it passes the two tests of lines 73 and 75. *)
Definition pendiente (fs : filesystem) (nombre_archivo : str) : bool :=
  Py.endswith nombre_archivo (Py.lit ".opus")
  && negb (exists_ fs (salida_de_encontrar nombre_archivo)).

(** The list the loop of lines 72-76 builds from the sorted names. *)
Definition pendientes (fs : filesystem) : list str :=
  join CARPETA_AUDIOS
  <$> filter (λ n, pendiente fs n = true)
             (Py.sorted (listdir fs CARPETA_AUDIOS)).

(** The two lines discovery prints. *)
Definition linea_buscando : evento :=
  Imprime (Py.lit "Buscando archivos pendientes...").

Definition linea_encontrados (n : nat) : evento :=
  Imprime (Py.lit "Se encontraron " ++ Py.str_of_nat n
           ++ Py.lit " archivos para procesar.").

(** The line [main] prints when discovery returns [None] (line 89), and the
    line it prints when discovery returns the empty list (line 93). *)
Definition linea_sin_carpeta : str :=
  128293%N
  :: Py.lit " Error: No se pudo encontrar la carpeta de audios en la ruta: "
  ++ CARPETA_AUDIOS.

Definition linea_nada_pendiente : str :=
  127881%N :: Py.lit " " ++ [161%N]
  ++ Py.lit "No hay archivos pendientes! Todo el trabajo est"
  ++ [225%N] ++ Py.lit " hecho.".

(** The streaming line of line 106. *)
Definition linea_error (resultado : Outcome) : str :=
  10%N :: Py.lit "[ERROR] Archivo: " ++ r0 resultado
  ++ Py.lit " | Causa: " ++ Py.slice_to (r2 resultado) 100 ++ Py.lit "...".

(** The model every worker holds once its initializer has run. *)
Definition modelo_cargado : Modelo := load_model env MODELO_WHISPER.

(** Whether the call a worker makes for an item ends with something the
    worker hands back: [procesar_archivo] returns unless [transcribe] ends
    outside [Exception]. *)
Definition vuelve (ruta : str) : bool :=
  match transcribe modelo_cargado ruta true IDIOMA_AUDIO with
  | Escapa _ => false
  | _ => true
  end.

(** [pool.imap_unordered(procesar_archivo, cola)]: the order in which the
    calls come to an end. The workers take the items in the order of the
    list, one each, so the call that ends next is one of the first
    [NUMERO_DE_TRABAJADORES_GPU] that have not ended; [elige] says
    which. [n] bounds the number of calls. *)
Fixpoint planificar (elige : list str → nat) (n : nat) (cola : list str)
  : list str :=
  match n with
  | O => []
  | S n' =>
      let en_curso := take NUMERO_DE_TRABAJADORES_GPU cola in
      let i := (elige en_curso `mod` length en_curso)%nat in
      match cola !! i with
      | Some ruta => ruta :: planificar elige n' (delete i cola)
      | None => []
      end
  end.

Definition planificacion (archivos_a_procesar : list str) : list str :=
  planificar (termina_primero env) (length archivos_a_procesar)
    archivos_a_procesar.

(** The pool and the loop of lines 99-108 at a moment: the worker
    processes, each with the number of its process and its
    [modelo_global]; how many processes the pool has started; the list
    [resultados]; and the items whose worker handed nothing back. *)
Record Pool := {
  trabajadores : list (nat * option Modelo);
  iniciados : nat;
  resultados : list Outcome;
  perdidos : list str
}.

(** A pool of [NUMERO_DE_TRABAJADORES_GPU] workers in which a worker's
    [modelo_global] is [None] or the loaded model. *)
Definition pool_en_orden (p : Pool) : Prop :=
  length (trabajadores p) = NUMERO_DE_TRABAJADORES_GPU
  ∧ Forall (λ t, t.2 = None ∨ t.2 = Some modelo_cargado) (trabajadores p).

(** Line 99 and line 101: the pool starts its worker processes. *)
Definition pool_inicial : Pool :=
  {| trabajadores := (λ k, (k, None)) <$> seq 0 NUMERO_DE_TRABAJADORES_GPU;
     iniciados := NUMERO_DE_TRABAJADORES_GPU;
     resultados := [];
     perdidos := [] |}.

(** The worker in place [k] before it takes an item: its process has run
    the initializer. When the initializer raises, the process ends and the
    pool starts another in its place, whose initializer raises too: no
    worker ever takes the item, and the loop waits for it for ever. *)
Definition alistar_trabajador (p : Pool) (k : nat)
  : M (Pool * option Modelo) :=
  match trabajadores p !! k with
  | Some (n, None) =>
      λ w, match inicializar_trabajador n w with
           | (Valor modelo_global, w') =>
               (Valor ({| trabajadores :=
                            <[k := (n, modelo_global)]> (trabajadores p);
                          iniciados := iniciados p;
                          resultados := resultados p;
                          perdidos := perdidos p |}, modelo_global), w')
           | (_, w') => (Escapa Bloqueo, w')
           end
  | Some (_, modelo_global) => mret (p, modelo_global)
  | None => mret (p, None)
  end.

(** Lines 104-108: one call of [procesar_archivo] comes to an end. A
    worker took the item [ruta] and called [procesar_archivo]. When the
    call returns, the loop receives the result and runs its body. When it
    ends outside [Exception] the worker's process is gone with the item,
    and the pool starts a process in its place. *)
Definition recibir_resultado (p : Pool) (ruta : str) : M Pool :=
  let k := (trabajador_de env ruta `mod` NUMERO_DE_TRABAJADORES_GPU)%nat in
  listo ← alistar_trabajador p k;
  emitir (Despacha ruta);;
  en_trabajador (procesar_archivo listo.2 ruta)
    (λ resultado,
       (if Py.contiene FALLO (r1 resultado)
        then print (linea_error resultado)
        else mret tt);;
       emitir (Progreso 1);;
       mret {| trabajadores := trabajadores listo.1;
               iniciados := iniciados listo.1;
               resultados := resultados listo.1 ++ [resultado];
               perdidos := perdidos listo.1 |})
    (mret {| trabajadores :=
               <[k := (iniciados listo.1, None)]> (trabajadores listo.1);
             iniciados := S (iniciados listo.1);
             resultados := resultados listo.1;
             perdidos := perdidos listo.1 ++ [ruta] |}).

(** What the initializer of the [n]-th process does, as far as it gets. *)
Definition pasos_inicializador (n : nat) : list evento :=
  traza (inicializar_trabajador n {| disco := ∅; traza := [] |}).2.

(** The processes of the pool whose initializer has not run. *)
Definition ociosos (p : Pool) : list nat :=
  omap (λ t, match t.2 with None => Some t.1 | Some _ => None end)
       (trabajadores p).

(** The end of the loop. When every item came back, the [with] block of
    line 99 ends and the pool is terminated: a worker that was given no
    item is stopped wherever its initializer is. When an item was lost,
    the loop goes on waiting for it, and the workers without an item have
    the time to end their initializer. *)
Definition cerrar_pool (p : Pool) : M (list Outcome) :=
  if bool_decide (perdidos p = []) then
    emitir_todos
      (concat ((λ n, take (avance_ocioso env n) (pasos_inicializador n))
               <$> ociosos p));;
    mret (resultados p)
  else
    emitir_todos (concat (pasos_inicializador <$> ociosos p));;
    bloquear.

(** Lines 99-108: the pool, the progress bar, the loop over
    [imap_unordered] and the end of the [with] blocks. *)
Definition ejecutar_pool (archivos_a_procesar : list str) : M (list Outcome) :=
  emitir (CreaPool NUMERO_DE_TRABAJADORES_GPU);;
  emitir (BarraProgreso (length archivos_a_procesar));;
  p ← for_each (planificacion archivos_a_procesar) pool_inicial
        recibir_resultado;
  cerrar_pool p.

(** The line of line 123 for one failed Outcome. *)
Definition linea_fallo (r : Outcome) : str :=
  Py.lit "Archivo: " ++ basename (r0 r)
  ++ Py.lit " | Error: " ++ Py.slice_to (r2 r) 100 ++ Py.lit "...".

(** Lines 110-125. *)
Definition reporte_final (resultados : list Outcome) : M unit :=
  let exitos := filter (λ r, r1 r = EXITO) resultados in
  let fallos := filter (λ r, r1 r = FALLO) resultados in
  print (10%N :: replicate 50 61%N);;
  print (127881%N :: Py.lit " " ++ [161%N] ++ Py.lit "Proceso completado!");;
  print (9989%N :: Py.lit " Transcritos con " ++ [233%N] ++ Py.lit "xito: "
         ++ Py.str_of_nat (length exitos));;
  print (10060%N :: Py.lit " Fallos: " ++ Py.str_of_nat (length fallos));;
  (if bool_decide (fallos ≠ []) then
     print (10%N :: Py.lit "--- Archivos que fallaron ---");;
     for_each fallos tt (λ _ r, print (linea_fallo r))
   else mret tt);;
  print (replicate 50 61%N).

(** Lines 80-125. *)
Definition main : M unit :=
  if negb (cuda_is_available env) then
    print (128293%N :: Py.lit " Error: CUDA no est" ++ [225%N]
           ++ Py.lit " disponible.")
  else
    crear_carpetas_necesarias;;
    archivos_a_procesar ← encontrar_archivos_pendientes;
    match archivos_a_procesar with
    | None =>
        print (128293%N
               :: Py.lit " Error: No se pudo encontrar la carpeta de audios en la ruta: "
               ++ CARPETA_AUDIOS)
    | Some [] =>
        print (127881%N :: Py.lit " " ++ [161%N]
               ++ Py.lit "No hay archivos pendientes! Todo el trabajo est"
               ++ [225%N] ++ Py.lit " hecho.")
    | Some archivos_a_procesar =>
        print (128640%N :: Py.lit " Iniciando pool con "
               ++ Py.str_of_nat NUMERO_DE_TRABAJADORES_GPU
               ++ Py.lit " trabajadores...");;
        resultados ← ejecutar_pool archivos_a_procesar;
        reporte_final resultados
    end.

(** The line of line 82 and the line of line 96. *)
Definition linea_sin_cuda : str :=
  128293%N :: Py.lit " Error: CUDA no est" ++ [225%N]
  ++ Py.lit " disponible.".

Definition linea_iniciando : str :=
  128640%N :: Py.lit " Iniciando pool con "
  ++ Py.str_of_nat NUMERO_DE_TRABAJADORES_GPU
  ++ Py.lit " trabajadores...".

(** What the main process adds to the trace in one turn of the loop of
    lines 104-108, for the Outcome it receives. *)
Definition eventos_de (resultado : Outcome) : list evento :=
  (if Py.contiene FALLO (r1 resultado)
   then [Imprime (linea_error resultado)] else [])
  ++ [Progreso 1].

(** The lines of the final report (lines 114-125) before and after the
    list of failures. *)
Definition cabecera_reporte (exitos fallos : nat) : list str :=
  [ 10%N :: replicate 50 61%N;
    127881%N :: Py.lit " " ++ [161%N] ++ Py.lit "Proceso completado!";
    9989%N :: Py.lit " Transcritos con " ++ [233%N] ++ Py.lit "xito: "
    ++ Py.str_of_nat exitos;
    10060%N :: Py.lit " Fallos: " ++ Py.str_of_nat fallos ].

Definition titulo_fallos : str :=
  10%N :: Py.lit "--- Archivos que fallaron ---".

Definition pie_reporte : str := replicate 50 61%N.

End Programa.
End Transcriber.

(** The items whose result the loop of line 104 receives, in the order in
    which it receives them: none when the workers' initializer raises, and
    otherwise the items whose call comes back, in the order in which the
    calls end. *)
Definition orden_de_llegada (env : Entorno) (items : list str) : list str :=
  match falla_load_model env Transcriber.MODELO_WHISPER with
  | Some _ => []
  | None =>
      filter (λ ruta, Transcriber.vuelve env ruta = true)
             (Transcriber.planificacion env items)
  end.

(** ** A small concrete run *)

Module Ejemplo.
Import Py os_path os.

(** A model that fails on "roto.opus" with the given message and hears
    "hola" in every other file. *)
Definition modelo (msg : str) : Modelo :=
  {| transcribe := λ ruta _ _,
       if bool_decide (basename ruta = lit "roto.opus")
       then Lanza (Excepcion (lit "RuntimeError") msg)
       else Valor {[ lit "text" := lit "hola" ]} |}.

(** The script lives in "/home/u/wa"; nothing the operating system does
    fails; of the items the workers hold, the last one ends first; a worker
    without an item is stopped after the first line of its initializer. *)
Definition env (msg : str) : Entorno :=
  {| RUTA_BASE_SCRIPT := lit "/home/u/wa";
     cuda_is_available := true;
     falla_load_model := λ _, None;
     load_model := λ _, modelo msg;
     getpid := λ k, (4000 + k)%nat;
     falla_mkdir := λ _, None;
     falla_abrir := λ _, None;
     falla_escribir := λ _ _, None;
     termina_primero := λ en_curso, (length en_curso - 1)%nat;
     trabajador_de := λ ruta, length ruta;
     avance_ocioso := λ _, 1%nat |}.

Definition boom : str := lit "boom".




Definition ruta_a : str := lit "/home/u/wa/audios/a.opus".

Definition ruta_rota : str := lit "/home/u/wa/audios/roto.opus".

Definition dos_rutas : list str := [lit "/home/u/wa/audios/a.opus"; ruta_rota].

(** The Outcome of "roto.opus". *)
Definition resultado_roto : Outcome := (lit "roto.opus", lit "FALLO", boom).

(** The folders down to the script, and the script. *)
Definition raices : list (str * nodo) :=
  [ (lit "/home", Directorio);
    (lit "/home/u", Directorio);
    (lit "/home/u/wa", Directorio);
    (lit "/home/u/wa/Transcriber.py", Archivo (lit "import os")) ].

(** Three audio files, a subdirectory and a note; one transcript exists. *)
Definition disco_inicial : filesystem :=
  list_to_map
    (raices ++
     [ (lit "/home/u/wa/audios", Directorio);
       (lit "/home/u/wa/audios/b.opus", Archivo (lit "OggS"));
       (lit "/home/u/wa/audios/a.opus", Archivo (lit "OggS"));
       (lit "/home/u/wa/audios/roto.opus", Archivo []);
       (lit "/home/u/wa/audios/nota.txt", Archivo (lit "hi"));
       (lit "/home/u/wa/audios/viejos", Directorio);
       (lit "/home/u/wa/audios/viejos/c.opus", Archivo (lit "OggS"));
       (lit "/home/u/wa/transcripciones", Directorio);
       (lit "/home/u/wa/transcripciones/b.txt", Archivo []) ]).

Definition mundo_inicial : Mundo := {| disco := disco_inicial; traza := [] |}.

(** The same machine before the two folders were made. *)
Definition disco_sin_audios : filesystem := list_to_map raices.

Definition mundo_sin_audios : Mundo :=
  {| disco := disco_sin_audios; traza := [] |}.

(** A machine where the only audio file has its transcript. *)
Definition disco_hecho : filesystem :=
  list_to_map
    (raices ++
     [ (lit "/home/u/wa/audios", Directorio);
       (lit "/home/u/wa/audios/b.opus", Archivo (lit "OggS"));
       (lit "/home/u/wa/audios/nota.txt", Archivo (lit "hi"));
       (lit "/home/u/wa/transcripciones", Directorio);
       (lit "/home/u/wa/transcripciones/b.txt", Archivo []) ]).

Definition mundo_hecho : Mundo := {| disco := disco_hecho; traza := [] |}.

(** A machine with two audio files and no transcript yet. *)
Definition disco_dos : filesystem :=
  list_to_map
    (raices ++
     [ (lit "/home/u/wa/audios", Directorio);
       (lit "/home/u/wa/audios/a.opus", Archivo (lit "OggS"));
       (lit "/home/u/wa/audios/c.opus", Archivo (lit "OggS"));
       (lit "/home/u/wa/transcripciones", Directorio) ]).

Definition mundo_dos : Mundo := {| disco := disco_dos; traza := [] |}.

(** What the model hears, and the two Outcomes of a run on [mundo_dos]. *)
Definition dicc_hola : gmap str str := {[ lit "text" := lit "hola" ]}.

Definition resultados_dos : list Outcome :=
  [ (lit "c.opus", 201%N :: lit "XITO", []);
    (lit "a.opus", 201%N :: lit "XITO", []) ].


(** Two hidden-file names that end in ".opus". *)
Definition disco_ocultos : filesystem :=
  list_to_map
    (raices ++
     [ (lit "/home/u/wa/audios", Directorio);
       (lit "/home/u/wa/audios/.opus", Archivo (lit "OggS"));
       (lit "/home/u/wa/audios/.opus.opus", Archivo (lit "OggS"));
       (lit "/home/u/wa/transcripciones", Directorio) ]).

Definition mundo_ocultos : Mundo := {| disco := disco_ocultos; traza := [] |}.

End Ejemplo.

(** * Properties *)

(** ** Strings *)

Section PyLemas.
Import Py.

Lemma norm_idx_nonneg (n : nat) (i : nat) :
  norm_idx n (Z.of_nat i) = (i `min` n)%nat.
Proof.
  unfold norm_idx. destruct (Z.ltb_spec (Z.of_nat i) 0); lia.
Qed.

Lemma slice_from_nat (s : str) (i : nat) : slice_from s (Z.of_nat i) = drop i s.
Proof.
  unfold slice_from. rewrite norm_idx_nonneg.
  destruct (decide (i ≤ length s)%nat) as [Hle|Hgt].
  - by rewrite Nat.min_l.
  - rewrite Nat.min_r by lia. rewrite !drop_ge; [done|lia|lia].
Qed.

Lemma slice_to_nat (s : str) (i : nat) : slice_to s (Z.of_nat i) = take i s.
Proof.
  unfold slice_to. rewrite norm_idx_nonneg.
  destruct (decide (i ≤ length s)%nat) as [Hle|Hgt].
  - by rewrite Nat.min_l.
  - rewrite Nat.min_r by lia. rewrite !take_ge; [done|lia|lia].
Qed.

Lemma slice_nat (s : str) (i j : nat) :
  (j ≤ length s)%nat →
  slice s (Z.of_nat i) (Z.of_nat j) = take (j - i) (drop i s).
Proof.
  intros Hj. unfold slice. rewrite !norm_idx_nonneg.
  rewrite (Nat.min_l j) by done.
  destruct (decide (i ≤ length s)%nat) as [Hle|Hgt].
  - by rewrite Nat.min_l.
  - rewrite Nat.min_r by lia. rewrite !drop_ge by lia.
    by rewrite !take_nil.
Qed.

Lemma startswith_true (s t : str) : startswith s t = true ↔ t `prefix_of` s.
Proof.
  unfold startswith. rewrite bool_decide_eq_true. split.
  - intros <-. apply prefix_take.
  - intros [u ->]. by rewrite take_app_length.
Qed.

Lemma endswith_true (s t : str) : endswith s t = true ↔ t `suffix_of` s.
Proof.
  unfold endswith. rewrite andb_true_iff, Nat.leb_le, bool_decide_eq_true.
  split.
  - intros [_ <-]. apply suffix_drop.
  - intros [u ->]. rewrite length_app. split; [lia|].
    replace (length u + length t - length t)%nat with (length u) by lia.
    by rewrite drop_app_length.
Qed.

Lemma rfind_desde_app (i : Z) (a b : str) (c : N) (acc : Z) :
  rfind_desde i (a ++ b) c acc
  = rfind_desde (i + Z.of_nat (length a)) b c (rfind_desde i a c acc).
Proof.
  revert i acc. induction a as [|x a IH]; intros i acc; simpl.
  - by rewrite Z.add_0_r.
  - rewrite IH. f_equal. lia.
Qed.

Lemma rfind_desde_notin (i : Z) (s : str) (c : N) (acc : Z) :
  c ∉ s → rfind_desde i s c acc = acc.
Proof.
  revert i acc. induction s as [|x s IH]; intros i acc Hc; simpl; [done|].
  apply not_elem_of_cons in Hc as [Hne Hc].
  rewrite IH by done.
  destruct (N.eqb_spec x c); [congruence|done].
Qed.

Lemma rfind_notin (s : str) (c : N) : c ∉ s → rfind s c = -1.
Proof. apply rfind_desde_notin. Qed.

Lemma rfind_last (a b : str) (c : N) :
  c ∉ b → rfind (a ++ c :: b) c = Z.of_nat (length a).
Proof.
  intros Hc. unfold rfind. rewrite rfind_desde_app. simpl.
  rewrite N.eqb_refl. by rewrite rfind_desde_notin.
Qed.

(** [rfind] finds the last occurrence, when there is one. *)
Lemma rfind_spec (s : str) (c : N) :
  ((c ∉ s) ∧ rfind s c = -1)
  ∨ ∃ a b, s = a ++ c :: b ∧ (c ∉ b) ∧ rfind s c = Z.of_nat (length a).
Proof.
  induction s as [|x s IH] using rev_ind.
  - left. split; [apply not_elem_of_nil|done].
  - destruct (decide (x = c)) as [->|Hne].
    + right. exists s, []. split; [done|]. split; [apply not_elem_of_nil|].
      by apply rfind_last, not_elem_of_nil.
    + destruct IH as [[Hc Hr]|(a & b & -> & Hb & Hr)].
      * left. split.
        -- rewrite not_elem_of_app, not_elem_of_cons.
           split; [done|]. split; [done|apply not_elem_of_nil].
        -- apply rfind_notin. rewrite not_elem_of_app, not_elem_of_cons.
           split; [done|]. split; [done|apply not_elem_of_nil].
      * right. exists a, (b ++ [x]). rewrite <-app_assoc. split; [done|].
        assert (c ∉ b ++ [x]) as Hbx.
        { rewrite not_elem_of_app, not_elem_of_cons.
          split; [done|]. split; [done|apply not_elem_of_nil]. }
        split; [done|]. by apply rfind_last.
Qed.

(** The code-point order is a total order. *)
Lemma leb_refl (s : str) : leb s s = true.
Proof.
  induction s as [|x s IH]; simpl; [done|].
  rewrite N.ltb_irrefl, N.eqb_refl. done.
Qed.

Lemma leb_total (s t : str) : leb s t = true ∨ leb t s = true.
Proof.
  revert t. induction s as [|x s IH]; intros [|y t]; simpl; auto.
  destruct (N.ltb_spec x y), (N.ltb_spec y x); auto; try lia.
  assert (x = y) as -> by lia. rewrite N.eqb_refl. apply IH.
Qed.

Lemma leb_cons (x y : N) (s t : str) :
  leb (x :: s) (y :: t) = true ↔ (x < y)%N ∨ (x = y ∧ leb s t = true).
Proof.
  simpl. destruct (N.ltb_spec x y) as [Hlt|Hge].
  - split; auto.
  - destruct (N.eqb_spec x y) as [->|Hne].
    + split; [auto|]. intros [?|[_ ?]]; [lia|done].
    + split; [done|]. intros [?|[? _]]; [lia|done].
Qed.

Lemma leb_trans (s t u : str) :
  leb s t = true → leb t u = true → leb s u = true.
Proof.
  revert t u. induction s as [|x s IH]; intros [|y t] [|z u]; try done.
  rewrite !leb_cons. intros [?|[-> Hst]] [?|[-> Htu]].
  - left. lia.
  - by left.
  - by left.
  - right. split; [done|]. by apply (IH t).
Qed.

Lemma leb_antisym (s t : str) : leb s t = true → leb t s = true → s = t.
Proof.
  revert t. induction s as [|x s IH]; intros [|y t]; try done.
  rewrite !leb_cons. intros [?|[-> Hst]] [?|[? Hts]]; try lia.
  f_equal. by apply IH.
Qed.

#[global] Instance le_total : Total le.
Proof. intros s t. apply leb_total. Qed.

#[global] Instance le_trans : Transitive le.
Proof. intros s t u. apply leb_trans. Qed.

#[global] Instance le_antisym : AntiSymm (=) le.
Proof. intros s t. apply leb_antisym. Qed.

#[global] Instance le_refl : Reflexive le.
Proof. intros s. apply leb_refl. Qed.

Lemma sorted_Permutation (l : list str) : sorted l ≡ₚ l.
Proof. apply merge_sort_Permutation. Qed.

Lemma sorted_StronglySorted (l : list str) : StronglySorted le (sorted l).
Proof. apply (StronglySorted_merge_sort le). Qed.

(** [sorted] depends only on which names are listed, not on the order in
    which the operating system lists them. *)
Lemma sorted_perm_eq (l1 l2 : list str) : l1 ≡ₚ l2 → sorted l1 = sorted l2.
Proof.
  intros Hp. apply (StronglySorted_unique le).
  - apply sorted_StronglySorted.
  - apply sorted_StronglySorted.
  - by rewrite !sorted_Permutation.
Qed.

End PyLemas.

(** ** Paths *)

Section PathLemas.
Import Py os_path.

Lemma basename_join_sep (a n : str) :
  sep ∉ n → basename (a ++ [sep] ++ n) = n.
Proof.
  intros Hn. unfold basename. simpl. rewrite rfind_last by done.
  replace (Z.of_nat (length a) + 1) with (Z.of_nat (length a + 1)) by lia.
  rewrite slice_from_nat.
  replace (a ++ sep :: n) with ((a ++ [sep]) ++ n) by by rewrite <-app_assoc.
  replace (length a + 1)%nat with (length (a ++ [sep]))
    by (rewrite length_app; simpl; lia).
  by rewrite drop_app_length.
Qed.

Lemma basename_sin_sep (n : str) : sep ∉ n → basename n = n.
Proof.
  intros Hn. unfold basename. rewrite rfind_notin by done.
  change (-1 + 1) with (Z.of_nat 0). by rewrite slice_from_nat.
Qed.

Lemma startswith_sep_false (n : str) : sep ∉ n → startswith n [sep] = false.
Proof.
  intros Hn. apply not_true_is_false. rewrite startswith_true.
  intros [u ->]. apply Hn. set_solver.
Qed.

Lemma endswith_sep_false (a : str) (c : N) :
  c ≠ sep → endswith (a ++ [c]) [sep] = false.
Proof.
  intros Hc. apply not_true_is_false. rewrite endswith_true.
  intros [u Hu]. apply (f_equal last) in Hu.
  rewrite !last_snoc in Hu. congruence.
Qed.

Lemma join_relativo (a b : str) :
  startswith b [sep] = false → join a b = con_sep a ++ b.
Proof.
  intros Hb. unfold join, con_sep. rewrite Hb.
  destruct (bool_decide (a = []) || endswith a [sep]); [done|].
  by rewrite <-app_assoc.
Qed.

Lemma join_dir (a : str) (c : N) (n : str) :
  c ≠ sep → sep ∉ n → join (a ++ [c]) n = (a ++ [c]) ++ [sep] ++ n.
Proof.
  intros Hc Hn. rewrite join_relativo by by apply startswith_sep_false.
  unfold con_sep. rewrite endswith_sep_false by done.
  rewrite bool_decide_eq_false_2 by by destruct a.
  simpl. by rewrite <-!app_assoc.
Qed.

(** A base name holds no separator. *)
Lemma basename_sin_separador (p : str) : sep ∉ basename p.
Proof.
  destruct (rfind_spec p sep) as [[Hp _]|(a & b & -> & Hb & _)].
  - by rewrite basename_sin_sep.
  - change (a ++ sep :: b) with (a ++ [sep] ++ b).
    by rewrite basename_join_sep.
Qed.

Lemma _splitext_loop_casos (n : nat) (p : str) (i dotIndex : Z) :
  _splitext_loop n p i dotIndex = None
  ∨ _splitext_loop n p i dotIndex
    = Some (slice_to p dotIndex, slice_from p dotIndex).
Proof.
  revert i. induction n as [|n IH]; intros i; cbn [_splitext_loop]; [by left|].
  case_bool_decide; [by right|apply IH].
Qed.

(** The root [splitext] returns is made of characters of the name. *)
Lemma splitext_raiz_subseteq (p : str) : (splitext p).1 ⊆ p.
Proof.
  unfold splitext. destruct (_ <? _); [|done].
  destruct (_splitext_loop_casos
              (Z.to_nat (rfind p extsep - (rfind p sep + 1)))
              p (rfind p sep + 1) (rfind p extsep)) as [->| ->]; [done|].
  cbn [fst]. apply subseteq_take.
Qed.

End PathLemas.

(** ** The file system *)

Section DiscoLemas.
Import os_path os.

Lemma drop_dir_sep (d n : str) : drop (length d + 1) (d ++ [sep] ++ n) = n.
Proof.
  rewrite app_assoc.
  replace (length d + 1)%nat with (length (d ++ [sep]))
    by (rewrite length_app; simpl; lia).
  by rewrite drop_app_length.
Qed.

Lemma entrada_de_Some (d k n : str) :
  entrada_de d k = Some n ↔ k = d ++ [sep] ++ n ∧ n ≠ [] ∧ sep ∉ n.
Proof.
  unfold entrada_de. case_bool_decide as Hk.
  - split.
    + intros [= <-]. exact Hk.
    + intros (-> & _ & _). f_equal. apply drop_dir_sep.
  - split; [done|]. intros (-> & Hne & Hs). exfalso. apply Hk.
    rewrite drop_dir_sep. auto.
Qed.

(** The entries of a directory are the non-empty names without separator
    under which some path of the file system hangs from it. *)
Lemma elem_of_listdir (fs : filesystem) (d n : str) :
  n ∈ listdir fs d ↔ n ≠ [] ∧ (sep ∉ n) ∧ is_Some (fs !! (d ++ [sep] ++ n)).
Proof.
  unfold listdir. rewrite list_elem_of_omap. split.
  - intros (k & Hk & He). apply entrada_de_Some in He as (-> & Hne & Hs).
    apply list_elem_of_fmap in Hk as ([k v] & Hkv & Hin). simpl in Hkv. subst k.
    apply elem_of_map_to_list in Hin. eauto.
  - intros (Hne & Hs & [v Hv]). exists (d ++ [sep] ++ n). split.
    + apply list_elem_of_fmap. exists (d ++ [sep] ++ n, v). split; [done|].
      by apply elem_of_map_to_list.
    + by apply entrada_de_Some.
Qed.

Lemma NoDup_omap_inj {A B} (f : A → option B) (l : list A) :
  (∀ x x' y, f x = Some y → f x' = Some y → x = x') →
  NoDup l → NoDup (omap f l).
Proof.
  intros Hinj. induction 1 as [|x l Hx Hl IH]; simpl; [constructor|].
  destruct (f x) as [y|] eqn:Hfx; [|done].
  constructor; [|done].
  rewrite list_elem_of_omap. intros (x' & Hx' & Hfx').
  by rewrite (Hinj _ _ _ Hfx Hfx') in Hx.
Qed.

(** A directory lists each entry once. *)
Lemma NoDup_listdir (fs : filesystem) (d : str) : NoDup (listdir fs d).
Proof.
  unfold listdir. apply NoDup_omap_inj.
  - intros k k' n (-> & _)%entrada_de_Some (-> & _)%entrada_de_Some. done.
  - apply NoDup_fst_map_to_list.
Qed.

Lemma exists_true (fs : filesystem) (p : str) :
  exists_ fs p = true ↔ is_Some (fs !! p).
Proof. unfold exists_. apply bool_decide_eq_true. Qed.

Lemma isdir_true (fs : filesystem) (p : str) :
  isdir fs p = true ↔ fs !! p = Some Directorio.
Proof. unfold isdir. apply bool_decide_eq_true. Qed.

Lemma lookup_archivos (fs : filesystem) (p : str) (t : str) :
  archivos fs !! p = Some t ↔ fs !! p = Some (Archivo t).
Proof.
  unfold archivos. rewrite lookup_omap.
  destruct (fs !! p) as [[t'|]|]; simpl; naive_solver.
Qed.

End DiscoLemas.

(** ** Running the monad *)

Lemma run_bind {A B} (c : M A) (f : A → M B) (w : Mundo) :
  (c ≫= f) w = match c w with
               | (Valor a, w') => f a w'
               | (Lanza e, w') => (Lanza e, w')
               | (Escapa x, w') => (Escapa x, w')
               end.
Proof. reflexivity. Qed.

Lemma run_ret {A} (a : A) (w : Mundo) : mret (M := M) a w = (Valor a, w).
Proof. reflexivity. Qed.

Lemma run_print (l : str) (w : Mundo) :
  print l w = (Valor tt, {| disco := disco w; traza := traza w ++ [Imprime l] |}).
Proof. reflexivity. Qed.

Ltac mred :=
  unfold os_io.os_path_exists, os_io.os_path_isdir, os_io.os_listdir, print;
  unfold mbind, M_bind, mret, M_ret, emitir, leer_disco, poner_disco,
    lanzar, de_resultado, try_except;
  cbn beta iota zeta delta [disco traza negb andb orb fst snd].

(** A loop whose body only reads the world and never raises. *)
Lemma for_each_puro {A B} (g : filesystem → B → A → B) (cuerpo : B → A → M B)
    (l : list A) (acc : B) (w : Mundo) :
  (∀ acc x, cuerpo acc x w = (Valor (g (disco w) acc x), w)) →
  for_each l acc cuerpo w = (Valor (foldl (g (disco w)) acc l), w).
Proof.
  intros Hc. revert acc. induction l as [|x l IH]; intros acc; simpl; [done|].
  rewrite run_bind, Hc. apply IH.
Qed.

(** ** Discovery *)

Section Descubrimiento.
Import os_path os os_io Transcriber.
Context (env : Entorno).

Lemma CARPETA_AUDIOS_eq :
  CARPETA_AUDIOS env
  = (con_sep (RUTA_BASE_SCRIPT env) ++ Py.lit "audio") ++ [115%N].
Proof.
  unfold CARPETA_AUDIOS. rewrite join_relativo by reflexivity.
  by rewrite <-app_assoc.
Qed.

Lemma CARPETA_TRANSCRIPCIONES_eq :
  CARPETA_TRANSCRIPCIONES env
  = (con_sep (RUTA_BASE_SCRIPT env) ++ Py.lit "transcripcione") ++ [115%N].
Proof.
  unfold CARPETA_TRANSCRIPCIONES. rewrite join_relativo by reflexivity.
  by rewrite <-app_assoc.
Qed.

(** A path inside the input directory. *)
Lemma join_AUDIOS (n : str) :
  sep ∉ n → join (CARPETA_AUDIOS env) n = CARPETA_AUDIOS env ++ [sep] ++ n.
Proof. intros Hn. rewrite CARPETA_AUDIOS_eq. by apply join_dir. Qed.

(** A path inside the output directory. *)
Lemma join_TRANSCRIPCIONES (n : str) :
  sep ∉ n →
  join (CARPETA_TRANSCRIPCIONES env) n
  = CARPETA_TRANSCRIPCIONES env ++ [sep] ++ n.
Proof. intros Hn. rewrite CARPETA_TRANSCRIPCIONES_eq. by apply join_dir. Qed.

Lemma basename_join_AUDIOS (n : str) :
  sep ∉ n → basename (join (CARPETA_AUDIOS env) n) = n.
Proof. intros Hn. rewrite join_AUDIOS by done. by apply basename_join_sep. Qed.

Lemma join_AUDIOS_inj (n n' : str) :
  sep ∉ n → sep ∉ n' →
  join (CARPETA_AUDIOS env) n = join (CARPETA_AUDIOS env) n' → n = n'.
Proof.
  intros Hn Hn'. rewrite !join_AUDIOS by done.
  intros H. by simplify_list_eq.
Qed.

Lemma foldl_pendientes (fs : filesystem) (l : list str) (acc : list str) :
  foldl (λ acc n, if pendiente env fs n
                  then acc ++ [join (CARPETA_AUDIOS env) n] else acc) acc l
  = acc ++ (join (CARPETA_AUDIOS env) <$> filter (λ n, pendiente env fs n = true) l).
Proof.
  revert acc. induction l as [|n l IH]; intros acc; simpl.
  - by rewrite app_nil_r.
  - rewrite IH. destruct (pendiente env fs n) eqn:Hp.
    + rewrite filter_cons_True by done. simpl. by rewrite <-app_assoc.
    + rewrite filter_cons_False by congruence. done.
Qed.

(** What [encontrar_archivos_pendientes] returns and leaves behind. *)
Lemma encontrar_archivos_pendientes_run (w : Mundo) :
  encontrar_archivos_pendientes env w
  = if isdir (disco w) (CARPETA_AUDIOS env)
    then (Valor (Some (pendientes env (disco w))),
          {| disco := disco w;
             traza := traza w
                      ++ [linea_buscando;
                          linea_encontrados (length (pendientes env (disco w)))] |})
    else (Valor None,
          {| disco := disco w; traza := traza w ++ [linea_buscando] |}).
Proof.
  unfold encontrar_archivos_pendientes.
  destruct (isdir (disco w) (CARPETA_AUDIOS env)) eqn:Hd;
    mred; rewrite Hd; mred; [|reflexivity].
  apply isdir_true in Hd. rewrite Hd. mred.
  erewrite (for_each_puro
    (λ fs acc n, if pendiente env fs n
                 then acc ++ [join (CARPETA_AUDIOS env) n] else acc)).
  2:{ intros acc n. unfold pendiente, salida_de_encontrar. mred.
      destruct (Py.endswith n (Py.lit ".opus")); [|done].
      mred. by destruct (exists_ _ _). }
  mred. rewrite foldl_pendientes. cbn [app].
  unfold pendientes, linea_buscando, linea_encontrados.
  by rewrite <-app_assoc.
Qed.

End Descubrimiento.

Section Orden.
Import Py.

Lemma StronglySorted_filter {A} (R : relation A) (P : A → Prop)
    `{∀ x, Decision (P x)} (l : list A) :
  StronglySorted R l → StronglySorted R (filter P l).
Proof.
  induction 1 as [|x l Hl IH Hx]; [constructor|].
  rewrite filter_cons. case_decide; [|done].
  constructor; [done|].
  apply Forall_forall. intros y [_ Hy]%list_elem_of_filter.
  by eapply Forall_forall in Hx.
Qed.

(** A sorted list without repetitions is strictly increasing. *)
Lemma StronglySorted_le_lt (l : list str) :
  StronglySorted le l → NoDup l → StronglySorted lt l.
Proof.
  induction 1 as [|x l Hl IH Hx]; intros Hnd; [constructor|].
  apply NoDup_cons in Hnd as [Hnot Hnd].
  constructor; [by apply IH|].
  apply Forall_forall. intros y Hy. split.
  - by eapply Forall_forall in Hx.
  - intros ->. done.
Qed.

End Orden.

Section DescubrimientoExacto.
Import os_path os os_io Transcriber.
Context (env : Entorno).

Lemma elem_of_pendientes (fs : filesystem) (p : str) :
  p ∈ pendientes env fs ↔
  ∃ n, n ∈ listdir fs (CARPETA_AUDIOS env)
       ∧ Py.endswith n (Py.lit ".opus") = true
       ∧ exists_ fs (salida_de_encontrar env n) = false
       ∧ p = join (CARPETA_AUDIOS env) n.
Proof.
  unfold pendientes. rewrite list_elem_of_fmap. split.
  - intros (n & -> & [Hp Hn]%list_elem_of_filter). exists n.
    rewrite sorted_Permutation in Hn.
    unfold pendiente in Hp. apply andb_true_iff in Hp as [He Hx].
    apply negb_true_iff in Hx. done.
  - intros (n & Hn & He & Hx & ->). exists n. split; [done|].
    apply list_elem_of_filter. split.
    + unfold pendiente. by rewrite He, Hx.
    + by rewrite sorted_Permutation.
Qed.

Lemma basename_pendientes (fs : filesystem) :
  basename <$> pendientes env fs
  = filter (λ n, pendiente env fs n = true)
           (Py.sorted (listdir fs (CARPETA_AUDIOS env))).
Proof.
  unfold pendientes. rewrite <-list_fmap_compose.
  rewrite <-(list_fmap_id (filter _ _)) at 2.
  apply list_fmap_ext. intros i n Hn. simpl.
  apply list_elem_of_lookup_2 in Hn.
  apply list_elem_of_filter in Hn as [_ Hn].
  rewrite sorted_Permutation in Hn.
  apply elem_of_listdir in Hn as (_ & Hs & _).
  by apply basename_join_AUDIOS.
Qed.

Lemma pendientes_orden (fs : filesystem) :
  StronglySorted Py.lt (basename <$> pendientes env fs).
Proof.
  rewrite basename_pendientes. apply StronglySorted_le_lt.
  - apply StronglySorted_filter, sorted_StronglySorted.
  - apply NoDup_filter. rewrite sorted_Permutation. apply NoDup_listdir.
Qed.

(** C1. For every file system, [encontrar_archivos_pendientes] leaves the
    file system as it found it; and when the input directory exists it
    returns a list that holds exactly the paths [join CARPETA_AUDIOS n] of
    the entries [n] of the input directory whose name ends in ".opus" and
    whose output path does not exist, with the file names in strictly
    increasing code-point order. *)
Theorem encontrar_archivos_pendientes_exacto (w : Mundo) :
  disco (encontrar_archivos_pendientes env w).2 = disco w
  ∧ (isdir (disco w) (CARPETA_AUDIOS env) = true →
     ∃ l : list str,
       (encontrar_archivos_pendientes env w).1 = Valor (Some l)
       ∧ (∀ p, p ∈ l ↔
            ∃ n, n ∈ listdir (disco w) (CARPETA_AUDIOS env)
                 ∧ Py.endswith n (Py.lit ".opus") = true
                 ∧ exists_ (disco w) (salida_de_encontrar env n) = false
                 ∧ p = join (CARPETA_AUDIOS env) n)
       ∧ StronglySorted Py.lt (basename <$> l)
       ∧ l = join (CARPETA_AUDIOS env) <$> (basename <$> l)).
Proof.
  rewrite encontrar_archivos_pendientes_run.
  destruct (isdir (disco w) (CARPETA_AUDIOS env)) eqn:Hd; cbn [fst snd disco].
  - split; [done|]. intros _. exists (pendientes env (disco w)).
    split_and!; [done|apply elem_of_pendientes|apply pendientes_orden|].
    rewrite basename_pendientes. done.
  - split; [done|]. intros [=].
Qed.

End DescubrimientoExacto.

(** ** The worker *)

Section Trabajador.
Import os_path os os_io Transcriber.
Context (env : Entorno).

(** What ends the body of the [try] outside [Exception] is what ended
    [transcribe], before anything was written. *)
Lemma intento_procesar_escapa (mg : option Modelo)
    (ruta nombre salida : str) (w w' : Mundo) (f : fuga) :
  intento_procesar env mg ruta nombre salida w = (Escapa f, w') →
  w' = w
  ∧ ∃ m, mg = Some m ∧ transcribe m ruta true IDIOMA_AUDIO = Escapa f.
Proof.
  unfold intento_procesar, llamar_transcribe, abrir_w, escribir, getitem.
  destruct mg as [m|]; mred; [|done].
  destruct (transcribe m ruta true IDIOMA_AUDIO) as [d|e|f'] eqn:Ht; mred;
    [|done|intros [= <- <-]; eauto].
  destruct (isdir (disco w) salida) eqn:Hd; mred; [done|].
  destruct (isdir (disco w) (dirname salida)); mred; [|done].
  destruct (falla_abrir env salida); mred; [done|].
  destruct (d !! Py.lit "text") as [t|]; mred; [|done].
  destruct (falla_escribir env salida t); mred; done.
Qed.

(** [procesar_archivo] never raises an instance of [Exception]: its
    handler returns. *)
Lemma procesar_archivo_no_lanza (mg : option Modelo) (ruta : str)
    (w w' : Mundo) (e : excepcion) :
  procesar_archivo env mg ruta w ≠ (Lanza e, w').
Proof.
  unfold procesar_archivo, try_except.
  destruct (intento_procesar _ _ _ _ _ _) as [[o|e'|f] w1]; mred; done.
Qed.

(** [procesar_archivo] returns an Outcome, or ends the way [transcribe]
    ended outside [Exception], leaving the world as it was. *)
Lemma procesar_archivo_devuelve (mg : option Modelo) (ruta : str) (w : Mundo) :
  (∃ o w', procesar_archivo env mg ruta w = (Valor o, w'))
  ∨ (∃ m f, mg = Some m
            ∧ transcribe m ruta true IDIOMA_AUDIO = Escapa f
            ∧ procesar_archivo env mg ruta w = (Escapa f, w)).
Proof.
  unfold procesar_archivo, try_except. fold (salida_de_procesar env ruta).
  destruct (intento_procesar _ _ _ _ _ _) as [[o|e|f] w'] eqn:Hi; mred;
    [eauto|eauto|].
  apply intento_procesar_escapa in Hi as (-> & m & -> & Ht). right. eauto.
Qed.

Lemma procesar_archivo_atrapa (mg : option Modelo) (ruta : str) (w w' : Mundo)
    (e : excepcion) :
  intento_procesar env mg ruta (basename ruta) (salida_de_procesar env ruta) w
  = (Lanza e, w') →
  procesar_archivo env mg ruta w
  = (Valor (basename ruta, FALLO, mensaje e), w').
Proof.
  unfold procesar_archivo, salida_de_procesar, try_except.
  intros ->. reflexivity.
Qed.

Lemma intento_procesar_exito (mg : option Modelo)
    (ruta nombre salida : str) (w w' : Mundo) (o : Outcome) :
  intento_procesar env mg ruta nombre salida w = (Valor o, w') →
  o = (nombre, EXITO, [])
  ∧ isdir (disco w) salida = false
  ∧ traza w' = traza w
  ∧ ∃ t, disco w' = <[salida := Archivo t]> (<[salida := Archivo []]> (disco w)).
Proof.
  unfold intento_procesar, llamar_transcribe, abrir_w, escribir, getitem.
  destruct mg as [m|]; mred; [|done].
  destruct (transcribe m ruta true IDIOMA_AUDIO) as [d|e|f]; mred;
    [|done|done].
  destruct (isdir (disco w) salida) eqn:Hd; mred; [done|].
  destruct (isdir (disco w) (dirname salida)); mred; [|done].
  destruct (falla_abrir env salida); mred; [done|].
  destruct (d !! Py.lit "text") as [t|]; mred; [|done].
  destruct (falla_escribir env salida t); mred; [done|].
  intros [= <- <-]. cbn [disco traza]. eauto.
Qed.

Lemma intento_procesar_disco (mg : option Modelo)
    (ruta nombre salida : str) (w : Mundo) :
  let w' := (intento_procesar env mg ruta nombre salida w).2 in
  traza w' = traza w
  ∧ (disco w' = disco w
     ∨ isdir (disco w) salida = false
       ∧ ∃ t, disco w' = <[salida := Archivo t]> (disco w)).
Proof.
  unfold intento_procesar, llamar_transcribe, abrir_w, escribir, getitem.
  destruct mg as [m|]; mred; [|auto].
  destruct (transcribe m ruta true IDIOMA_AUDIO) as [d|e'|f]; mred;
    [|auto|auto].
  destruct (isdir (disco w) salida) eqn:Hd; mred; [auto|].
  destruct (isdir (disco w) (dirname salida)); mred; [|auto].
  destruct (falla_abrir env salida); mred; [auto|].
  destruct (d !! Py.lit "text") as [t|]; mred; [|eauto].
  destruct (falla_escribir env salida t); mred; [eauto|].
  split; [done|]. right. split; [done|]. exists t.
  by rewrite insert_insert_eq.
Qed.

(** What [procesar_archivo] leaves behind: the trace as it was, and the
    file system as it was except perhaps for a regular file at the output
    path, which was not a directory. *)
Lemma procesar_archivo_disco (mg : option Modelo) (ruta : str) (w : Mundo) :
  let w' := (procesar_archivo env mg ruta w).2 in
  traza w' = traza w
  ∧ (disco w' = disco w
     ∨ isdir (disco w) (salida_de_procesar env ruta) = false
       ∧ ∃ t, disco w' = <[salida_de_procesar env ruta := Archivo t]> (disco w)).
Proof.
  pose proof (intento_procesar_disco mg ruta (basename ruta)
                (salida_de_procesar env ruta) w) as H.
  unfold procesar_archivo, try_except. fold (salida_de_procesar env ruta).
  destruct (intento_procesar _ _ _ _ _ _) as [[o|e|f] w']; exact H.
Qed.

(** The state of every Outcome is one of the two literals. *)
Lemma procesar_archivo_estado (mg : option Modelo) (ruta : str)
    (w w' : Mundo) (o : Outcome) :
  procesar_archivo env mg ruta w = (Valor o, w') →
  r0 o = basename ruta
  ∧ (r1 o = EXITO ∧ r2 o = [] ∨ r1 o = FALLO).
Proof.
  unfold procesar_archivo, try_except.
  destruct (intento_procesar _ _ _ _ _ _) as [[o'|e|f] w1] eqn:Hi; mred.
  - apply intento_procesar_exito in Hi as (-> & _). intros [= <- <-]. auto.
  - intros [= <- <-]. auto.
  - done.
Qed.

(** A successful Outcome means the text is in the file at the output path. *)
Lemma procesar_archivo_exito_escribe (mg : option Modelo) (ruta : str)
    (w w' : Mundo) (o : Outcome) :
  procesar_archivo env mg ruta w = (Valor o, w') →
  r1 o = EXITO →
  ∃ t, disco w' !! salida_de_procesar env ruta = Some (Archivo t).
Proof.
  unfold procesar_archivo, try_except. fold (salida_de_procesar env ruta).
  destruct (intento_procesar _ _ _ _ _ _) as [[o'|e|f] w1] eqn:Hi; mred.
  - apply intento_procesar_exito in Hi as (_ & _ & _ & t & Hdisco).
    intros [= <- <-] _. exists t. rewrite Hdisco. apply lookup_insert_eq.
  - intros [= <- <-]. cbn [r1 fst snd]. done.
  - done.
Qed.

End Trabajador.

Section TrabajadorFallos.
Import os_path os os_io Transcriber.
Context (env : Entorno).

Lemma EXITO_FALLO : EXITO ≠ FALLO.
Proof. done. Qed.

Lemma procesar_archivo_transcribe_falla (m : Modelo) (ruta : str)
    (e : excepcion) (w : Mundo) :
  transcribe m ruta true IDIOMA_AUDIO = Lanza e →
  procesar_archivo env (Some m) ruta w
  = (Valor (basename ruta, FALLO, mensaje e), w).
Proof.
  intros He. apply procesar_archivo_atrapa.
  unfold intento_procesar, llamar_transcribe. mred. by rewrite He.
Qed.




Lemma contiene_FALLO (s : str) :
  s = EXITO ∨ s = FALLO → (Py.contiene FALLO s = true ↔ s = FALLO).
Proof. intros [->| ->]; by split. Qed.

(** C10. Every Outcome of [procesar_archivo] has state "ÉXITO" or "FALLO",
    and on it the test of the dispatch loop ("FALLO" in state) and the test
    of the final report (state == "FALLO") agree. *)
Theorem procesar_archivo_clasificacion (mg : option Modelo) (ruta : str)
    (w w' : Mundo) (o : Outcome) :
  procesar_archivo env mg ruta w = (Valor o, w') →
  (r1 o = EXITO ∨ r1 o = FALLO)
  ∧ (Py.contiene FALLO (r1 o) = true ↔ r1 o = FALLO).
Proof.
  intros H. apply procesar_archivo_estado in H as [_ H].
  assert (r1 o = EXITO ∨ r1 o = FALLO) as Hs by tauto.
  split; [done|]. by apply contiene_FALLO.
Qed.

Lemma procesar_archivo_fallo_inv (mg : option Modelo) (ruta : str)
    (w w' : Mundo) (o : Outcome) :
  procesar_archivo env mg ruta w = (Valor o, w') →
  r1 o = FALLO →
  ∃ e, intento_procesar env mg ruta (basename ruta)
         (salida_de_procesar env ruta) w = (Lanza e, w')
       ∧ o = (basename ruta, FALLO, mensaje e).
Proof.
  unfold procesar_archivo, try_except. fold (salida_de_procesar env ruta).
  destruct (intento_procesar _ _ _ _ _ _) as [[o'|e|f] w1] eqn:Hi; mred.
  - apply intento_procesar_exito in Hi as (-> & _). intros [= <- <-].
    cbn [r1 fst snd]. intros H. by destruct EXITO_FALLO.
  - intros [= <- <-] _. by exists e.
  - done.
Qed.

Lemma for_each_print {A} (f : A → str) (l : list A) (w : Mundo) :
  for_each l tt (λ _ x, print (f x)) w
  = (Valor tt,
     {| disco := disco w; traza := traza w ++ (Imprime ∘ f <$> l) |}).
Proof.
  revert w. induction l as [|x l IH]; intros w; cbn [for_each].
  - rewrite app_nil_r. by destruct w.
  - rewrite run_bind, run_print, IH. cbn [disco traza fmap list_fmap].
    by rewrite <-app_assoc.
Qed.

(** The final report only prints, and among its lines is one
    [linea_fallo] per failed Outcome, in the order of the list. *)
Lemma reporte_final_run (resultados : list Outcome) (w : Mundo) :
  ∃ antes despues,
    reporte_final resultados w
    = (Valor tt,
       {| disco := disco w;
          traza := traza w ++ antes
                   ++ (Imprime ∘ linea_fallo
                       <$> filter (λ r, r1 r = FALLO) resultados)
                   ++ despues |}).
Proof.
  unfold reporte_final. case_bool_decide as Hf.
  - eexists [_; _; _; _; _], [_].
    repeat (rewrite run_bind, run_print; cbn [disco traza]).
    rewrite run_bind, run_bind, run_print, (for_each_print linea_fallo),
      run_print.
    cbn [disco traza]. rewrite <-!app_assoc. reflexivity.
  - rewrite Hf.
    eexists [_; _; _; _], [_].
    repeat (rewrite run_bind, run_print; cbn [disco traza]).
    rewrite run_bind, run_ret, run_print.
    cbn [disco traza]. rewrite <-!app_assoc. reflexivity.
Qed.

(** C3, as the code has it. A failed Outcome of [procesar_archivo] carries
    the whole [str(e)] of the exception its [try] caught; the two lines
    [main] prints for it (line 106 while the items come in, line 123 in the
    final report) show the first 100 characters of that detail and no more. *)
Theorem procesar_archivo_detalle_y_lineas (mg : option Modelo) (ruta : str)
    (w w' : Mundo) (o : Outcome) :
  procesar_archivo env mg ruta w = (Valor o, w') →
  r1 o = FALLO →
  (∃ e, intento_procesar env mg ruta (basename ruta)
          (salida_de_procesar env ruta) w = (Lanza e, w')
        ∧ r2 o = mensaje e)
  ∧ linea_error o
    = 10%N :: Py.lit "[ERROR] Archivo: " ++ basename ruta
      ++ Py.lit " | Causa: " ++ take 100 (r2 o) ++ Py.lit "..."
  ∧ linea_fallo o
    = Py.lit "Archivo: " ++ basename (basename ruta)
      ++ Py.lit " | Error: " ++ take 100 (r2 o) ++ Py.lit "..."
  ∧ (length (take 100 (r2 o)) ≤ 100)%nat
  ∧ (∀ w2, Imprime (linea_fallo o) ∈ traza (reporte_final [o] w2).2).
Proof.
  intros Hp Hf.
  destruct (procesar_archivo_fallo_inv mg ruta w w' o Hp Hf) as (e & Hi & ->).
  unfold linea_error, linea_fallo. cbn [r0 r1 r2 fst snd].
  change 100 with (Z.of_nat 100). rewrite slice_to_nat.
  split_and!; [by exists e|done|done|rewrite length_take; lia|].
  intros w2.
  destruct (reporte_final_run [(basename ruta, FALLO, mensaje e)] w2)
    as (antes & despues & ->).
  cbn [snd traza]. rewrite filter_cons_True by done. rewrite filter_nil.
  cbn [fmap list_fmap compose]. unfold linea_fallo. cbn [r0 r2 fst snd].
  change 100 with (Z.of_nat 100). rewrite slice_to_nat.
  rewrite !elem_of_app, elem_of_cons. auto.
Qed.

End TrabajadorFallos.

Section TrabajadorTestigos.
Import Py os_path os os_io Transcriber.



Lemma procesar_archivo_clasificacion_testigo :
  (r1 Ejemplo.resultado_roto = EXITO ∨ r1 Ejemplo.resultado_roto = FALLO)
  ∧ (contiene FALLO (r1 Ejemplo.resultado_roto) = true
     ↔ r1 Ejemplo.resultado_roto = FALLO).
Proof.
  apply (procesar_archivo_clasificacion (Ejemplo.env Ejemplo.boom)
           (Some (Ejemplo.modelo Ejemplo.boom)) Ejemplo.ruta_rota
           Ejemplo.mundo_inicial Ejemplo.mundo_inicial).
  vm_compute. reflexivity.
Defined.

Lemma procesar_archivo_detalle_y_lineas_testigo :
  procesar_archivo (Ejemplo.env (replicate 101 120%N))
    (Some (Ejemplo.modelo (replicate 101 120%N))) Ejemplo.ruta_rota
    Ejemplo.mundo_inicial
  = (Valor (lit "roto.opus", FALLO, replicate 101 120%N),
     Ejemplo.mundo_inicial)
  ∧ linea_fallo (lit "roto.opus", FALLO, replicate 101 120%N)
    = lit "Archivo: roto.opus | Error: " ++ replicate 100 120%N ++ lit "...".
Proof.
  assert (procesar_archivo (Ejemplo.env (replicate 101 120%N))
            (Some (Ejemplo.modelo (replicate 101 120%N))) Ejemplo.ruta_rota
            Ejemplo.mundo_inicial
          = (Valor (lit "roto.opus", FALLO, replicate 101 120%N),
             Ejemplo.mundo_inicial)) as Hp by (vm_compute; reflexivity).
  split; [exact Hp|].
  exact (proj1 (proj2 (proj2
           (procesar_archivo_detalle_y_lineas
              (Ejemplo.env (replicate 101 120%N))
              (Some (Ejemplo.modelo (replicate 101 120%N))) Ejemplo.ruta_rota
              Ejemplo.mundo_inicial Ejemplo.mundo_inicial
              (lit "roto.opus", FALLO, replicate 101 120%N) Hp eq_refl)))).
Defined.

(** C3, as stated, fails: when the model raises an exception whose message
    has 101 characters, the Outcome carries all 101. *)
Lemma procesar_archivo_detalle_sin_truncar :
  ¬ (∀ (env : Entorno) (mg : option Modelo) (ruta : str) (w w' : Mundo)
       (o : Outcome),
       procesar_archivo env mg ruta w = (Valor o, w') →
       r1 o = FALLO → (length (r2 o) ≤ 100)%nat).
Proof.
  intros H.
  specialize (H (Ejemplo.env (replicate 101 120%N))
                (Some (Ejemplo.modelo (replicate 101 120%N))) Ejemplo.ruta_rota
                Ejemplo.mundo_inicial Ejemplo.mundo_inicial
                (lit "roto.opus", FALLO, replicate 101 120%N)).
  assert (101 ≤ 100)%nat as Habs; [|lia].
  apply H; vm_compute; reflexivity.
Qed.

End TrabajadorTestigos.

(** ** One call of the worker, seen from the pool *)

Section Pool.
Import os_path os os_io Transcriber.
Context (env : Entorno).

Lemma isdir_insert_archivo (fs : filesystem) (p q t : str) :
  isdir fs p = false → isdir (<[p := Archivo t]> fs) q = isdir fs q.
Proof.
  intros Hp. unfold isdir in *. destruct (decide (p = q)) as [->|Hne].
  - rewrite lookup_insert_eq, Hp. by apply bool_decide_eq_false_2.
  - by rewrite lookup_insert_ne.
Qed.

(** A worker never makes or removes a directory. *)
Lemma procesar_archivo_isdir (mg : option Modelo) (ruta : str) (w : Mundo)
    (q : str) :
  isdir (disco (procesar_archivo env mg ruta w).2) q = isdir (disco w) q.
Proof.
  destruct (procesar_archivo_disco env mg ruta w) as [_ [->|[Hd [t ->]]]];
    [done|by apply isdir_insert_archivo].
Qed.

(** The Outcome of an item depends on the world only through which paths
    are directories. *)
Lemma procesar_archivo_resultado_isdir (mg : option Modelo) (ruta : str)
    (w1 w2 : Mundo) :
  (∀ q, isdir (disco w1) q = isdir (disco w2) q) →
  (procesar_archivo env mg ruta w1).1 = (procesar_archivo env mg ruta w2).1.
Proof.
  intros Hq.
  unfold procesar_archivo, intento_procesar, llamar_transcribe, abrir_w,
    escribir, getitem; mred.
  destruct mg as [m|]; mred; [|done].
  destruct (transcribe m ruta true IDIOMA_AUDIO) as [d|e|f]; mred;
    [|done|done].
  rewrite !Hq.
  destruct (isdir (disco w2) _); mred; [done|].
  destruct (isdir (disco w2) _); mred; [|done].
  destruct (falla_abrir env _); mred; [done|].
  destruct (d !! Py.lit "text") as [t|]; mred; [|done].
  destruct (falla_escribir env _ t); mred; done.
Qed.

(** What [procesar_archivo] does to the file system depends on the world
    only through which paths are directories: between two such worlds it
    either changes neither, or writes the same text at the output path of
    both. *)
Lemma procesar_archivo_efecto_isdir (mg : option Modelo) (ruta : str)
    (w1 w2 : Mundo) :
  (∀ q, isdir (disco w1) q = isdir (disco w2) q) →
  (disco (procesar_archivo env mg ruta w1).2 = disco w1
   ∧ disco (procesar_archivo env mg ruta w2).2 = disco w2)
  ∨ ∃ t,
      disco (procesar_archivo env mg ruta w1).2
      = <[salida_de_procesar env ruta := Archivo t]> (disco w1)
      ∧ disco (procesar_archivo env mg ruta w2).2
        = <[salida_de_procesar env ruta := Archivo t]> (disco w2).
Proof.
  intros Hq.
  unfold procesar_archivo, intento_procesar, llamar_transcribe, abrir_w,
    escribir, getitem. fold (salida_de_procesar env ruta). mred.
  destruct mg as [m|]; mred; [|by left].
  destruct (transcribe m ruta true IDIOMA_AUDIO) as [d|e|f]; mred;
    [|by left|by left].
  rewrite !Hq.
  destruct (isdir (disco w2) (salida_de_procesar env ruta)); mred; [by left|].
  destruct (isdir (disco w2) (dirname _)); mred; [|by left].
  destruct (falla_abrir env _); mred; [by left|].
  destruct (d !! Py.lit "text") as [t|]; mred; [|right; by exists []].
  destruct (falla_escribir env _ t); mred; [right; by exists []|].
  right. exists t. by rewrite !insert_insert_eq.
Qed.

(** The world does not matter to the way the call ends, and the trace
    does not matter to what the call does to the file system. *)
Lemma procesar_archivo_traza (mg : option Modelo) (ruta : str)
    (w : Mundo) (evs : list evento) :
  (procesar_archivo env mg ruta (registrar w evs)).1
  = (procesar_archivo env mg ruta w).1
  ∧ disco (procesar_archivo env mg ruta (registrar w evs)).2
    = disco (procesar_archivo env mg ruta w).2
  ∧ traza (procesar_archivo env mg ruta (registrar w evs)).2
    = traza w ++ evs.
Proof.
  split_and!.
  - by apply procesar_archivo_resultado_isdir.
  - destruct (procesar_archivo_efecto_isdir mg ruta (registrar w evs) w
                (λ q, eq_refl)) as [[-> ->]|(t & -> & ->)]; done.
  - by destruct (procesar_archivo_disco env mg ruta (registrar w evs))
      as [-> _].
Qed.

(** A call whose [transcribe] comes back returns an Outcome; one whose
    [transcribe] does not ends the same way and changes nothing. *)
Lemma procesar_archivo_vuelve (ruta : str) (w : Mundo) :
  if vuelve env ruta
  then ∃ o w', procesar_archivo env (Some (modelo_cargado env)) ruta w
               = (Valor o, w')
  else ∃ f, procesar_archivo env (Some (modelo_cargado env)) ruta w
            = (Escapa f, w).
Proof.
  unfold vuelve.
  destruct (procesar_archivo_devuelve env (Some (modelo_cargado env)) ruta w)
    as [(o & w' & H)|(m & f & [= <-] & Ht & H)].
  - destruct (transcribe _ _ _ _) as [d|e|f] eqn:Ht; eauto.
    revert H. unfold procesar_archivo, intento_procesar, llamar_transcribe.
    mred. by rewrite Ht.
  - rewrite Ht. eauto.
Qed.

End Pool.

(** ** The order in which the calls end *)

Section Planificacion.
Import os_path os os_io Transcriber.
Context (env : Entorno).

(** The order in which the calls end is a rearrangement of the items: the
    pool hands each item to one worker, once. *)
Lemma planificar_Permutation (elige : list str → nat) (cola : list str) :
  planificar elige (length cola) cola ≡ₚ cola.
Proof.
  remember (length cola) as n eqn:Hn. revert cola Hn.
  induction n as [|n IH]; intros cola Hn.
  - by destruct cola.
  - cbn [planificar].
    set (i := (elige _ `mod` _)%nat).
    assert (i < length cola)%nat as Hi.
    { subst i. destruct cola as [|x cola]; [done|].
      pose proof (Nat.mod_upper_bound
                    (elige (take NUMERO_DE_TRABAJADORES_GPU (x :: cola)))
                    (length (take NUMERO_DE_TRABAJADORES_GPU (x :: cola))))
        as Hmod.
      rewrite length_take in *. unfold NUMERO_DE_TRABAJADORES_GPU in *.
      cbn [length] in *. lia. }
    destruct (lookup_lt_is_Some_2 cola i Hi) as [ruta Hruta].
    rewrite Hruta. rewrite (delete_Permutation cola i ruta Hruta) at 2.
    constructor. apply IH.
    rewrite length_delete by (by eexists). lia.
Qed.

Lemma planificacion_Permutation (items : list str) :
  planificacion env items ≡ₚ items.
Proof. apply planificar_Permutation. Qed.

Lemma filter_entero {A} (P : A → Prop) `{∀ x, Decision (P x)} (l : list A) :
  length (filter P l) = length l → filter P l = l ∧ Forall P l.
Proof.
  induction l as [|x l IH]; [done|].
  rewrite filter_cons. destruct (decide (P x)) as [Hx|Hx]; cbn [length].
  - intros [= Hl]. destruct (IH Hl) as [-> ?]. by split; [|constructor].
  - pose proof (length_filter P l). lia.
Qed.


(** When every item arrives, the arrival order is the order in which the
    calls end, every call comes back, and, if there is an item, the
    workers' initializer did not raise. *)
Lemma orden_de_llegada_todos (items : list str) :
  orden_de_llegada env items ≡ₚ items →
  orden_de_llegada env items = planificacion env items
  ∧ Forall (λ ruta, vuelve env ruta = true) (planificacion env items)
  ∧ (items ≠ [] → falla_load_model env MODELO_WHISPER = None).
Proof.
  unfold orden_de_llegada.
  destruct (falla_load_model env MODELO_WHISPER) as [e|].
  - intros Hp. apply Permutation_nil in Hp as ->. by split_and!.
  - intros Hperm.
    destruct (filter_entero (λ ruta, vuelve env ruta = true)
                (planificacion env items)) as [Hf Hall].
    { by rewrite Hperm, planificacion_Permutation. }
    by rewrite Hf.
Qed.


End Planificacion.

(** ** The pool *)

Section ElPool.
Import os_path os os_io Transcriber.
Context (env : Entorno).

(** The events of an initializer are not seen by the projections of the
    main process. *)
Lemma proyecciones_de_inicializador (evs : list evento) :
  Forall (λ e, de_inicializador e = true) evs →
  despachos evs = [] ∧ pools_creados evs = [] ∧ barras evs = []
  ∧ progresos evs = [] ∧ lineas evs = [].
Proof.
  induction 1 as [|e evs He _ IH]; [done|].
  destruct e; try discriminate He; exact IH.
Qed.

Lemma Forall_take_de_inicializador (k : nat) (evs : list evento) :
  Forall (λ e, de_inicializador e = true) evs →
  Forall (λ e, de_inicializador e = true) (take k evs).
Proof. apply Forall_take. Qed.

(** What the initializer does: two lines and, between them, the load; or
    the first line and the exception of the load. *)
Lemma inicializar_trabajador_run (n : nat) (w : Mundo) :
  inicializar_trabajador env n w
  = match falla_load_model env MODELO_WHISPER with
    | Some e => (Lanza e, registrar w (pasos_inicializador env n))
    | None => (Valor (Some (modelo_cargado env)),
               registrar w (pasos_inicializador env n))
    end.
Proof.
  unfold pasos_inicializador, inicializar_trabajador, cargar_modelo, print_en,
    registrar, modelo_cargado.
  destruct (falla_load_model env MODELO_WHISPER); mred;
    cbn [app]; rewrite <-?app_assoc; reflexivity.
Qed.

Lemma pasos_inicializador_forma (n : nat) :
  Forall (λ e, de_inicializador e = true) (pasos_inicializador env n)
  ∧ cargas (pasos_inicializador env n)
    = match falla_load_model env MODELO_WHISPER with
      | Some _ => []
      | None => [MODELO_WHISPER]
      end.
Proof.
  unfold pasos_inicializador, inicializar_trabajador, cargar_modelo, print_en.
  destruct (falla_load_model env MODELO_WHISPER); mred; cbn [app];
    split; try done; repeat constructor.
Qed.

Lemma cargas_take (k : nat) (evs : list evento) :
  cargas (take k evs) `sublist_of` cargas evs.
Proof.
  rewrite <-(take_drop k evs) at 2. unfold cargas. rewrite omap_app.
  by apply sublist_inserts_r.
Qed.

(** Counting the workers whose initializer has not run. *)
Lemma ociosos_insert (ts : list (nat * option Modelo)) (k : nat)
    (t t' : nat * option Modelo) :
  ts !! k = Some t →
  (length (ociosos {| trabajadores := <[k := t']> ts; iniciados := 0;
                      resultados := []; perdidos := [] |})
   + (if t.2 is None then 1 else 0)
   = length (ociosos {| trabajadores := ts; iniciados := 0;
                        resultados := []; perdidos := [] |})
     + (if t'.2 is None then 1 else 0))%nat.
Proof.
  intros Hk. unfold ociosos. cbn [trabajadores].
  rewrite insert_take_drop by (by eapply lookup_lt_Some).
  rewrite <-(take_drop_middle ts k t Hk) at 3.
  rewrite !omap_app, !length_app. cbn [omap list_omap].
  destruct t as [n [m|]], t' as [n' [m'|]]; cbn [snd fst length]; lia.
Qed.

Lemma ociosos_trabajadores (ts : list (nat * option Modelo))
    (i : nat) (rs : list Outcome) (ps : list str) :
  ociosos {| trabajadores := ts; iniciados := i; resultados := rs;
             perdidos := ps |}
  = ociosos {| trabajadores := ts; iniciados := 0; resultados := [];
               perdidos := [] |}.
Proof. reflexivity. Qed.

Lemma ociosos_acotados (p : Pool) :
  (length (ociosos p) ≤ length (trabajadores p))%nat.
Proof.
  unfold ociosos. induction (trabajadores p) as [|[n [m|]] ts IH];
    cbn [omap list_omap snd fst length]; lia.
Qed.

(** A worker is ready when it takes an item: it has the loaded model. *)
Lemma alistar_trabajador_run (p : Pool) (k : nat) (w : Mundo) :
  falla_load_model env MODELO_WHISPER = None →
  pool_en_orden env p →
  (k < NUMERO_DE_TRABAJADORES_GPU)%nat →
  ∃ n ini,
    alistar_trabajador env p k w
    = (Valor ({| trabajadores :=
                   <[k := (n, Some (modelo_cargado env))]> (trabajadores p);
                 iniciados := iniciados p;
                 resultados := resultados p;
                 perdidos := perdidos p |},
              Some (modelo_cargado env)),
       registrar w ini)
    ∧ Forall (λ e, de_inicializador e = true) ini
    ∧ Forall (λ c, c = MODELO_WHISPER) (cargas ini)
    ∧ (length (ociosos {| trabajadores :=
                            <[k := (n, Some (modelo_cargado env))]>
                              (trabajadores p);
                          iniciados := iniciados p;
                          resultados := resultados p;
                          perdidos := perdidos p |})
       + length (cargas ini)
       = length (ociosos p))%nat.
Proof.
  intros Hload [Hlen Hts] Hk.
  destruct (lookup_lt_is_Some_2 (trabajadores p) k) as [[n mg] Ht];
    [by rewrite Hlen|].
  pose proof (ociosos_insert (trabajadores p) k (n, mg)
                (n, Some (modelo_cargado env)) Ht) as Hoc.
  rewrite Forall_forall in Hts.
  destruct (Hts (n, mg)) as [Hmg|Hmg];
    [by eapply list_elem_of_lookup_2|..]; cbn [snd] in Hmg; subst mg.
  - exists n, (pasos_inicializador env n).
    destruct (pasos_inicializador_forma n) as [Hini Hcar].
    rewrite Hload in Hcar. unfold alistar_trabajador. rewrite Ht.
    rewrite inicializar_trabajador_run, Hload. split_and!; [done|done|..].
    + rewrite Hcar. by repeat constructor.
    + rewrite Hcar. unfold ociosos in *.
      cbn [trabajadores snd length] in *. lia.
  - exists n, []. unfold alistar_trabajador. rewrite Ht.
    rewrite list_insert_id by done. unfold registrar. rewrite app_nil_r.
    split_and!; [by destruct p, w|done|done|].
    unfold ociosos, cargas. cbn [trabajadores omap list_omap length]. lia.
Qed.

Lemma proyecciones_eventos_de (rec : list Outcome) :
  despachos (concat (eventos_de <$> rec)) = []
  ∧ pools_creados (concat (eventos_de <$> rec)) = []
  ∧ barras (concat (eventos_de <$> rec)) = []
  ∧ progresos (concat (eventos_de <$> rec)) = replicate (length rec) 1%nat
  ∧ lineas (concat (eventos_de <$> rec))
    = linea_error <$> filter (λ o, Py.contiene FALLO (r1 o) = true) rec
  ∧ cargas (concat (eventos_de <$> rec)) = [].
Proof.
  induction rec as [|o rec (H1 & H2 & H3 & H4 & H5 & H6)]; [done|].
  cbn [fmap list_fmap concat length replicate].
  unfold despachos, pools_creados, barras, progresos, lineas, cargas in *.
  rewrite !omap_app, H1, H2, H3, H4, H5, H6, filter_cons. unfold eventos_de.
  destruct (Py.contiene FALLO (r1 o)) eqn:Hc.
  - by rewrite decide_True.
  - by rewrite decide_False by congruence.
Qed.

Lemma pool_en_orden_insert (p : Pool) (k : nat) (t : nat * option Modelo)
    (i : nat) (rs : list Outcome) (ps : list str) :
  pool_en_orden env p →
  t.2 = None ∨ t.2 = Some (modelo_cargado env) →
  pool_en_orden env {| trabajadores := <[k := t]> (trabajadores p);
                       iniciados := i; resultados := rs; perdidos := ps |}.
Proof.
  intros [Hlen Hts] Ht. split; cbn [trabajadores].
  - by rewrite length_insert.
  - by apply Forall_insert.
Qed.

(** One turn of the loop, when the initializer does not raise. The worker
    is ready, takes the item and calls [procesar_archivo], which does to
    the file system what it does alone; when the call comes back the main
    process receives its Outcome, and when it does not, the item is lost
    and a fresh worker takes the place. *)
Lemma recibir_resultado_run (p : Pool) (ruta : str) (w : Mundo) :
  falla_load_model env MODELO_WHISPER = None →
  pool_en_orden env p →
  ∃ p' ini rec,
    recibir_resultado env p ruta w
    = (Valor p',
       {| disco :=
            disco (procesar_archivo env (Some (modelo_cargado env)) ruta w).2;
          traza := traza w ++ ini ++ [Despacha ruta]
                   ++ concat (eventos_de <$> rec) |})
    ∧ pool_en_orden env p'
    ∧ resultados p' = resultados p ++ rec
    ∧ perdidos p' = perdidos p ++ (if vuelve env ruta then [] else [ruta])
    ∧ (if vuelve env ruta
       then ∃ o, rec = [o]
                 ∧ (procesar_archivo env (Some (modelo_cargado env)) ruta w).1
                   = Valor o
       else rec = [])
    ∧ Forall (λ e, de_inicializador e = true) ini
    ∧ Forall (λ c, c = MODELO_WHISPER) (cargas ini)
    ∧ (length (ociosos p') + length (cargas ini)
       = length (ociosos p) + (if vuelve env ruta then 0 else 1))%nat
    ∧ (vuelve env ruta = true →
       (length (ociosos p') < NUMERO_DE_TRABAJADORES_GPU)%nat).
Proof.
  intros Hload Hp. unfold recibir_resultado.
  set (k := (trabajador_de env ruta `mod` NUMERO_DE_TRABAJADORES_GPU)%nat).
  assert (k < NUMERO_DE_TRABAJADORES_GPU)%nat as Hk
    by (by apply Nat.mod_upper_bound).
  destruct (alistar_trabajador_run p k w Hload Hp Hk)
    as (n & ini & Hal & Hini & Hcar & Hoc).
  rewrite run_bind, Hal. cbn [fst snd trabajadores iniciados resultados perdidos].
  rewrite run_bind. unfold emitir at 1. cbn [disco traza registrar].
  replace {| disco := disco w; traza := (traza w ++ ini) ++ [Despacha ruta] |}
    with (registrar w (ini ++ [Despacha ruta]))
    by (unfold registrar; by rewrite app_assoc).
  destruct (procesar_archivo_traza env (Some (modelo_cargado env)) ruta w
              (ini ++ [Despacha ruta])) as (H1 & H2 & H3).
  pose proof (procesar_archivo_vuelve env ruta
                (registrar w (ini ++ [Despacha ruta]))) as Hv.
  pose proof (pool_en_orden_insert p k (n, Some (modelo_cargado env))
                (iniciados p) (resultados p) (perdidos p) Hp
                (or_intror eq_refl)) as Hp1.
  unfold en_trabajador. destruct (vuelve env ruta).
  - destruct Hv as (o & w' & Hv). rewrite Hv in *. cbn [fst snd] in *.
    eexists _, ini, [o]. split_and!.
    + destruct (Py.contiene FALLO (r1 o)) eqn:Hc; mred;
        rewrite H2, H3; cbn [fmap list_fmap concat]; unfold eventos_de;
        rewrite Hc, <-?app_assoc; cbn [app]; reflexivity.
    + destruct Hp1 as [Hl Hf]. by split.
    + done.
    + cbn [perdidos]. by rewrite app_nil_r.
    + by exists o.
    + done.
    + done.
    + unfold ociosos in *. cbn [trabajadores] in *. lia.
    + intros _. destruct Hp as [Hlen _].
      pose proof (ociosos_insert
                    (<[k := (n, Some (modelo_cargado env))]> (trabajadores p))
                    k (n, Some (modelo_cargado env)) (iniciados p, None)) as Hi.
      rewrite list_lookup_insert_eq in Hi by (by rewrite Hlen).
      specialize (Hi eq_refl).
      pose proof (ociosos_acotados
                    {| trabajadores :=
                         <[k := (iniciados p, None)]>
                           (<[k := (n, Some (modelo_cargado env))]>
                              (trabajadores p));
                       iniciados := 0; resultados := []; perdidos := [] |})
        as Hcota.
      cbn [trabajadores] in Hcota. rewrite !length_insert, Hlen in Hcota.
      unfold ociosos in *. cbn [trabajadores snd] in *. lia.
  - destruct Hv as (f & Hv). rewrite Hv in *. cbn [fst snd] in *.
    eexists _, ini, []. split_and!.
    + mred. cbn [registrar disco traza] in *. rewrite <-H2.
      unfold registrar. cbn [fmap list_fmap concat]. by rewrite app_nil_r.
    + apply (pool_en_orden_insert
               {| trabajadores :=
                    <[k := (n, Some (modelo_cargado env))]> (trabajadores p);
                  iniciados := iniciados p; resultados := resultados p;
                  perdidos := perdidos p |}); [done|by left].
    + cbn [resultados]. by rewrite app_nil_r.
    + done.
    + done.
    + done.
    + done.
    + destruct Hp as [Hlen _].
      pose proof (ociosos_insert
                    (<[k := (n, Some (modelo_cargado env))]> (trabajadores p))
                    k (n, Some (modelo_cargado env)) (iniciados p, None)) as Hi.
      rewrite list_lookup_insert_eq in Hi by (by rewrite Hlen).
      specialize (Hi eq_refl).
      unfold ociosos in *. cbn [trabajadores snd] in *. lia.
    + done.
Qed.

(** One turn of the loop changes at most the file at the item's output
    path, whatever the workers' state. *)
Lemma recibir_resultado_mundo (p : Pool) (ruta : str) (w : Mundo) :
  disco (recibir_resultado env p ruta w).2 = disco w
  ∨ isdir (disco w) (salida_de_procesar env ruta) = false
    ∧ ∃ t, disco (recibir_resultado env p ruta w).2
           = <[salida_de_procesar env ruta := Archivo t]> (disco w).
Proof.
  assert (∀ mg p1 k evs,
            let w' :=
              ((emitir (Despacha ruta);;
                en_trabajador (procesar_archivo env mg ruta)
                  (λ resultado,
                     (if Py.contiene FALLO (r1 resultado)
                      then print (linea_error resultado)
                      else mret tt);;
                     emitir (Progreso 1);;
                     mret {| trabajadores := trabajadores p1;
                             iniciados := iniciados p1;
                             resultados := resultados p1 ++ [resultado];
                             perdidos := perdidos p1 |})
                  (mret {| trabajadores :=
                             <[k := (iniciados p1, None)]> (trabajadores p1);
                           iniciados := S (iniciados p1);
                           resultados := resultados p1;
                           perdidos := perdidos p1 ++ [ruta] |}))
                 (registrar w evs)).2 in
            disco w' = disco w
            ∨ isdir (disco w) (salida_de_procesar env ruta) = false
              ∧ ∃ t, disco w'
                     = <[salida_de_procesar env ruta := Archivo t]> (disco w))
    as Hllamada.
  { intros mg p1 k evs. rewrite run_bind. unfold emitir at 1.
    cbn [disco traza registrar]. unfold en_trabajador.
    pose proof (procesar_archivo_disco env mg ruta
                  {| disco := disco w;
                     traza := (traza w ++ evs) ++ [Despacha ruta] |})
      as [_ Hd]. cbn [disco] in Hd.
    destruct (procesar_archivo env mg ruta _) as [[o|e|f] w3];
      cbn [snd] in *; [|exact Hd|exact Hd].
    destruct (Py.contiene FALLO (r1 o)); mred; exact Hd. }
  unfold recibir_resultado, alistar_trabajador.
  set (k := (trabajador_de env ruta `mod` NUMERO_DE_TRABAJADORES_GPU)%nat).
  destruct (trabajadores p !! k) as [[n [m|]]|].
  - rewrite run_bind, run_ret. cbn [fst snd].
    specialize (Hllamada (Some m) p k []). unfold registrar in Hllamada.
    rewrite app_nil_r in Hllamada. by destruct w.
  - rewrite run_bind, inicializar_trabajador_run.
    destruct (falla_load_model env MODELO_WHISPER); cbn [fst snd];
      [by left|].
    apply (Hllamada (Some (modelo_cargado env))
             {| trabajadores :=
                  <[k := (n, Some (modelo_cargado env))]> (trabajadores p);
                iniciados := iniciados p; resultados := resultados p;
                perdidos := perdidos p |}).
  - rewrite run_bind, run_ret. cbn [fst snd].
    specialize (Hllamada None p k []). unfold registrar in Hllamada.
    rewrite app_nil_r in Hllamada. by destruct w.
Qed.

(** The loop never makes or removes a directory, removes nothing, and
    leaves every path that is not the output path of one of its items as
    it was; whatever the way it ends. *)
Lemma bucle_pool_mundo (l : list str) (p : Pool) (w : Mundo) :
  (∀ q, isdir (disco (for_each l p (recibir_resultado env) w).2) q
        = isdir (disco w) q)
  ∧ (∀ q, is_Some (disco w !! q) →
          is_Some (disco (for_each l p (recibir_resultado env) w).2 !! q))
  ∧ (∀ q, (∀ ruta, ruta ∈ l → q ≠ salida_de_procesar env ruta) →
          disco (for_each l p (recibir_resultado env) w).2 !! q
          = disco w !! q).
Proof.
  revert p w. induction l as [|ruta l IH]; intros p w; [done|].
  cbn [for_each]. rewrite run_bind.
  pose proof (recibir_resultado_mundo p ruta w) as Hd.
  assert ((∀ q, isdir (disco (recibir_resultado env p ruta w).2) q
                = isdir (disco w) q)
          ∧ (∀ q, is_Some (disco w !! q) →
                  is_Some (disco (recibir_resultado env p ruta w).2 !! q))
          ∧ (∀ q, q ≠ salida_de_procesar env ruta →
                  disco (recibir_resultado env p ruta w).2 !! q
                  = disco w !! q)) as (Hdir1 & Hmono1 & Hotros1).
  { destruct Hd as [->|[Hs [t ->]]]; [done|]. split_and!.
    - intros q. by apply isdir_insert_archivo.
    - intros q Hq. rewrite lookup_insert_is_Some.
      destruct (decide (salida_de_procesar env ruta = q)); auto.
    - intros q Hq. by rewrite lookup_insert_ne. }
  destruct (recibir_resultado env p ruta w) as [[p1|e|f] w1];
    cbn [snd] in *.
  - destruct (IH p1 w1) as (Hdir & Hmono & Hotros). split_and!.
    + intros q. by rewrite Hdir, Hdir1.
    + intros q Hq. by apply Hmono, Hmono1.
    + intros q Hq. rewrite Hotros, Hotros1; [done|..].
      * apply Hq, list_elem_of_here.
      * intros r Hr. apply Hq. by apply list_elem_of_further.
  - split_and!; [done|done|].
    intros q Hq. apply Hotros1, Hq, list_elem_of_here.
  - split_and!; [done|done|].
    intros q Hq. apply Hotros1, Hq, list_elem_of_here.
Qed.

(** The loop, when the initializer does not raise: it goes through every
    item and ends with the Outcomes of the items whose call came back, in
    order, and with the other items lost. *)
Lemma bucle_pool (l : list str) (p : Pool) (w : Mundo) :
  (l ≠ [] → falla_load_model env MODELO_WHISPER = None) →
  pool_en_orden env p →
  ∃ p' w' rs evs,
    for_each l p (recibir_resultado env) w = (Valor p', w')
    ∧ pool_en_orden env p'
    ∧ resultados p' = resultados p ++ rs
    ∧ perdidos p'
      = perdidos p ++ filter (λ ruta, vuelve env ruta = false) l
    ∧ Forall2 (λ ruta o,
         (procesar_archivo env (Some (modelo_cargado env)) ruta w).1
         = Valor o)
        (filter (λ ruta, vuelve env ruta = true) l) rs
    ∧ Forall2 (λ ruta o,
         r1 o = EXITO → is_Some (disco w' !! salida_de_procesar env ruta))
        (filter (λ ruta, vuelve env ruta = true) l) rs
    ∧ traza w' = traza w ++ evs
    ∧ despachos evs = l
    ∧ pools_creados evs = []
    ∧ barras evs = []
    ∧ progresos evs = replicate (length rs) 1%nat
    ∧ lineas evs
      = linea_error <$> filter (λ o, Py.contiene FALLO (r1 o) = true) rs
    ∧ Forall (λ c, c = MODELO_WHISPER) (cargas evs)
    ∧ (length (ociosos p') + length (cargas evs)
       = length (ociosos p)
         + length (filter (λ ruta, vuelve env ruta = false) l))%nat
    ∧ (l ≠ [] → Forall (λ ruta, vuelve env ruta = true) l →
       (length (ociosos p') < NUMERO_DE_TRABAJADORES_GPU)%nat).
Proof.
  revert p w. induction l as [|ruta l IH]; intros p w Hload Hp.
  { exists p, w, [], []. cbn [for_each]. rewrite !app_nil_r.
    split_and!; try done; try constructor. }
  specialize (Hload ltac:(done)).
  cbn [for_each]. rewrite run_bind.
  destruct (recibir_resultado_run p ruta w Hload Hp)
    as (p1 & ini & rec & -> & Hp1 & Hres1 & Hper1 & Hrec & Hini & Hcar1 & Hoc1
        & Hocupa1).
  set (w1 := {| disco := _; traza := _ |}).
  destruct (IH p1 w1 (λ _, Hload) Hp1)
    as (p' & w' & rs & evs & Hrun & Hp' & Hres & Hper & Hrs & Hex & Htr
        & Hdes & Hpool & Hbar & Hprog & Hlin & Hcar & Hoc & _).
  destruct (bucle_pool_mundo l p1 w1) as (_ & Hmono & _).
  rewrite Hrun in Hmono. cbn [snd] in Hmono.
  destruct (proyecciones_de_inicializador ini Hini)
    as (Hi1 & Hi2 & Hi3 & Hi4 & Hi5).
  destruct (proyecciones_eventos_de rec) as (He1 & He2 & He3 & He4 & He5 & He6).
  assert (∀ q, isdir (disco w1) q = isdir (disco w) q) as Hdir1
    by (intros q; apply procesar_archivo_isdir).
  exists p', w', (rec ++ rs),
    (ini ++ [Despacha ruta] ++ concat (eventos_de <$> rec) ++ evs).
  rewrite Hrun, !filter_cons.
  assert (Forall2 (λ ruta o,
            (procesar_archivo env (Some (modelo_cargado env)) ruta w).1
            = Valor o)
            (filter (λ ruta, vuelve env ruta = true) l) rs) as Hrs'.
  { eapply Forall2_impl; [exact Hrs|]. intros r o <-.
    by apply procesar_archivo_resultado_isdir. }
  split_and!.
  - done.
  - done.
  - by rewrite Hres, Hres1, <-app_assoc.
  - rewrite Hper, Hper1, <-app_assoc. f_equal.
    destruct (vuelve env ruta); [by rewrite decide_False|by rewrite decide_True].
  - destruct (vuelve env ruta).
    + destruct Hrec as (o & -> & Ho). rewrite decide_True by done.
      by constructor.
    + subst rec. by rewrite decide_False.
  - destruct (vuelve env ruta).
    + destruct Hrec as (o & -> & Ho). rewrite decide_True by done.
      constructor; [|done]. intros Hok. apply Hmono. subst w1. cbn [disco].
      destruct (procesar_archivo env (Some (modelo_cargado env)) ruta w)
        as [r w3] eqn:Hpa. cbn [fst snd] in *. subst r.
      destruct (procesar_archivo_exito_escribe env _ _ _ _ _ Hpa Hok)
        as [t Ht]. by rewrite Ht.
    + subst rec. by rewrite decide_False.
  - rewrite Htr. subst w1. cbn [traza]. by rewrite <-!app_assoc.
  - unfold despachos in *. rewrite !omap_app, Hi1, He1, Hdes. done.
  - unfold pools_creados in *. rewrite !omap_app, Hi2, He2, Hpool. done.
  - unfold barras in *. rewrite !omap_app, Hi3, He3, Hbar. done.
  - unfold progresos in *. rewrite !omap_app, Hi4, He4, Hprog.
    cbn [omap list_omap app]. by rewrite length_app, replicate_add.
  - unfold lineas in *. rewrite !omap_app, Hi5, He5, Hlin.
    cbn [omap list_omap app]. by rewrite filter_app, fmap_app.
  - unfold cargas in *. rewrite !omap_app, He6. cbn [omap list_omap app].
    by apply Forall_app.
  - assert (length (cargas (ini ++ [Despacha ruta]
                            ++ concat (eventos_de <$> rec) ++ evs))
            = (length (cargas ini) + length (cargas evs))%nat) as ->.
    { unfold cargas in *. rewrite !omap_app, He6.
      cbn [omap list_omap app]. by rewrite length_app. }
    destruct (vuelve env ruta).
    + rewrite decide_False by done. lia.
    + rewrite decide_True by done. cbn [length]. lia.
  - intros _ Hall. apply Forall_cons in Hall as [Hruta Htodos].
    specialize (Hocupa1 Hruta).
    assert (filter (λ ruta, vuelve env ruta = false) l = []) as Hnil.
    { clear -Htodos. induction Htodos as [|x l Hx _ IH]; [done|].
      rewrite filter_cons, decide_False by (by rewrite Hx). exact IH. }
    rewrite Hnil in Hoc. cbn [length] in Hoc. lia.
Qed.

(** Workers do not get in each other's way: when the output paths of the
    items differ, the loop leaves at each item's output path what
    [procesar_archivo] alone leaves there. *)
Lemma bucle_pool_sin_interferencia (l : list str) (p : Pool) (w : Mundo)
    (r : str) :
  falla_load_model env MODELO_WHISPER = None →
  pool_en_orden env p →
  NoDup (salida_de_procesar env <$> l) → r ∈ l →
  disco (for_each l p (recibir_resultado env) w).2
    !! salida_de_procesar env r
  = disco (procesar_archivo env (Some (modelo_cargado env)) r w).2
      !! salida_de_procesar env r.
Proof.
  intros Hload. revert p w. induction l as [|ruta l IH]; intros p w Hp Hnd Hr.
  { by apply elem_of_nil in Hr. }
  rewrite fmap_cons in Hnd. apply NoDup_cons in Hnd as [Hruta Hnd].
  cbn [for_each]. rewrite run_bind.
  destruct (recibir_resultado_run p ruta w Hload Hp)
    as (p1 & ini & rec & -> & Hp1 & _).
  set (w1 := {| disco := _; traza := _ |}).
  assert (∀ q, isdir (disco w1) q = isdir (disco w) q) as Hdir1
    by (intros q; apply procesar_archivo_isdir).
  destruct (decide (r ∈ l)) as [Hrl|Hrl].
  - rewrite IH by done.
    assert (salida_de_procesar env r ≠ salida_de_procesar env ruta) as Hne.
    { intros Heq. apply Hruta. rewrite <-Heq.
      by apply list_elem_of_fmap_2. }
    destruct (procesar_archivo_efecto_isdir env (Some (modelo_cargado env)) r
                w1 w Hdir1) as [[-> ->]|(t & -> & ->)].
    + subst w1. cbn [disco].
      destruct (procesar_archivo_disco env (Some (modelo_cargado env)) ruta w)
        as [_ [->|[_ [t ->]]]]; [done|].
      by rewrite lookup_insert_ne.
    + by rewrite !lookup_insert_eq.
  - apply elem_of_cons in Hr as [->|?]; [|done].
    destruct (bucle_pool_mundo l p1 w1) as (_ & _ & Hotros).
    rewrite Hotros; [done|].
    intros r' Hr' Heq. apply Hruta. rewrite Heq.
    by apply list_elem_of_fmap_2.
Qed.

(** The loop ends by returning its state or by waiting for ever; it does
    not raise. *)
Lemma recibir_resultado_fin (p : Pool) (ruta : str) (w : Mundo) :
  (∃ p', (recibir_resultado env p ruta w).1 = Valor p')
  ∨ (recibir_resultado env p ruta w).1 = Escapa Bloqueo.
Proof.
  assert (∀ mg p1 k w2,
            let r :=
              ((emitir (Despacha ruta);;
                en_trabajador (procesar_archivo env mg ruta)
                  (λ resultado,
                     (if Py.contiene FALLO (r1 resultado)
                      then print (linea_error resultado)
                      else mret tt);;
                     emitir (Progreso 1);;
                     mret {| trabajadores := trabajadores p1;
                             iniciados := iniciados p1;
                             resultados := resultados p1 ++ [resultado];
                             perdidos := perdidos p1 |})
                  (mret {| trabajadores :=
                             <[k := (iniciados p1, None)]> (trabajadores p1);
                           iniciados := S (iniciados p1);
                           resultados := resultados p1;
                           perdidos := perdidos p1 ++ [ruta] |})) w2).1 in
            ∃ p', r = Valor p') as Hllamada.
  { intros mg p1 k w2. rewrite run_bind. unfold emitir at 1.
    unfold en_trabajador.
    pose proof (procesar_archivo_no_lanza env mg ruta
                  {| disco := disco w2; traza := traza w2 ++ [Despacha ruta] |})
      as Hno.
    destruct (procesar_archivo env mg ruta _) as [[o|e|f] w3];
      [|by destruct (Hno w3 e)|mred; eauto].
    destruct (Py.contiene FALLO (r1 o)); mred; eauto. }
  unfold recibir_resultado, alistar_trabajador.
  set (k := (trabajador_de env ruta `mod` NUMERO_DE_TRABAJADORES_GPU)%nat).
  destruct (trabajadores p !! k) as [[n [m|]]|].
  - rewrite run_bind, run_ret. left. apply Hllamada.
  - rewrite run_bind, inicializar_trabajador_run.
    destruct (falla_load_model env MODELO_WHISPER); cbn [fst snd];
      [by right|].
    left. apply (Hllamada (Some (modelo_cargado env))
             {| trabajadores :=
                  <[k := (n, Some (modelo_cargado env))]> (trabajadores p);
                iniciados := iniciados p; resultados := resultados p;
                perdidos := perdidos p |}).
  - rewrite run_bind, run_ret. left. apply Hllamada.
Qed.

Lemma bucle_pool_fin (l : list str) (p : Pool) (w : Mundo) :
  (∃ p', (for_each l p (recibir_resultado env) w).1 = Valor p')
  ∨ (for_each l p (recibir_resultado env) w).1 = Escapa Bloqueo.
Proof.
  revert p w. induction l as [|ruta l IH]; intros p w; [left; by exists p|].
  cbn [for_each]. rewrite run_bind.
  destruct (recibir_resultado_fin p ruta w) as [[p1 H1]|H1];
    destruct (recibir_resultado env p ruta w) as [[p2|e|f] w1];
    cbn [fst] in *; try discriminate H1; [apply IH|by right].
Qed.

Lemma pool_inicial_en_orden : pool_en_orden env pool_inicial.
Proof. split; [done|]. repeat constructor. Qed.

(** What the workers without an item add at the end: events of their
    initializers, with at most one load each. *)
Lemma inicios_ociosos (hasta : nat → nat) (ns : list nat) :
  Forall (λ e, de_inicializador e = true)
    (concat ((λ n, take (hasta n) (pasos_inicializador env n)) <$> ns))
  ∧ Forall (λ c, c = MODELO_WHISPER)
      (cargas (concat ((λ n, take (hasta n) (pasos_inicializador env n))
                       <$> ns)))
  ∧ (length (cargas (concat ((λ n, take (hasta n) (pasos_inicializador env n))
                             <$> ns)))
     ≤ length ns)%nat.
Proof.
  induction ns as [|n ns (IH1 & IH2 & IH3)]; [by split_and!; try constructor|].
  cbn [fmap list_fmap concat].
  destruct (pasos_inicializador_forma n) as [Hini Hcar].
  pose proof (cargas_take (hasta n) (pasos_inicializador env n)) as Hsub.
  assert (Forall (λ c, c = MODELO_WHISPER)
            (cargas (pasos_inicializador env n))
          ∧ (length (cargas (pasos_inicializador env n)) ≤ 1)%nat) as [Hm H1].
  { rewrite Hcar. destruct (falla_load_model env MODELO_WHISPER);
      split; cbn [length]; try lia; repeat constructor. }
  split_and!.
  - apply Forall_app. split; [by apply Forall_take|done].
  - unfold cargas in *. rewrite omap_app. apply Forall_app. split; [|done].
    apply Forall_forall. intros c Hc. apply sublist_subseteq in Hsub.
    apply Hsub in Hc. by rewrite Forall_forall in Hm; apply Hm.
  - unfold cargas in *. rewrite omap_app, length_app. cbn [length].
    apply sublist_length in Hsub. lia.
Qed.

Lemma take_todo (n : nat) :
  pasos_inicializador env n
  = take (length (pasos_inicializador env n)) (pasos_inicializador env n).
Proof. by rewrite firstn_all. Qed.

(** The end of the loop: the results, when nothing was lost; and waiting
    for ever, when something was. *)
Lemma cerrar_pool_run (p : Pool) (w : Mundo) :
  ∃ evs,
    cerrar_pool env p w
    = (if bool_decide (perdidos p = [])
       then Valor (resultados p) else Escapa Bloqueo,
       registrar w evs)
    ∧ Forall (λ e, de_inicializador e = true) evs
    ∧ Forall (λ c, c = MODELO_WHISPER) (cargas evs)
    ∧ (length (cargas evs) ≤ length (ociosos p))%nat.
Proof.
  unfold cerrar_pool, bloquear, emitir_todos. case_bool_decide.
  - eexists. split; [by rewrite run_bind|].
    apply (inicios_ociosos (avance_ocioso env)).
  - eexists. split; [by rewrite run_bind|].
    assert (pasos_inicializador env <$> ociosos p
            = (λ n, take (length (pasos_inicializador env n))
                      (pasos_inicializador env n)) <$> ociosos p) as ->.
    { apply list_fmap_ext. intros _ n _. apply take_todo. }
    apply (inicios_ociosos (λ n, length (pasos_inicializador env n))).
Qed.

Lemma ejecutar_pool_run (items : list str) (w : Mundo) :
  ejecutar_pool env items w
  = (p ← for_each (planificacion env items) pool_inicial
           (recibir_resultado env);
     cerrar_pool env p)
      (registrar w [CreaPool NUMERO_DE_TRABAJADORES_GPU;
                    BarraProgreso (length items)]).
Proof.
  unfold ejecutar_pool. rewrite run_bind. unfold emitir at 1.
  rewrite run_bind. unfold emitir at 1. cbn [disco traza]. unfold registrar.
  by rewrite <-app_assoc.
Qed.

(** With an initializer that does not raise, or no item, the items that
    arrive are those whose call comes back. *)
Lemma orden_de_llegada_filter (items : list str) :
  (items ≠ [] → falla_load_model env MODELO_WHISPER = None) →
  orden_de_llegada env items
  = filter (λ ruta, vuelve env ruta = true) (planificacion env items).
Proof.
  intros Hload. unfold orden_de_llegada.
  destruct (falla_load_model env MODELO_WHISPER) as [e|]; [|done].
  destruct items as [|x items]; [done|]. by specialize (Hload ltac:(done)).
Qed.

Lemma filter_vuelve_false (l : list str) :
  filter (λ ruta, vuelve env ruta = false) l = []
  ↔ filter (λ ruta, vuelve env ruta = true) l = l.
Proof.
  induction l as [|x l IH]; [done|]. rewrite !filter_cons.
  destruct (vuelve env x); repeat case_decide; try done.
  - rewrite IH. split; [by intros ->|by intros [= ?]].
  - split; [done|].
    intros Heq. pose proof (length_filter (λ ruta, vuelve env ruta = true) l)
      as Hlen. rewrite Heq in Hlen. cbn [length] in Hlen. lia.
Qed.

(** A pool run, when the initializer does not raise or there is no item.
    It returns the Outcomes of the items that arrive, in their order, or it
    does not come back, when an item does not arrive. *)
Lemma ejecutar_pool_general (items : list str) (w : Mundo) :
  (items ≠ [] → falla_load_model env MODELO_WHISPER = None) →
  ∃ rs w' evs,
    ejecutar_pool env items w
    = (if bool_decide (orden_de_llegada env items = planificacion env items)
       then Valor rs else Escapa Bloqueo, w')
    ∧ Forall2 (λ ruta o,
         (procesar_archivo env (Some (modelo_cargado env)) ruta w).1
         = Valor o)
        (orden_de_llegada env items) rs
    ∧ Forall2 (λ ruta o,
         r1 o = EXITO → is_Some (disco w' !! salida_de_procesar env ruta))
        (orden_de_llegada env items) rs
    ∧ traza w' = traza w ++ evs
    ∧ despachos evs = planificacion env items
    ∧ pools_creados evs = [NUMERO_DE_TRABAJADORES_GPU]
    ∧ barras evs = [length items]
    ∧ progresos evs = replicate (length rs) 1%nat
    ∧ lineas evs
      = linea_error <$> filter (λ o, Py.contiene FALLO (r1 o) = true) rs
    ∧ Forall (λ c, c = MODELO_WHISPER) (cargas evs)
    ∧ (length (cargas evs) + length (orden_de_llegada env items)
       ≤ NUMERO_DE_TRABAJADORES_GPU + length items)%nat
    ∧ (items ≠ [] →
       orden_de_llegada env items = planificacion env items →
       (1 ≤ length (cargas evs))%nat).
Proof.
  intros Hload. rewrite ejecutar_pool_run, (orden_de_llegada_filter _ Hload).
  set (w0 := registrar w _).
  assert (planificacion env items ≠ [] →
          falla_load_model env MODELO_WHISPER = None) as Hload'.
  { intros Hne. apply Hload. intros ->. by apply Hne. }
  destruct (bucle_pool (planificacion env items) pool_inicial w0 Hload'
              pool_inicial_en_orden)
    as (p & w1 & rs & evs & Hrun & Hp & Hres & Hper & Hrs & Hex & Htr
        & Hdes & Hpool & Hbar & Hprog & Hlin & Hcar & Hoc & Hocupa).
  rewrite run_bind, Hrun.
  destruct (cerrar_pool_run p w1) as (fin & -> & Hfin & Hcarf & Hlenf).
  destruct (proyecciones_de_inicializador fin Hfin)
    as (Hf1 & Hf2 & Hf3 & Hf4 & Hf5).
  cbn [resultados perdidos pool_inicial app] in Hres, Hper.
  exists rs, (registrar w1 fin),
    ([CreaPool NUMERO_DE_TRABAJADORES_GPU; BarraProgreso (length items)]
     ++ evs ++ fin).
  assert (length (filter (λ ruta, vuelve env ruta = true)
                    (planificacion env items))
          + length (filter (λ ruta, vuelve env ruta = false)
                      (planificacion env items))
          = length items)%nat as Hpart.
  { rewrite <-(Permutation_length (planificacion_Permutation env items)).
    generalize (planificacion env items). clear. intros l.
    induction l as [|x l IH]; [done|]. rewrite !filter_cons.
    destruct (vuelve env x); repeat case_decide; try done;
      cbn [length]; lia. }
  split_and!.
  - f_equal. rewrite Hres, Hper.
    destruct (decide (filter (λ ruta, vuelve env ruta = false)
                        (planificacion env items) = [])) as [Hn|Hn].
    + rewrite !bool_decide_eq_true_2; [done|by apply filter_vuelve_false|done].
    + rewrite !bool_decide_eq_false_2;
        [done|by rewrite <-filter_vuelve_false|done].
  - eapply Forall2_impl; [exact Hrs|]. intros r o <-. symmetry.
    apply (procesar_archivo_traza env (Some (modelo_cargado env)) r w).
  - done.
  - cbn [registrar traza]. rewrite Htr. subst w0. cbn [registrar traza].
    by rewrite <-!app_assoc.
  - unfold despachos in *. rewrite !omap_app, Hdes, Hf1. cbn. by rewrite app_nil_r.
  - unfold pools_creados in *. rewrite !omap_app, Hpool, Hf2. done.
  - unfold barras in *. rewrite !omap_app, Hbar, Hf3. done.
  - unfold progresos in *. rewrite !omap_app, Hprog, Hf4. cbn. by rewrite app_nil_r.
  - unfold lineas in *. rewrite !omap_app, Hlin, Hf5. cbn. by rewrite app_nil_r.
  - unfold cargas in *. rewrite !omap_app. cbn [omap list_omap app].
    by apply Forall_app.
  - assert (length (cargas ([CreaPool NUMERO_DE_TRABAJADORES_GPU;
                             BarraProgreso (length items)] ++ evs ++ fin))
            = (length (cargas evs) + length (cargas fin))%nat) as ->.
    { unfold cargas. rewrite !omap_app. cbn [omap list_omap app].
      by rewrite length_app. }
    change (length (ociosos pool_inicial)) with 2%nat in Hoc.
    unfold NUMERO_DE_TRABAJADORES_GPU. lia.
  - intros Hne Htodos.
    assert (length (cargas ([CreaPool NUMERO_DE_TRABAJADORES_GPU;
                             BarraProgreso (length items)] ++ evs ++ fin))
            = (length (cargas evs) + length (cargas fin))%nat) as ->.
    { unfold cargas. rewrite !omap_app. cbn [omap list_omap app].
      by rewrite length_app. }
    assert (planificacion env items ≠ []) as Hne'.
    { intros Hnil. apply Hne. apply Permutation_nil.
      by rewrite <-Hnil, planificacion_Permutation. }
    assert (Forall (λ ruta, vuelve env ruta = true)
              (planificacion env items)) as Hall.
    { rewrite <-Htodos. apply Forall_forall. intros x Hx.
      by apply list_elem_of_filter in Hx as [? _]. }
    specialize (Hocupa Hne' Hall).
    assert (filter (λ ruta, vuelve env ruta = false)
              (planificacion env items) = []) as Hnil
      by (by apply filter_vuelve_false).
    rewrite Hnil in Hoc. cbn [length] in Hoc.
    change (length (ociosos pool_inicial)) with 2%nat in Hoc.
    unfold NUMERO_DE_TRABAJADORES_GPU in Hocupa. lia.
Qed.

Lemma ejecutar_pool_disco (items : list str) (w : Mundo) :
  disco (ejecutar_pool env items w).2
  = disco (for_each (planificacion env items) pool_inicial
             (recibir_resultado env)
             (registrar w [CreaPool NUMERO_DE_TRABAJADORES_GPU;
                           BarraProgreso (length items)])).2.
Proof.
  rewrite ejecutar_pool_run, run_bind.
  destruct (for_each _ _ _ _) as [[p|e|f] w1]; [|done|done].
  by destruct (cerrar_pool_run p w1) as (fin & -> & _).
Qed.

(** A pool run never makes or removes a directory, removes nothing, and
    leaves every path that is not the output path of one of its items as
    it was; whatever the way it ends. *)
Lemma ejecutar_pool_mundo (items : list str) (w : Mundo) :
  (∀ q, isdir (disco (ejecutar_pool env items w).2) q = isdir (disco w) q)
  ∧ (∀ q, is_Some (disco w !! q) →
          is_Some (disco (ejecutar_pool env items w).2 !! q))
  ∧ (∀ q, (∀ ruta, ruta ∈ items → q ≠ salida_de_procesar env ruta) →
          disco (ejecutar_pool env items w).2 !! q = disco w !! q).
Proof.
  rewrite ejecutar_pool_disco.
  destruct (bucle_pool_mundo (planificacion env items) pool_inicial
              (registrar w [CreaPool NUMERO_DE_TRABAJADORES_GPU;
                            BarraProgreso (length items)]))
    as (Hdir & Hmono & Hotros).
  split_and!; [done|done|].
  intros q Hq. rewrite Hotros; [done|].
  intros ruta Hruta. apply Hq. by rewrite <-(planificacion_Permutation env).
Qed.

(** With pairwise different output paths, a pool run whose initializer
    does not raise leaves at each item's output path what
    [procesar_archivo] alone leaves there. *)
Lemma ejecutar_pool_cada_salida (items : list str) (w : Mundo) (r : str) :
  falla_load_model env MODELO_WHISPER = None →
  NoDup (salida_de_procesar env <$> items) → r ∈ items →
  disco (ejecutar_pool env items w).2 !! salida_de_procesar env r
  = disco (procesar_archivo env (Some (modelo_cargado env)) r w).2
      !! salida_de_procesar env r.
Proof.
  intros Hload Hnd Hr. rewrite ejecutar_pool_disco.
  rewrite bucle_pool_sin_interferencia;
    [|done|apply pool_inicial_en_orden
     |by rewrite (planificacion_Permutation env)
     |by rewrite (planificacion_Permutation env)].
  f_equal. apply (procesar_archivo_traza env (Some (modelo_cargado env)) r w).
Qed.

(** A pool run returns its results or waits for ever: it does not raise. *)
Lemma ejecutar_pool_fin (items : list str) (w : Mundo) :
  (∃ rs, (ejecutar_pool env items w).1 = Valor rs)
  ∨ (ejecutar_pool env items w).1 = Escapa Bloqueo.
Proof.
  rewrite ejecutar_pool_run, run_bind.
  destruct (bucle_pool_fin (planificacion env items) pool_inicial
              (registrar w [CreaPool NUMERO_DE_TRABAJADORES_GPU;
                            BarraProgreso (length items)])) as [[p Hp]|Hp];
    destruct (for_each _ _ _ _) as [[p'|e|f] w1]; cbn [fst] in Hp;
    try discriminate Hp.
  - destruct (cerrar_pool_run p' w1) as (fin & -> & _). cbn [fst].
    case_bool_decide; eauto.
  - right. by injection Hp as ->.
Qed.

(** When the initializer raises, no worker takes an item: with an item to
    process, the run waits for ever and nothing is dispatched. *)
Lemma ejecutar_pool_sin_trabajadores (items : list str) (w : Mundo)
    (e : excepcion) :
  falla_load_model env MODELO_WHISPER = Some e → items ≠ [] →
  ∃ evs,
    ejecutar_pool env items w = (Escapa Bloqueo, registrar w evs)
    ∧ despachos evs = [] ∧ progresos evs = [] ∧ cargas evs = []
    ∧ lineas evs = []
    ∧ pools_creados evs = [NUMERO_DE_TRABAJADORES_GPU]
    ∧ barras evs = [length items].
Proof.
  intros Hload Hne. rewrite ejecutar_pool_run, run_bind.
  destruct (planificacion env items) as [|ruta l] eqn:Hplan.
  { destruct Hne. apply Permutation_nil.
    by rewrite <-Hplan, planificacion_Permutation. }
  cbn [for_each]. rewrite run_bind. unfold recibir_resultado at 1.
  rewrite run_bind. unfold alistar_trabajador.
  set (k := (trabajador_de env ruta `mod` NUMERO_DE_TRABAJADORES_GPU)%nat).
  assert (trabajadores pool_inicial !! k = Some (k, None)) as ->.
  { assert (k < NUMERO_DE_TRABAJADORES_GPU)%nat as Hk
      by (by apply Nat.mod_upper_bound).
    unfold NUMERO_DE_TRABAJADORES_GPU in Hk.
    destruct k as [|[|k]]; [done|done|lia]. }
  rewrite inicializar_trabajador_run, Hload.
  destruct (pasos_inicializador_forma k) as [Hini Hcar].
  rewrite Hload in Hcar.
  destruct (proyecciones_de_inicializador _ Hini)
    as (H1 & H2 & H3 & H4 & H5).
  eexists. split.
  - unfold registrar. cbn [disco traza]. by rewrite <-app_assoc.
  - unfold despachos, progresos, cargas, lineas, pools_creados, barras in *.
    rewrite !omap_app, H1, H2, H3, H4, H5, Hcar. done.
Qed.

(** A pool run returns exactly when every item arrives. *)
Lemma ejecutar_pool_vuelve_sii (items : list str) (w : Mundo) :
  (∃ rs, (ejecutar_pool env items w).1 = Valor rs)
  ↔ orden_de_llegada env items ≡ₚ items.
Proof.
  destruct (decide (items = [])) as [->|Hne].
  { split; [intros _|intros _].
    - unfold orden_de_llegada.
      by destruct (falla_load_model env MODELO_WHISPER).
    - destruct (ejecutar_pool_general [] w) as (rs & w' & evs & -> & _);
        [done|].
      rewrite bool_decide_eq_true_2; [by exists rs|].
      unfold orden_de_llegada.
      by destruct (falla_load_model env MODELO_WHISPER). }
  destruct (falla_load_model env MODELO_WHISPER) as [e|] eqn:Hload.
  - destruct (ejecutar_pool_sin_trabajadores items w e Hload Hne)
      as (evs & -> & _). unfold orden_de_llegada. rewrite Hload.
    split; [by intros [rs ?]|].
    intros Hp. apply Permutation_nil in Hp. done.
  - destruct (ejecutar_pool_general items w (λ _, Hload))
      as (rs & w' & evs & -> & _). cbn [fst].
    case_bool_decide as Heq.
    + split; [intros _|by exists rs].
      rewrite Heq. apply planificacion_Permutation.
    + split; [by intros [? ?]|]. intros Hp. destruct Heq.
      by apply orden_de_llegada_todos.
Qed.

(** A pool run in which every item arrives. *)
Lemma ejecutar_pool_llegan (items : list str) (w : Mundo) :
  orden_de_llegada env items ≡ₚ items →
  ∃ rs w' evs,
    ejecutar_pool env items w = (Valor rs, w')
    ∧ Forall2 (λ ruta o,
         (procesar_archivo env (Some (modelo_cargado env)) ruta w).1
         = Valor o)
        (orden_de_llegada env items) rs
    ∧ Forall2 (λ ruta o,
         r1 o = EXITO → is_Some (disco w' !! salida_de_procesar env ruta))
        (orden_de_llegada env items) rs
    ∧ traza w' = traza w ++ evs
    ∧ despachos evs = orden_de_llegada env items
    ∧ pools_creados evs = [NUMERO_DE_TRABAJADORES_GPU]
    ∧ barras evs = [length items]
    ∧ progresos evs = replicate (length items) 1%nat
    ∧ lineas evs
      = linea_error <$> filter (λ o, Py.contiene FALLO (r1 o) = true) rs
    ∧ Forall (λ c, c = MODELO_WHISPER) (cargas evs)
    ∧ (length (cargas evs) ≤ NUMERO_DE_TRABAJADORES_GPU)%nat
    ∧ (items ≠ [] → (1 ≤ length (cargas evs))%nat).
Proof.
  intros Hperm.
  destruct (orden_de_llegada_todos env items Hperm) as (Heq & _ & Hload).
  destruct (ejecutar_pool_general items w Hload)
    as (rs & w' & evs & Hrun & Hrs & Hex & Htr & Hdes & Hpool & Hbar & Hprog
        & Hlin & Hcar & Hlen & Hmin).
  rewrite bool_decide_eq_true_2 in Hrun by done.
  exists rs, w', evs. split_and!; try done.
  - by rewrite Heq.
  - rewrite Hprog. f_equal.
    by rewrite <-(Forall2_length _ _ _ Hrs), Hperm.
  - rewrite Hperm in Hlen. lia.
  - intros Hne. by apply Hmin.
Qed.

(** The state of every Outcome a pool run returns is one of the two
    literals. *)
Lemma ejecutar_pool_estados (items : list str) (w w' : Mundo)
    (rs : list Outcome) :
  ejecutar_pool env items w = (Valor rs, w') →
  Forall (λ r, r1 r = EXITO ∨ r1 r = FALLO) rs.
Proof.
  intros Hrun.
  assert (orden_de_llegada env items ≡ₚ items) as Hperm.
  { apply (ejecutar_pool_vuelve_sii items w). exists rs. by rewrite Hrun. }
  destruct (ejecutar_pool_llegan items w Hperm)
    as (rs' & w2 & evs & Hrun' & Hrs & _).
  rewrite Hrun in Hrun'. injection Hrun' as <- <-.
  clear -Hrs. induction Hrs as [|ruta o l rs' Ho _ IH]; constructor; [|done].
  destruct (procesar_archivo env (Some (modelo_cargado env)) ruta w)
    as [r w1] eqn:Hp. cbn [fst] in Ho. subst r.
  apply procesar_archivo_estado in Hp as [_ [[? _]|?]]; auto.
Qed.




End ElPool.



(** ** The output folder *)

Section Carpetas.
Import os_path os os_io Transcriber.
Context (env : Entorno).

Lemma prefijos_dir_prefix (visto p q : str) :
  q ∈ prefijos_dir visto p → q `prefix_of` visto ++ p.
Proof.
  revert visto. induction p as [|c p IH]; intros visto; cbn [prefijos_dir].
  - by intros ?%elem_of_nil.
  - intros [Hq|Hq]%elem_of_app.
    + destruct (N.eqb c sep && bool_decide (visto ≠ [])).
      * apply list_elem_of_singleton in Hq as ->. by apply prefix_app_r.
      * by apply elem_of_nil in Hq.
    + apply IH in Hq. by rewrite <-app_assoc in Hq.
Qed.

(** The loop of [os.makedirs] keeps what exists and adds directories. *)
Lemma mkdir_lista (fs : filesystem) (l : list str) :
  let fs' := foldr (λ d fs', if exists_ fs' d then fs'
                             else <[d := Directorio]> fs') fs l in
  (∀ q v, fs !! q = Some v → fs' !! q = Some v)
  ∧ (∀ q v, fs' !! q = Some v → fs !! q = Some v ∨ v = Directorio ∧ q ∈ l).
Proof.
  induction l as [|d l [IH1 IH2]]; cbn [foldr].
  - split; [done|]. intros q v Hq. by left.
  - set (fs' := foldr _ fs l) in *.
    destruct (exists_ fs' d) eqn:Hd.
    + split; [done|]. intros q v Hq.
      destruct (IH2 q v Hq) as [?|[? ?]]; [by left|right].
      split; [done|]. by apply list_elem_of_further.
    + apply not_true_iff_false in Hd. rewrite exists_true in Hd.
      apply eq_None_not_Some in Hd. split.
      * intros q v Hq. rewrite lookup_insert_ne; [by apply IH1|].
        intros ->. apply IH1 in Hq. congruence.
      * intros q v. rewrite lookup_insert. case_decide as Hqd.
        -- intros [= <-]. subst q. right. split; [done|]. apply list_elem_of_here.
        -- intros Hq. destruct (IH2 q v Hq) as [?|[? ?]]; [by left|right].
           split; [done|]. by apply list_elem_of_further.
Qed.

Lemma lineas_Imprime (ls : list str) :
  pools_creados (Imprime <$> ls) = [] ∧ despachos (Imprime <$> ls) = [].
Proof. induction ls as [|l ls [IH1 IH2]]; by split. Qed.

(** What [crear_carpetas_necesarias] leaves behind: every path that existed
    keeps its node; a new path is a directory and a prefix of the output
    folder's path; the trace grows by printed lines only. *)
Lemma crear_carpetas_necesarias_efecto (w : Mundo) :
  let w' := (crear_carpetas_necesarias env w).2 in
  (∀ q v, disco w !! q = Some v → disco w' !! q = Some v)
  ∧ (∀ q v, disco w' !! q = Some v →
       disco w !! q = Some v
       ∨ v = Directorio ∧ q `prefix_of` CARPETA_TRANSCRIPCIONES env)
  ∧ ∃ ls, traza w' = traza w ++ (Imprime <$> ls).
Proof.
  unfold crear_carpetas_necesarias, os_makedirs. mred.
  destruct (exists_ (disco w) (CARPETA_TRANSCRIPCIONES env)) eqn:Hex; mred.
  { split_and!; [done|by left|]. exists []. by rewrite app_nil_r. }
  rewrite Hex.
  destruct (existsb _ _); mred.
  { split_and!; [done|by left|]. by eexists [_]. }
  destruct (falla_mkdir env _); mred.
  { split_and!; [done|by left|]. by eexists [_]. }
  pose proof (mkdir_lista (disco w)
                (prefijos_dir [] (CARPETA_TRANSCRIPCIONES env)
                 ++ [CARPETA_TRANSCRIPCIONES env])) as [H1 H2].
  split_and!; [done| |by eexists [_]].
  intros q v Hq. destruct (H2 q v Hq) as [?|[-> Hin]]; [by left|right].
  split; [done|]. apply elem_of_app in Hin as [Hin|Hin].
  - by apply prefijos_dir_prefix in Hin.
  - by apply list_elem_of_singleton in Hin as ->.
Qed.

(** No path of the input folder is a prefix of the output folder's path. *)
(** Creating the output folder ends: it returns, or raises what
    [os.makedirs] raised. *)
Lemma crear_carpetas_necesarias_fin (w : Mundo) :
  (crear_carpetas_necesarias env w).1 = Valor tt
  ∨ ∃ e, (crear_carpetas_necesarias env w).1 = Lanza e.
Proof.
  unfold crear_carpetas_necesarias, os_makedirs. mred.
  destruct (exists_ (disco w) (CARPETA_TRANSCRIPCIONES env)) eqn:Hex; mred.
  { by left. }
  rewrite Hex.
  destruct (existsb _ _); mred; [right; by eexists|].
  destruct (falla_mkdir env _); mred; [right; by eexists|by left].
Qed.

Lemma AUDIOS_no_prefijo (x : str) :
  ¬ (CARPETA_AUDIOS env ++ x) `prefix_of` CARPETA_TRANSCRIPCIONES env.
Proof.
  unfold CARPETA_AUDIOS, CARPETA_TRANSCRIPCIONES.
  rewrite !join_relativo by reflexivity. rewrite <-app_assoc.
  intros H%prefix_app_inv. cbn in H. by apply prefix_cons_inv_1 in H.
Qed.

Lemma crear_carpetas_necesarias_AUDIOS (w : Mundo) (x : str) :
  disco (crear_carpetas_necesarias env w).2 !! (CARPETA_AUDIOS env ++ x)
  = disco w !! (CARPETA_AUDIOS env ++ x).
Proof.
  destruct (crear_carpetas_necesarias_efecto w) as (H1 & H2 & _).
  destruct (disco w !! (CARPETA_AUDIOS env ++ x)) as [v|] eqn:Hw.
  - by apply H1.
  - destruct (disco (crear_carpetas_necesarias env w).2
               !! (CARPETA_AUDIOS env ++ x)) as [v|] eqn:Hw'; [|done].
    apply H2 in Hw' as [?|[_ Hp]]; [congruence|].
    by apply AUDIOS_no_prefijo in Hp.
Qed.

Lemma crear_carpetas_necesarias_isdir_AUDIOS (w : Mundo) :
  isdir (disco (crear_carpetas_necesarias env w).2) (CARPETA_AUDIOS env)
  = isdir (disco w) (CARPETA_AUDIOS env).
Proof.
  unfold isdir.
  rewrite <-(app_nil_r (CARPETA_AUDIOS env)).
  by rewrite crear_carpetas_necesarias_AUDIOS.
Qed.

Lemma crear_carpetas_necesarias_listdir (w : Mundo) (n : str) :
  n ∈ listdir (disco (crear_carpetas_necesarias env w).2) (CARPETA_AUDIOS env)
  ↔ n ∈ listdir (disco w) (CARPETA_AUDIOS env).
Proof.
  rewrite !elem_of_listdir. by rewrite crear_carpetas_necesarias_AUDIOS.
Qed.

(** [crear_carpetas_necesarias] writes no regular file. *)
Lemma crear_carpetas_necesarias_archivos (w : Mundo) :
  archivos (disco (crear_carpetas_necesarias env w).2) = archivos (disco w).
Proof.
  destruct (crear_carpetas_necesarias_efecto w) as (H1 & H2 & _).
  apply map_eq. intros q. apply option_eq. intros t.
  rewrite !lookup_archivos. split.
  - intros Hq. apply H2 in Hq as [?|[? _]]; done.
  - apply H1.
Qed.

End Carpetas.

(** ** The entry point *)

Section Principal.
Import os_path os os_io Transcriber.
Context (env : Entorno).

Lemma pendientes_nil (fs : filesystem) :
  (∀ n, n ∈ listdir fs (CARPETA_AUDIOS env) →
        Py.endswith n (Py.lit ".opus") = true →
        exists_ fs (salida_de_encontrar env n) = true) →
  pendientes env fs = [].
Proof.
  intros H. apply elem_of_nil_inv. intros p.
  rewrite elem_of_pendientes. intros (n & Hn & He & Hx & _).
  rewrite (H n Hn He) in Hx. done.
Qed.

(** The runs of [main] that end before the pool: no CUDA, the output
    folder could not be made, no input folder, or nothing pending. They
    write no regular file and only print. *)
Lemma main_sin_pool (w : Mundo) :
  cuda_is_available env = false
  ∨ (∃ e, (crear_carpetas_necesarias env w).1 = Lanza e)
  ∨ isdir (disco (crear_carpetas_necesarias env w).2) (CARPETA_AUDIOS env)
    = false
  ∨ pendientes env (disco (crear_carpetas_necesarias env w).2) = [] →
  archivos (disco (main env w).2) = archivos (disco w)
  ∧ ∃ ls, traza (main env w).2 = traza w ++ (Imprime <$> ls).
Proof.
  intros Hcaso. unfold main.
  destruct (cuda_is_available env) eqn:Hcuda; cbn [negb].
  2:{ rewrite run_print. cbn [snd disco traza]. split; [done|]. by eexists [_]. }
  rewrite run_bind.
  pose proof (crear_carpetas_necesarias_archivos env w) as Harch.
  destruct (crear_carpetas_necesarias_efecto env w) as (_ & _ & ls & Htr).
  pose proof (crear_carpetas_necesarias_fin env w) as Hfin.
  destruct (crear_carpetas_necesarias env w) as [[[]|e|f] w1] eqn:Hc;
    cbn [fst snd] in *.
  2:{ split; [done|]. by exists ls. }
  2:{ by destruct Hfin as [?|[? ?]]. }
  rewrite run_bind, encontrar_archivos_pendientes_run.
  destruct (isdir (disco w1) (CARPETA_AUDIOS env)) eqn:Hd.
  - destruct Hcaso as [?|[[e ?]|[?|Hnil]]]; try done.
    rewrite Hnil. rewrite run_print. cbn [snd disco traza length].
    split; [done|]. rewrite Htr. eexists (ls ++ [_; _; _]).
    rewrite fmap_app, <-!app_assoc. reflexivity.
  - rewrite run_print. cbn [snd disco traza].
    split; [done|]. rewrite Htr. eexists (ls ++ [_; _]).
    rewrite fmap_app, <-!app_assoc. reflexivity.
Qed.

(** C9. When the input folder is not a directory, [main] ends without
    creating a pool or dispatching an item, and the regular files of the
    file system, with their text, are the ones it started with: the run
    only prints (it may have made the output folder, a directory). *)
Theorem main_sin_carpeta_de_audios (w : Mundo) :
  isdir (disco w) (CARPETA_AUDIOS env) = false →
  archivos (disco (main env w).2) = archivos (disco w)
  ∧ ∃ evs, traza (main env w).2 = traza w ++ evs
           ∧ pools_creados evs = []
           ∧ despachos evs = [].
Proof.
  intros Hd.
  destruct (main_sin_pool w) as [Ha [ls Htr]].
  { right. right. left. by rewrite crear_carpetas_necesarias_isdir_AUDIOS. }
  split; [done|]. exists (Imprime <$> ls).
  destruct (lineas_Imprime ls). done.
Qed.

(** C7. When the input folder exists and every entry in it whose name ends
    in ".opus" has its output path present, discovery returns the empty
    list, and [main] ends without creating the pool: its trace grows by
    events that are neither a pool creation nor a dispatch. *)
Theorem main_sin_pendientes (w : Mundo) :
  isdir (disco w) (CARPETA_AUDIOS env) = true →
  (∀ n, n ∈ listdir (disco w) (CARPETA_AUDIOS env) →
        Py.endswith n (Py.lit ".opus") = true →
        exists_ (disco w) (salida_de_encontrar env n) = true) →
  (encontrar_archivos_pendientes env w).1 = Valor (Some [])
  ∧ ∃ evs, traza (main env w).2 = traza w ++ evs
           ∧ pools_creados evs = []
           ∧ despachos evs = [].
Proof.
  intros Hd Hhechos. split.
  - rewrite encontrar_archivos_pendientes_run, Hd. cbn [fst].
    by rewrite pendientes_nil.
  - destruct (main_sin_pool w) as [_ [ls Htr]].
    { right. right. right. apply pendientes_nil. intros n Hn He.
      apply (proj1 (crear_carpetas_necesarias_listdir env w n)) in Hn.
      specialize (Hhechos n Hn He). apply exists_true in Hhechos as [v Hv].
      apply exists_true. exists v.
      by apply (crear_carpetas_necesarias_efecto env w). }
    exists (Imprime <$> ls). destruct (lineas_Imprime ls). done.
Qed.

(** What [main] does with the two results of discovery, once CUDA is there
    and the output folder is: it prints one line or the other and returns. *)
Lemma main_tras_descubrir (w : Mundo) :
  cuda_is_available env = true →
  (crear_carpetas_necesarias env w).1 = Valor tt →
  (isdir (disco w) (CARPETA_AUDIOS env) = false →
   (main env w).1 = Valor tt
   ∧ last (traza (main env w).2) = Some (Imprime (linea_sin_carpeta env)))
  ∧ (isdir (disco w) (CARPETA_AUDIOS env) = true →
     (∀ n, n ∈ listdir (disco w) (CARPETA_AUDIOS env) →
           Py.endswith n (Py.lit ".opus") = true →
           exists_ (disco w) (salida_de_encontrar env n) = true) →
     (main env w).1 = Valor tt
     ∧ last (traza (main env w).2) = Some (Imprime linea_nada_pendiente)).
Proof.
  intros Hcuda Hcrear.
  pose proof (crear_carpetas_necesarias_isdir_AUDIOS env w) as Hd.
  pose proof (crear_carpetas_necesarias_listdir env w) as Hl.
  destruct (crear_carpetas_necesarias_efecto env w) as (Hmono & _ & _).
  unfold main. rewrite Hcuda. cbn [negb]. rewrite run_bind.
  destruct (crear_carpetas_necesarias env w) as [r w1].
  cbn [fst snd] in *. subst r.
  rewrite run_bind, encontrar_archivos_pendientes_run, Hd.
  split.
  - intros ->. rewrite run_print. cbn [fst snd traza].
    split; [done|]. apply last_snoc.
  - intros -> Hhechos. rewrite pendientes_nil.
    + rewrite run_print. cbn [fst snd traza].
      split; [done|]. apply last_snoc.
    + intros n Hn He. apply (proj1 (Hl n)) in Hn.
      specialize (Hhechos n Hn He). apply exists_true in Hhechos as [v Hv].
      apply exists_true. exists v. by apply Hmono.
Qed.

(** C4. Discovery returns [None] exactly when the input folder is not a
    directory; when it is, discovery returns a list, and that list is empty
    when no entry is pending. [None] and the empty list are different
    results, and [main] answers each with a line of its own before it
    returns. *)
Theorem encontrar_archivos_pendientes_None (w : Mundo) :
  ((encontrar_archivos_pendientes env w).1 = Valor None
   ↔ isdir (disco w) (CARPETA_AUDIOS env) = false)
  ∧ (isdir (disco w) (CARPETA_AUDIOS env) = true →
     ∃ l, (encontrar_archivos_pendientes env w).1 = Valor (Some l))
  ∧ (isdir (disco w) (CARPETA_AUDIOS env) = true →
     (∀ n, n ∈ listdir (disco w) (CARPETA_AUDIOS env) →
           Py.endswith n (Py.lit ".opus") = true →
           exists_ (disco w) (salida_de_encontrar env n) = true) →
     (encontrar_archivos_pendientes env w).1 = Valor (Some []))
  ∧ Valor (@None (list str)) ≠ Valor (Some [])
  ∧ (cuda_is_available env = true →
     (crear_carpetas_necesarias env w).1 = Valor tt →
     (isdir (disco w) (CARPETA_AUDIOS env) = false →
      (main env w).1 = Valor tt
      ∧ last (traza (main env w).2) = Some (Imprime (linea_sin_carpeta env)))
     ∧ (isdir (disco w) (CARPETA_AUDIOS env) = true →
        (∀ n, n ∈ listdir (disco w) (CARPETA_AUDIOS env) →
              Py.endswith n (Py.lit ".opus") = true →
              exists_ (disco w) (salida_de_encontrar env n) = true) →
        (main env w).1 = Valor tt
        ∧ last (traza (main env w).2) = Some (Imprime linea_nada_pendiente)))
  ∧ linea_sin_carpeta env ≠ linea_nada_pendiente.
Proof.
  split_and!; [| | |done|apply main_tras_descubrir|done];
    rewrite encontrar_archivos_pendientes_run;
    destruct (isdir (disco w) (CARPETA_AUDIOS env)) eqn:Hd; cbn [fst];
    try done.
  - eauto.
  - intros _ H. f_equal. f_equal. by apply pendientes_nil.
Qed.

End Principal.

(** ** The output path *)

Section Salida.
Import os_path os os_io Transcriber.
Context (env : Entorno).

(** Discovery leaves out a name whose output path exists. *)
Lemma pendientes_omite (fs : filesystem) (n : str) :
  sep ∉ n →
  exists_ fs (salida_de_encontrar env n) = true →
  join (CARPETA_AUDIOS env) n ∉ pendientes env fs.
Proof.
  intros Hn Hex. rewrite elem_of_pendientes.
  intros (n' & Hn' & _ & Hx & Heq).
  apply elem_of_listdir in Hn' as (_ & Hs & _).
  apply join_AUDIOS_inj in Heq; [|done..]. subst n'. congruence.
Qed.

(** Discovery lists an entry that ends in ".opus" exactly when no node
    exists at the path line 74 builds for it. *)
Lemma encontrar_archivos_pendientes_prueba (w : Mundo) (l : list str)
    (n : str) :
  (encontrar_archivos_pendientes env w).1 = Valor (Some l) →
  n ∈ listdir (disco w) (CARPETA_AUDIOS env) →
  Py.endswith n (Py.lit ".opus") = true →
  join (CARPETA_AUDIOS env) n ∈ l
  ↔ exists_ (disco w) (salida_de_encontrar env n) = false.
Proof.
  rewrite encontrar_archivos_pendientes_run.
  destruct (isdir _ _); cbn [fst]; [|done]. intros [= <-] Hn He.
  rewrite elem_of_pendientes. split.
  - intros (n' & Hn' & _ & Hx & Heq).
    apply elem_of_listdir in Hn as (_ & Hs & _).
    apply elem_of_listdir in Hn' as (_ & Hs' & _).
    apply join_AUDIOS_inj in Heq; [|done..]. by subst n'.
  - intros Hx. by exists n.
Qed.

Lemma encontrar_archivos_pendientes_omite (w : Mundo) (l : list str)
    (n : str) :
  sep ∉ n →
  exists_ (disco w) (salida_de_encontrar env n) = true →
  (encontrar_archivos_pendientes env w).1 = Valor (Some l) →
  join (CARPETA_AUDIOS env) n ∉ l.
Proof.
  intros Hn Hx. rewrite encontrar_archivos_pendientes_run.
  destruct (isdir _ _); cbn [fst]; [|done]. intros [= <-].
  by apply pendientes_omite.
Qed.

(** C5. For a file name of the input folder (a name without separator),
    the path whose existence discovery tests and the path the worker
    writes for the discovered item are the same path, the one the
    specification derives: the output folder joined with the base name,
    its extension replaced by ".txt". Discovery lists the item exactly when
    nothing exists at that path; a worker that reports success has left a
    file there, and discovery leaves the item out from then on, for as long
    as something exists at that path. *)
Theorem salida_unica (n : str) :
  sep ∉ n →
  salida_de_encontrar env n
  = salida_de_procesar env (join (CARPETA_AUDIOS env) n)
  ∧ salida_de_procesar env (join (CARPETA_AUDIOS env) n)
    = salida_derivada env (join (CARPETA_AUDIOS env) n)
  ∧ (∀ w l,
       (encontrar_archivos_pendientes env w).1 = Valor (Some l) →
       n ∈ listdir (disco w) (CARPETA_AUDIOS env) →
       Py.endswith n (Py.lit ".opus") = true →
       join (CARPETA_AUDIOS env) n ∈ l
       ↔ exists_ (disco w) (salida_de_encontrar env n) = false)
  ∧ (∀ mg w w' o,
       procesar_archivo env mg (join (CARPETA_AUDIOS env) n) w = (Valor o, w') →
       r1 o = EXITO →
       (∃ t, disco w' !! salida_de_encontrar env n = Some (Archivo t))
       ∧ ∀ l, (encontrar_archivos_pendientes env w').1 = Valor (Some l) →
              join (CARPETA_AUDIOS env) n ∉ l)
  ∧ (∀ w l,
       exists_ (disco w) (salida_de_encontrar env n) = true →
       (encontrar_archivos_pendientes env w).1 = Valor (Some l) →
       join (CARPETA_AUDIOS env) n ∉ l).
Proof.
  intros Hn.
  assert (salida_de_encontrar env n
          = salida_de_procesar env (join (CARPETA_AUDIOS env) n)) as Heq.
  { unfold salida_de_encontrar, salida_de_procesar.
    by rewrite basename_join_AUDIOS. }
  split_and!; [done|done| | |].
  - intros w l. apply encontrar_archivos_pendientes_prueba.
  - intros mg w w' o Hp Hex.
    destruct (procesar_archivo_exito_escribe env mg _ w w' o Hp Hex) as [t Ht].
    rewrite <-Heq in Ht. split; [by exists t|].
    intros l. apply encontrar_archivos_pendientes_omite; [done|].
    apply exists_true. by rewrite Ht.
  - intros w l. by apply encontrar_archivos_pendientes_omite.
Qed.

End Salida.

(** ** Extensions *)

Section Extension.
Import Py os_path.

Lemma slice_uno (p : str) (i : nat) (c : N) :
  p !! i = Some c → slice p (Z.of_nat i) (Z.of_nat i + 1) = [c].
Proof.
  intros Hi. replace (Z.of_nat i + 1) with (Z.of_nat (S i)) by lia.
  pose proof (lookup_lt_Some _ _ _ Hi) as Hlt.
  rewrite slice_nat by lia.
  rewrite (drop_S _ _ _ Hi). replace (S i - i)%nat with 1%nat by lia.
  reflexivity.
Qed.

(** The loop returns at the first character that is not a dot. *)
Lemma _splitext_loop_Some (n : nat) (p : str) (i : nat) (dotIndex : Z)
    (j : nat) (c : N) :
  (i ≤ j < i + n)%nat → p !! j = Some c → c ≠ extsep →
  (i + n ≤ length p)%nat →
  _splitext_loop n p (Z.of_nat i) dotIndex
  = Some (slice_to p dotIndex, slice_from p dotIndex).
Proof.
  revert i. induction n as [|n IH]; intros i Hj Hc Hne Hlen; [lia|].
  cbn [_splitext_loop].
  destruct (p !! i) as [x|] eqn:Hx.
  2:{ apply lookup_ge_None in Hx. lia. }
  rewrite (slice_uno _ _ _ Hx).
  case_bool_decide as Hdot; [done|].
  assert (x = extsep) as -> by (destruct (decide (x = extsep)); congruence).
  assert (i ≠ j) by (intros ->; congruence).
  replace (Z.of_nat i + 1) with (Z.of_nat (S i)) by lia.
  apply IH; [lia|done|done|lia].
Qed.

(** Where every character before the last dot is a dot, the loop ends
    without returning. *)
Lemma _splitext_loop_None (n : nat) (p : str) (i : nat) (dotIndex : Z) :
  (∀ j, (i ≤ j < i + n)%nat → p !! j = Some extsep) →
  _splitext_loop n p (Z.of_nat i) dotIndex = None.
Proof.
  revert i. induction n as [|n IH]; intros i Hdots; [done|].
  cbn [_splitext_loop].
  rewrite (slice_uno _ _ extsep) by (apply Hdots; lia).
  rewrite bool_decide_eq_false_2 by (intros H; by apply H).
  replace (Z.of_nat i + 1) with (Z.of_nat (S i)) by lia.
  apply IH. intros j Hj. apply Hdots. lia.
Qed.

Lemma opus_sin_punto : extsep ∉ lit "opus".
Proof. apply (bool_decide_unpack (extsep ∉ lit "opus")). exact I. Qed.

Lemma opus_sin_sep : sep ∉ lit "opus".
Proof. apply (bool_decide_unpack (sep ∉ lit "opus")). exact I. Qed.

(** [splitext] strips ".opus" from a name that has a character other than
    a dot before it. *)
Lemma splitext_opus (s : str) (j : nat) (c : N) :
  sep ∉ s → s !! j = Some c → c ≠ extsep →
  (splitext (s ++ lit ".opus")).1 = s.
Proof.
  intros Hs Hj Hc. unfold splitext.
  change (lit ".opus") with (extsep :: lit "opus").
  rewrite rfind_last by apply opus_sin_punto.
  rewrite rfind_notin.
  2:{ rewrite not_elem_of_app, not_elem_of_cons.
      split; [done|]. split; [done|]. apply opus_sin_sep. }
  pose proof (lookup_lt_Some _ _ _ Hj) as Hlt.
  destruct (Z.ltb_spec (-1) (Z.of_nat (length s))) as [_|?]; [|lia].
  change (-1 + 1) with (Z.of_nat 0).
  rewrite (_splitext_loop_Some _ _ 0 _ j c).
  - cbn [fst]. rewrite slice_to_nat. by rewrite take_app_length.
  - lia.
  - by rewrite lookup_app_l.
  - done.
  - rewrite length_app. lia.
Qed.

(** [splitext] leaves alone a name made of dots and "opus". *)
Lemma splitext_puntos_opus (k : nat) :
  (splitext (replicate k extsep ++ lit ".opus")).1
  = replicate k extsep ++ lit ".opus".
Proof.
  unfold splitext.
  change (lit ".opus") with (extsep :: lit "opus").
  rewrite rfind_last by apply opus_sin_punto.
  rewrite rfind_notin.
  2:{ rewrite not_elem_of_app, not_elem_of_cons.
      split; [|split; [done|apply opus_sin_sep]].
      intros [? _]%elem_of_replicate. done. }
  rewrite length_replicate.
  destruct (Z.ltb_spec (-1) (Z.of_nat k)) as [_|?]; [|lia].
  change (-1 + 1) with (Z.of_nat 0).
  rewrite _splitext_loop_None; [done|].
  intros j Hj. rewrite lookup_app_l by (rewrite length_replicate; lia).
  apply lookup_replicate_2. lia.
Qed.

End Extension.

Section Colision.
Import Py os_path os os_io Transcriber.
Context (env : Entorno).

Lemma salida_de_encontrar_opus (s : str) :
  sep ∉ s → (∃ c, c ∈ s ∧ c ≠ extsep) →
  salida_de_encontrar env (s ++ lit ".opus")
  = CARPETA_TRANSCRIPCIONES env ++ [sep] ++ s ++ lit ".txt".
Proof.
  intros Hs (c & [j Hj]%list_elem_of_lookup & Hc).
  unfold salida_de_encontrar. rewrite (splitext_opus s j c) by done.
  apply join_TRANSCRIPCIONES. rewrite not_elem_of_app. split; [done|].
  apply (bool_decide_unpack (sep ∉ lit ".txt")). exact I.
Qed.

(** X1. Among names with a character other than a dot before ".opus",
    different names have different output paths. *)
Lemma salida_inyectiva_con_nombre (s1 s2 : str) :
  sep ∉ s1 → sep ∉ s2 →
  (∃ c, c ∈ s1 ∧ c ≠ extsep) → (∃ c, c ∈ s2 ∧ c ≠ extsep) →
  salida_de_encontrar env (s1 ++ lit ".opus")
  = salida_de_encontrar env (s2 ++ lit ".opus") →
  s1 = s2.
Proof.
  intros H1 H2 Hc1 Hc2. rewrite !salida_de_encontrar_opus by done.
  intros H. by simplify_list_eq.
Qed.

(** X2. A name made of dots and "opus" and the same name with ".opus"
    added have the same output path, for any number of dots. *)
Lemma salida_choca_en_puntos (k : nat) :
  salida_de_encontrar env (replicate k extsep ++ lit ".opus")
  = salida_de_encontrar env ((replicate k extsep ++ lit ".opus") ++ lit ".opus").
Proof.
  unfold salida_de_encontrar. rewrite splitext_puntos_opus.
  rewrite (splitext_opus _ (k + 1) 111%N); [done| |by rewrite lookup_app_r, length_replicate, ?Nat.add_sub' by (rewrite length_replicate; lia); replace (k + 1 - k)%nat with 1%nat by lia|done].
  rewrite not_elem_of_app. split.
  - intros [? _]%elem_of_replicate. done.
  - apply (bool_decide_unpack (sep ∉ lit ".opus")). exact I.
Qed.

End Colision.

(** C8, evaluated. With ".opus" and ".opus.opus" in the input folder and no
    transcript yet, one discovery returns both, two different items, and
    the worker writes both to "transcripciones/.opus.txt". *)
Theorem salidas_chocan_en_ocultos :
  ∃ a b,
    (Transcriber.encontrar_archivos_pendientes (Ejemplo.env Ejemplo.boom)
       Ejemplo.mundo_ocultos).1 = Valor (Some [a; b])
    ∧ a ≠ b
    ∧ Transcriber.salida_de_procesar (Ejemplo.env Ejemplo.boom) a
      = Py.lit "/home/u/wa/transcripciones/.opus.txt"
    ∧ Transcriber.salida_de_procesar (Ejemplo.env Ejemplo.boom) b
      = Py.lit "/home/u/wa/transcripciones/.opus.txt".
Proof.
  exists (Py.lit "/home/u/wa/audios/.opus"),
         (Py.lit "/home/u/wa/audios/.opus.opus").
  split_and!; [by vm_compute|done|by vm_compute|by vm_compute].
Qed.

(** On that input a whole run dispatches both items, reports two
    successes and leaves one transcript; the next discovery finds nothing
    pending, though one of the two files has no transcript of its own. *)
Lemma main_en_ocultos :
  os.listdir
    (disco (Transcriber.main (Ejemplo.env Ejemplo.boom) Ejemplo.mundo_ocultos).2)
    (Py.lit "/home/u/wa/transcripciones")
  = [Py.lit ".opus.txt"]
  ∧ despachos
      (traza (Transcriber.main (Ejemplo.env Ejemplo.boom)
                Ejemplo.mundo_ocultos).2)
    = [Py.lit "/home/u/wa/audios/.opus.opus"; Py.lit "/home/u/wa/audios/.opus"]
  ∧ Imprime (9989%N :: Py.lit " Transcritos con " ++ [233%N]
             ++ Py.lit "xito: 2")
    ∈ traza (Transcriber.main (Ejemplo.env Ejemplo.boom)
               Ejemplo.mundo_ocultos).2
  ∧ (Transcriber.encontrar_archivos_pendientes (Ejemplo.env Ejemplo.boom)
       (Transcriber.main (Ejemplo.env Ejemplo.boom) Ejemplo.mundo_ocultos).2).1
    = Valor (Some []).
Proof.
  split_and!; [by vm_compute|by vm_compute| |by vm_compute].
  apply (bool_decide_unpack (_ ∈ _)). by vm_compute.
Qed.

(** ** The theorems on the concrete run *)

Section Testigos.
Import Py os_path os os_io Transcriber.

Lemma encontrar_archivos_pendientes_exacto_testigo :
  isdir (disco Ejemplo.mundo_inicial) (CARPETA_AUDIOS (Ejemplo.env Ejemplo.boom))
  = true
  ∧ ∃ l,
      (encontrar_archivos_pendientes (Ejemplo.env Ejemplo.boom)
         Ejemplo.mundo_inicial).1 = Valor (Some l)
      ∧ StronglySorted Py.lt (basename <$> l).
Proof.
  assert (isdir (disco Ejemplo.mundo_inicial)
            (CARPETA_AUDIOS (Ejemplo.env Ejemplo.boom)) = true) as Hd
    by (vm_compute; reflexivity).
  split; [exact Hd|].
  destruct (proj2 (encontrar_archivos_pendientes_exacto
                     (Ejemplo.env Ejemplo.boom) Ejemplo.mundo_inicial)
              Hd) as (l & Hl & _ & Hs & _).
  exists l. split; [exact Hl|exact Hs].
Defined.

Lemma encontrar_archivos_pendientes_None_testigo :
  isdir (disco Ejemplo.mundo_sin_audios)
    (CARPETA_AUDIOS (Ejemplo.env Ejemplo.boom)) = false
  ∧ (encontrar_archivos_pendientes (Ejemplo.env Ejemplo.boom)
       Ejemplo.mundo_sin_audios).1 = Valor None.
Proof.
  assert (isdir (disco Ejemplo.mundo_sin_audios)
            (CARPETA_AUDIOS (Ejemplo.env Ejemplo.boom)) = false) as Hd
    by (vm_compute; reflexivity).
  split; [exact Hd|].
  exact (proj2 (proj1 (encontrar_archivos_pendientes_None
                         (Ejemplo.env Ejemplo.boom)
                         Ejemplo.mundo_sin_audios)) Hd).
Defined.

Lemma salida_unica_testigo :
  (sep ∉ lit "a.opus")
  ∧ salida_de_encontrar (Ejemplo.env Ejemplo.boom) (lit "a.opus")
    = salida_de_procesar (Ejemplo.env Ejemplo.boom)
        (join (CARPETA_AUDIOS (Ejemplo.env Ejemplo.boom)) (lit "a.opus")).
Proof.
  assert (sep ∉ lit "a.opus") as Hn.
  { apply (bool_decide_unpack (sep ∉ lit "a.opus")). vm_compute. exact I. }
  split; [exact Hn|].
  exact (proj1 (salida_unica (Ejemplo.env Ejemplo.boom) (lit "a.opus") Hn)).
Defined.

Lemma main_sin_pendientes_testigo :
  isdir (disco Ejemplo.mundo_hecho) (CARPETA_AUDIOS (Ejemplo.env Ejemplo.boom))
  = true
  ∧ (encontrar_archivos_pendientes (Ejemplo.env Ejemplo.boom)
       Ejemplo.mundo_hecho).1 = Valor (Some []).
Proof.
  assert (isdir (disco Ejemplo.mundo_hecho)
            (CARPETA_AUDIOS (Ejemplo.env Ejemplo.boom)) = true) as Hd
    by (vm_compute; reflexivity).
  split; [exact Hd|].
  assert (∀ n, n ∈ listdir (disco Ejemplo.mundo_hecho)
                     (CARPETA_AUDIOS (Ejemplo.env Ejemplo.boom)) →
               endswith n (lit ".opus") = true →
               exists_ (disco Ejemplo.mundo_hecho)
                 (salida_de_encontrar (Ejemplo.env Ejemplo.boom) n) = true)
    as Hhechos.
  { intros n Hn He.
    assert (listdir (disco Ejemplo.mundo_hecho)
              (CARPETA_AUDIOS (Ejemplo.env Ejemplo.boom))
            = [lit "nota.txt"; lit "b.opus"]) as Hl
      by (vm_compute; reflexivity).
    rewrite Hl in Hn.
    apply elem_of_cons in Hn as [->|Hn]; [vm_compute in He; discriminate He|].
    apply elem_of_cons in Hn as [->|Hn]; [vm_compute; reflexivity|].
    apply elem_of_nil in Hn. destruct Hn. }
  exact (proj1 (main_sin_pendientes (Ejemplo.env Ejemplo.boom)
                  Ejemplo.mundo_hecho Hd Hhechos)).
Defined.

(** On that run the output folder, missing before, is a directory after:
    the run made a directory and no file. *)
Lemma main_sin_carpeta_crea_la_de_salida :
  isdir (disco Ejemplo.mundo_sin_audios)
    (CARPETA_TRANSCRIPCIONES (Ejemplo.env Ejemplo.boom)) = false
  ∧ isdir (disco (main (Ejemplo.env Ejemplo.boom) Ejemplo.mundo_sin_audios).2)
      (CARPETA_TRANSCRIPCIONES (Ejemplo.env Ejemplo.boom)) = true
  ∧ (main (Ejemplo.env Ejemplo.boom) Ejemplo.mundo_sin_audios).1 = Valor tt.
Proof. split_and!; vm_compute; reflexivity. Qed.

Lemma main_sin_carpeta_de_audios_testigo :
  isdir (disco Ejemplo.mundo_sin_audios)
    (CARPETA_AUDIOS (Ejemplo.env Ejemplo.boom)) = false
  ∧ archivos (disco (main (Ejemplo.env Ejemplo.boom)
                       Ejemplo.mundo_sin_audios).2)
    = archivos (disco Ejemplo.mundo_sin_audios).
Proof.
  assert (isdir (disco Ejemplo.mundo_sin_audios)
            (CARPETA_AUDIOS (Ejemplo.env Ejemplo.boom)) = false) as Hd
    by (vm_compute; reflexivity).
  split; [exact Hd|].
  exact (proj1 (main_sin_carpeta_de_audios (Ejemplo.env Ejemplo.boom)
                  Ejemplo.mundo_sin_audios Hd)).
Defined.

End Testigos.

(** ** A second run *)

Section SegundaPasada.
Import Py os_path os os_io Transcriber.
Context (env : Entorno).

Lemma salida_de_procesar_forma (ruta : str) :
  ∃ x, (sep ∉ x)
       ∧ salida_de_procesar env ruta
         = CARPETA_TRANSCRIPCIONES env ++ [sep] ++ x.
Proof.
  exists ((splitext (basename ruta)).1 ++ lit ".txt").
  assert (sep ∉ (splitext (basename ruta)).1 ++ lit ".txt") as Hx.
  { rewrite not_elem_of_app. split.
    - intros H%splitext_raiz_subseteq. by apply basename_sin_separador in H.
    - apply (bool_decide_unpack (sep ∉ lit ".txt")). exact I. }
  split; [done|]. by apply join_TRANSCRIPCIONES.
Qed.

(** No output path lies in the input folder. *)
Lemma salida_no_en_AUDIOS (ruta n : str) :
  salida_de_procesar env ruta ≠ CARPETA_AUDIOS env ++ [sep] ++ n.
Proof.
  destruct (salida_de_procesar_forma ruta) as (x & _ & ->).
  unfold CARPETA_AUDIOS, CARPETA_TRANSCRIPCIONES.
  rewrite !join_relativo by reflexivity. rewrite <-!app_assoc.
  intros H%app_inv_head. discriminate H.
Qed.

Lemma Forall2_exito (l : list str) (rs : list Outcome) (fs : filesystem) :
  Forall2 (λ ruta o, r1 o = EXITO →
                     is_Some (fs !! salida_de_procesar env ruta)) l rs →
  Forall (λ o, r1 o = EXITO) rs →
  ∀ ruta, ruta ∈ l → is_Some (fs !! salida_de_procesar env ruta).
Proof.
  induction 1 as [|ruta o l rs Ho _ IH]; intros Hrs r Hr.
  - by apply elem_of_nil in Hr.
  - apply Forall_cons in Hrs as [Hok Hrs].
    apply elem_of_cons in Hr as [->|Hr]; [by apply Ho|by apply IH].
Qed.

(** X3. After a pool run over the pending items in which every Outcome is
    a success, discovery finds nothing pending: the second run of the
    script has no work. *)
Theorem segunda_pasada_sin_pendientes (w w' : Mundo) (rs : list Outcome) :
  orden_de_llegada env (pendientes env (disco w))
  ≡ₚ pendientes env (disco w) →
  ejecutar_pool env (pendientes env (disco w)) w = (Valor rs, w') →
  Forall (λ o, r1 o = EXITO) rs →
  isdir (disco w) (CARPETA_AUDIOS env) = true →
  (encontrar_archivos_pendientes env w').1 = Valor (Some []).
Proof.
  intros Hperm Hrun Hok Hdir.
  destruct (ejecutar_pool_mundo env (pendientes env (disco w)) w)
    as (Hisdir & Hmono & Hotros).
  destruct (ejecutar_pool_llegan env (pendientes env (disco w)) w Hperm)
    as (rs' & w2 & evs & Hrun' & _ & Hex & _).
  rewrite Hrun in Hrun', Hisdir, Hmono, Hotros.
  injection Hrun' as <- <-. cbn [snd] in *.
  rewrite encontrar_archivos_pendientes_run, Hisdir.
  rewrite Hdir. cbn [fst]. f_equal. f_equal.
  apply pendientes_nil. intros n Hn He.
  apply elem_of_listdir in Hn as (Hne & Hs & Hq).
  rewrite Hotros in Hq
    by (intros r _ Heq; by apply (salida_no_en_AUDIOS r n)).
  assert (n ∈ listdir (disco w) (CARPETA_AUDIOS env)) as Hn
    by (by apply elem_of_listdir).
  apply exists_true.
  destruct (exists_ (disco w) (salida_de_encontrar env n)) eqn:Hx.
  - apply Hmono. by apply exists_true.
  - assert (salida_de_encontrar env n
            = salida_de_procesar env (join (CARPETA_AUDIOS env) n)) as ->.
    { unfold salida_de_encontrar, salida_de_procesar.
      by rewrite basename_join_AUDIOS. }
    apply (Forall2_exito _ _ _ Hex Hok). rewrite Hperm.
    apply elem_of_pendientes. by exists n.
Qed.

End SegundaPasada.


(** * More of the script *)

(** ** The output folder, again *)

Section CarpetaDeSalida.
Import os_path os os_io Transcriber.
Context (env : Entorno).

Lemma mkdir_lista_crea (fs : filesystem) (l : list str) (q : str) :
  q ∈ l →
  is_Some (foldr (λ d fs', if exists_ fs' d then fs'
                           else <[d := Directorio]> fs') fs l !! q).
Proof.
  induction l as [|d l IH]; cbn [foldr]; [by intros ?%elem_of_nil|].
  set (fs' := foldr _ fs l) in *.
  intros [->|Hq]%elem_of_cons.
  - destruct (exists_ fs' d) eqn:Hd.
    + by apply exists_true.
    + rewrite lookup_insert_eq. by eexists.
  - destruct (exists_ fs' d) eqn:Hd; [by apply IH|].
    rewrite lookup_insert_is_Some. destruct (decide (d = q)); auto.
Qed.

(** X4. When [crear_carpetas_necesarias] returns, something exists at the
    output folder's path, and calling it again does nothing: it returns
    and leaves the world, trace included, as it is. *)
Theorem crear_carpetas_necesarias_idempotente (w : Mundo) :
  (crear_carpetas_necesarias env w).1 = Valor tt →
  exists_ (disco (crear_carpetas_necesarias env w).2)
    (CARPETA_TRANSCRIPCIONES env) = true
  ∧ crear_carpetas_necesarias env (crear_carpetas_necesarias env w).2
    = (Valor tt, (crear_carpetas_necesarias env w).2).
Proof.
  assert (∀ w1, exists_ (disco w1) (CARPETA_TRANSCRIPCIONES env) = true →
                crear_carpetas_necesarias env w1 = (Valor tt, w1)) as Hnada.
  { intros w1 H1. unfold crear_carpetas_necesarias. mred. rewrite H1.
    by destruct w1. }
  destruct (exists_ (disco w) (CARPETA_TRANSCRIPCIONES env)) eqn:Hex.
  { rewrite (Hnada w Hex). cbn [fst snd]. intros _. split; [done|].
    by apply Hnada. }
  intros Hret.
  assert (exists_ (disco (crear_carpetas_necesarias env w).2)
            (CARPETA_TRANSCRIPCIONES env) = true) as Hdespues.
  { revert Hret. unfold crear_carpetas_necesarias, os_makedirs. mred.
    rewrite Hex. mred. rewrite Hex.
    destruct (existsb _ _); mred; [done|].
    destruct (falla_mkdir env _); mred; [done|]. intros _.
    apply exists_true, mkdir_lista_crea.
    apply elem_of_app. right. apply list_elem_of_here. }
  split; [done|]. by apply Hnada.
Qed.

(** X5. [crear_carpetas_necesarias] keeps every node of the file system,
    so every regular file with its text; what it adds are directories
    whose paths are prefixes of the output folder's path; and it prints at
    most the one line that announces the folder. *)
Theorem crear_carpetas_necesarias_solo_directorios (w : Mundo) :
  (∀ q v, disco w !! q = Some v →
          disco (crear_carpetas_necesarias env w).2 !! q = Some v)
  ∧ (∀ q, disco w !! q = None →
          disco (crear_carpetas_necesarias env w).2 !! q = None
          ∨ disco (crear_carpetas_necesarias env w).2 !! q = Some Directorio
            ∧ q `prefix_of` CARPETA_TRANSCRIPCIONES env)
  ∧ archivos (disco (crear_carpetas_necesarias env w).2) = archivos (disco w)
  ∧ (traza (crear_carpetas_necesarias env w).2 = traza w
     ∨ traza (crear_carpetas_necesarias env w).2
       = traza w
         ++ [Imprime (128193%N :: Py.lit " Creando carpeta de salida: "
                      ++ CARPETA_TRANSCRIPCIONES env)]).
Proof.
  destruct (crear_carpetas_necesarias_efecto env w) as (H1 & H2 & _).
  split_and!.
  - exact H1.
  - intros q Hq.
    destruct (disco (crear_carpetas_necesarias env w).2 !! q) as [v|] eqn:Hv;
      [|by left].
    apply H2 in Hv as [?|[-> ?]]; [congruence|by right].
  - apply crear_carpetas_necesarias_archivos.
  - unfold crear_carpetas_necesarias, os_makedirs. mred.
    destruct (exists_ (disco w) (CARPETA_TRANSCRIPCIONES env)) eqn:Hex; mred;
      [by left|].
    rewrite Hex. destruct (existsb _ _); mred; [by right|].
    destruct (falla_mkdir env _); mred; by right.
Qed.

End CarpetaDeSalida.

Lemma crear_carpetas_necesarias_idempotente_testigo :
  (Transcriber.crear_carpetas_necesarias (Ejemplo.env Ejemplo.boom)
     Ejemplo.mundo_sin_audios).1 = Valor tt
  ∧ os.exists_
      (disco (Transcriber.crear_carpetas_necesarias (Ejemplo.env Ejemplo.boom)
                Ejemplo.mundo_sin_audios).2)
      (Transcriber.CARPETA_TRANSCRIPCIONES (Ejemplo.env Ejemplo.boom)) = true.
Proof.
  assert ((Transcriber.crear_carpetas_necesarias (Ejemplo.env Ejemplo.boom)
             Ejemplo.mundo_sin_audios).1 = Valor tt) as H
    by (vm_compute; reflexivity).
  split; [exact H|].
  exact (proj1 (crear_carpetas_necesarias_idempotente
                  (Ejemplo.env Ejemplo.boom) Ejemplo.mundo_sin_audios H)).
Defined.


(** ** The trace of the pool *)

Section TrazaDelPool.
Import os_path os os_io Transcriber.
Context (env : Entorno).

(** What the main process sees of a pool run, however it ends: one pool,
    one bar, one update per result that arrives, every successful load
    a load of the 'medium' model, and at most one load per worker that
    was started, the two of the pool and one for each worker that died
    with its item. *)
Lemma ejecutar_pool_traza (items : list str) (w : Mundo) :
  ∃ evs,
    traza (ejecutar_pool env items w).2 = traza w ++ evs
    ∧ pools_creados evs = [NUMERO_DE_TRABAJADORES_GPU]
    ∧ barras evs = [length items]
    ∧ progresos evs = replicate (length (orden_de_llegada env items)) 1%nat
    ∧ (falla_load_model env MODELO_WHISPER = None →
       despachos evs = planificacion env items)
    ∧ Forall (λ c, c = MODELO_WHISPER) (cargas evs)
    ∧ (length (cargas evs) + length (orden_de_llegada env items)
       ≤ NUMERO_DE_TRABAJADORES_GPU + length items)%nat.
Proof.
  destruct (decide (items = [])) as [Hnil|Hne];
    [|destruct (falla_load_model env MODELO_WHISPER) as [e|] eqn:Hload].
  - destruct (ejecutar_pool_general env items w)
      as (rs & w' & evs & -> & Hrs & _ & Htr & Hdes & Hpool & Hbar & Hprog
          & _ & Hcar & Hlen & _); [done|].
    exists evs. apply Forall2_length in Hrs.
    split_and!; try done. by rewrite Hrs.
  - destruct (ejecutar_pool_sin_trabajadores env items w e Hload Hne)
      as (evs & -> & Hdes & Hprog & Hcar & _ & Hpool & Hbar).
    exists evs. unfold orden_de_llegada. rewrite Hload, Hcar.
    cbn [snd registrar traza length replicate].
    split_and!; try done. lia.
  - destruct (ejecutar_pool_general env items w (λ _, Hload))
      as (rs & w' & evs & -> & Hrs & _ & Htr & Hdes & Hpool & Hbar & Hprog
          & _ & Hcar & Hlen & _).
    exists evs. apply Forall2_length in Hrs.
    split_and!; try done. by rewrite Hrs.
Qed.

(** X6. A pool run creates one pool of two workers and opens one progress
    bar whose total is the number of items. Every model a worker loads is
    the 'medium' model, and the loads are no more than the workers that
    were started: the two of the pool and one more for each item that does
    not arrive, its worker having died with it. When every item arrives
    the model is loaded at most twice, once in each worker, however many
    items there are, and at least once when there is an item: a worker
    that never receives an item may not have loaded the model by the time
    the pool is closed. *)
Theorem ejecutar_pool_carga_por_trabajador (items : list str) (w : Mundo) :
  ∃ evs,
    traza (ejecutar_pool env items w).2 = traza w ++ evs
    ∧ pools_creados evs = [NUMERO_DE_TRABAJADORES_GPU]
    ∧ barras evs = [length items]
    ∧ Forall (λ c, c = MODELO_WHISPER) (cargas evs)
    ∧ (length (cargas evs) + length (orden_de_llegada env items)
       ≤ NUMERO_DE_TRABAJADORES_GPU + length items)%nat
    ∧ (orden_de_llegada env items ≡ₚ items →
       (length (cargas evs) ≤ NUMERO_DE_TRABAJADORES_GPU)%nat
       ∧ (items ≠ [] → (1 ≤ length (cargas evs))%nat)).
Proof.
  destruct (ejecutar_pool_traza items w)
    as (evs & Htr & Hpool & Hbar & _ & _ & Hcar & Hlen).
  exists evs. split_and!; try done.
  intros Hperm.
  destruct (ejecutar_pool_llegan env items w Hperm)
    as (rs & w' & evs' & Hrun & _ & _ & Htr' & _ & _ & _ & _ & _ & _
        & Hmax & Hmin).
  rewrite Hrun in Htr. cbn [snd] in Htr. rewrite Htr' in Htr.
  apply app_inv_head in Htr. by subst evs'.
Qed.

(** X7. When every item comes back once, the progress bar is filled: the
    run makes as many updates of one unit as the total the bar was opened
    with, one after each item is dispatched. *)
Theorem ejecutar_pool_barra_completa (items : list str) (w : Mundo) :
  orden_de_llegada env items ≡ₚ items →
  ∃ evs,
    traza (ejecutar_pool env items w).2 = traza w ++ evs
    ∧ barras evs = [length items]
    ∧ progresos evs = replicate (length items) 1%nat
    ∧ despachos evs ≡ₚ items.
Proof.
  intros Hperm.
  destruct (ejecutar_pool_llegan env items w Hperm)
    as (rs & w' & evs & -> & _ & _ & Htr & Hdes & _ & Hbar & Hprog & _).
  exists evs. split_and!; try done. by rewrite Hdes.
Qed.

End TrazaDelPool.

Lemma ejecutar_pool_carga_por_trabajador_testigo :
  orden_de_llegada (Ejemplo.env Ejemplo.boom) Ejemplo.dos_rutas
  ≡ₚ Ejemplo.dos_rutas
  ∧ ∃ evs,
      traza (Transcriber.ejecutar_pool (Ejemplo.env Ejemplo.boom)
               Ejemplo.dos_rutas Ejemplo.mundo_inicial).2
      = traza Ejemplo.mundo_inicial ++ evs
      ∧ (1 ≤ length (cargas evs) ≤ 2)%nat.
Proof.
  assert (orden_de_llegada (Ejemplo.env Ejemplo.boom) Ejemplo.dos_rutas
          ≡ₚ Ejemplo.dos_rutas) as Hp.
  { change (reverse Ejemplo.dos_rutas ≡ₚ Ejemplo.dos_rutas).
    apply reverse_Permutation. }
  split; [exact Hp|].
  destruct (ejecutar_pool_carga_por_trabajador (Ejemplo.env Ejemplo.boom)
              Ejemplo.dos_rutas Ejemplo.mundo_inicial)
    as (evs & Htr & _ & _ & _ & _ & Hcar).
  exists evs. split; [exact Htr|].
  destruct (Hcar Hp) as [Hmax Hmin].
  split; [apply Hmin; discriminate|exact Hmax].
Defined.

Lemma ejecutar_pool_barra_completa_testigo :
  orden_de_llegada (Ejemplo.env Ejemplo.boom) Ejemplo.dos_rutas
  ≡ₚ Ejemplo.dos_rutas
  ∧ ∃ evs,
      traza (Transcriber.ejecutar_pool (Ejemplo.env Ejemplo.boom)
               Ejemplo.dos_rutas Ejemplo.mundo_inicial).2
      = traza Ejemplo.mundo_inicial ++ evs
      ∧ progresos evs = [1; 1]%nat.
Proof.
  assert (orden_de_llegada (Ejemplo.env Ejemplo.boom) Ejemplo.dos_rutas
          ≡ₚ Ejemplo.dos_rutas) as Hp.
  { change (reverse Ejemplo.dos_rutas ≡ₚ Ejemplo.dos_rutas).
    apply reverse_Permutation. }
  split; [exact Hp|].
  destruct (ejecutar_pool_barra_completa (Ejemplo.env Ejemplo.boom)
              Ejemplo.dos_rutas Ejemplo.mundo_inicial Hp)
    as (evs & Htr & _ & Hpr & _).
  exists evs. split; [exact Htr|exact Hpr].
Defined.


(** ** The report and the whole run *)

Section Corrida.
Import os_path os os_io Transcriber.
Context (env : Entorno).

Lemma reporte_final_exacto (resultados : list Outcome) (w : Mundo) :
  reporte_final resultados w
  = (Valor tt,
     registrar w
       (Imprime
        <$> cabecera_reporte
              (length (filter (λ r, r1 r = EXITO) resultados))
              (length (filter (λ r, r1 r = FALLO) resultados))
            ++ (if bool_decide (filter (λ r, r1 r = FALLO) resultados ≠ [])
                then titulo_fallos
                     :: (linea_fallo
                         <$> filter (λ r, r1 r = FALLO) resultados)
                else [])
            ++ [pie_reporte])).
Proof.
  unfold reporte_final, registrar, cabecera_reporte, titulo_fallos,
    pie_reporte.
  repeat (rewrite run_bind, run_print; cbn [disco traza]).
  case_bool_decide as Hf.
  - rewrite run_bind, run_bind, run_print, (for_each_print linea_fallo),
      run_print.
    cbn [disco traza]. rewrite !fmap_app. cbn [fmap list_fmap app].
    change (list_fmap _ _ Imprime (list_fmap _ _ linea_fallo ?l))
      with (Imprime <$> (linea_fallo <$> l)).
    rewrite <-list_fmap_compose, <-!app_assoc. reflexivity.
  - rewrite run_bind, run_ret, run_print. cbn [disco traza].
    cbn [fmap list_fmap app]. rewrite <-!app_assoc. reflexivity.
Qed.

(** The five ways a run of [main] can go; in the last, [main] runs the
    pool and then the report, when the pool returns. *)
Lemma main_casos (w : Mundo) :
  (cuda_is_available env = false
   ∧ main env w = (Valor tt, registrar w [Imprime linea_sin_cuda]))
  ∨ (cuda_is_available env = true
     ∧ ∃ e, (crear_carpetas_necesarias env w).1 = Lanza e
            ∧ main env w = (Lanza e, (crear_carpetas_necesarias env w).2))
  ∨ (cuda_is_available env = true
     ∧ (crear_carpetas_necesarias env w).1 = Valor tt
     ∧ isdir (disco (crear_carpetas_necesarias env w).2) (CARPETA_AUDIOS env)
       = false
     ∧ main env w
       = (Valor tt,
          registrar (crear_carpetas_necesarias env w).2
            [linea_buscando; Imprime (linea_sin_carpeta env)]))
  ∨ (cuda_is_available env = true
     ∧ (crear_carpetas_necesarias env w).1 = Valor tt
     ∧ isdir (disco (crear_carpetas_necesarias env w).2) (CARPETA_AUDIOS env)
       = true
     ∧ pendientes env (disco (crear_carpetas_necesarias env w).2) = []
     ∧ main env w
       = (Valor tt,
          registrar (crear_carpetas_necesarias env w).2
            [linea_buscando; linea_encontrados 0;
             Imprime linea_nada_pendiente]))
  ∨ (cuda_is_available env = true
     ∧ (crear_carpetas_necesarias env w).1 = Valor tt
     ∧ isdir (disco (crear_carpetas_necesarias env w).2) (CARPETA_AUDIOS env)
       = true
     ∧ pendientes env (disco (crear_carpetas_necesarias env w).2) ≠ []
     ∧ main env w
       = (resultados
            ← ejecutar_pool env
                (pendientes env (disco (crear_carpetas_necesarias env w).2));
          reporte_final resultados)
           (registrar (crear_carpetas_necesarias env w).2
              [linea_buscando;
               linea_encontrados
                 (length
                    (pendientes env
                       (disco (crear_carpetas_necesarias env w).2)));
               Imprime linea_iniciando])).
Proof.
  unfold main.
  destruct (cuda_is_available env) eqn:Hcuda; cbn [negb].
  2:{ left. split; [done|]. by rewrite run_print. }
  right. rewrite run_bind.
  pose proof (crear_carpetas_necesarias_fin env w) as Hfin.
  destruct (crear_carpetas_necesarias env w) as [[[]|e|f] w1];
    cbn [fst snd] in *.
  2:{ left. split; [done|]. by exists e. }
  2:{ by destruct Hfin as [?|[? ?]]. }
  right. rewrite run_bind, encontrar_archivos_pendientes_run.
  destruct (isdir (disco w1) (CARPETA_AUDIOS env)) eqn:Hd.
  2:{ left. split_and!; try done. rewrite run_print. cbn [disco traza].
      unfold registrar. by rewrite <-app_assoc. }
  right.
  destruct (pendientes env (disco w1)) as [|x l] eqn:Hp.
  { left. split_and!; try done. rewrite run_print. cbn [disco traza length].
    unfold registrar. by rewrite <-app_assoc. }
  right. split_and!; try done.
  rewrite run_bind, run_print. cbn [disco traza]. unfold registrar.
  unfold linea_iniciando. by rewrite <-app_assoc.
Qed.

(** The pool and the report: the report follows when the pool returns,
    and the run does not come back when the pool does not. *)
Lemma pool_y_reporte (items : list str) (w : Mundo) :
  (∃ rs w3,
     ejecutar_pool env items w = (Valor rs, w3)
     ∧ (resultados ← ejecutar_pool env items; reporte_final resultados) w
       = reporte_final rs w3)
  ∨ (ejecutar_pool env items w).1 = Escapa Bloqueo
    ∧ (resultados ← ejecutar_pool env items; reporte_final resultados) w
      = (Escapa Bloqueo, (ejecutar_pool env items w).2).
Proof.
  rewrite run_bind.
  destruct (ejecutar_pool_fin env items w) as [[rs Hrs]|Hb];
    destruct (ejecutar_pool env items w) as [[rs'|e|f] w3];
    cbn [fst snd] in *; try discriminate.
  - left. by exists rs', w3.
  - right. by injection Hb as ->.
Qed.

End Corrida.


Section CorridaEntera.
Import os_path os os_io Transcriber.
Context (env : Entorno).

(** No output path lies in the input folder or below it. *)
Lemma salida_fuera_de_AUDIOS (ruta x : str) :
  salida_de_procesar env ruta ≠ CARPETA_AUDIOS env ++ x.
Proof.
  destruct (salida_de_procesar_forma env ruta) as (y & _ & ->).
  unfold CARPETA_AUDIOS, CARPETA_TRANSCRIPCIONES.
  rewrite !join_relativo by reflexivity. rewrite <-!app_assoc.
  intros H%app_inv_head. discriminate H.
Qed.

Lemma salida_bajo_TRANSCRIPCIONES (ruta : str) :
  (CARPETA_TRANSCRIPCIONES env ++ [sep])
  `prefix_of` salida_de_procesar env ruta.
Proof.
  destruct (salida_de_procesar_forma env ruta) as (y & _ & ->).
  exists y. by rewrite <-app_assoc.
Qed.

Lemma proyecciones_Imprime (ls : list str) :
  progresos (Imprime <$> ls) = [] ∧ cargas (Imprime <$> ls) = []
  ∧ barras (Imprime <$> ls) = [] ∧ lineas (Imprime <$> ls) = ls.
Proof.
  induction ls as [|l ls (H1 & H2 & H3 & H4)]; [done|].
  split_and!; try done. cbn. unfold lineas in H4. by rewrite H4.
Qed.

(** X8. How a run of [main] ends, when printing, listing the input folder,
    creating the pool and the progress bar do not fail and nothing
    interrupts the main process. It returns; or it raises what
    [os.makedirs] raised while the output folder was being made, with CUDA
    available and before discovery starts; or it never comes back from the
    pool, which happens only when some pending item does not arrive (the
    workers' initializer raises, or a worker dies with its item). Nothing a
    worker, discovery or the report does makes [main] raise, and when every
    pending item arrives [main] returns. *)
Theorem main_solo_lanza_por_makedirs (w : Mundo) :
  ((main env w).1 = Valor tt
   ∨ (cuda_is_available env = true
      ∧ ∃ e, (crear_carpetas_necesarias env w).1 = Lanza e
             ∧ main env w = (Lanza e, (crear_carpetas_necesarias env w).2))
   ∨ (cuda_is_available env = true
      ∧ (crear_carpetas_necesarias env w).1 = Valor tt
      ∧ isdir (disco (crear_carpetas_necesarias env w).2)
          (CARPETA_AUDIOS env) = true
      ∧ ¬ (orden_de_llegada env
             (pendientes env (disco (crear_carpetas_necesarias env w).2))
           ≡ₚ pendientes env (disco (crear_carpetas_necesarias env w).2))
      ∧ (main env w).1 = Escapa Bloqueo))
  ∧ (cuda_is_available env = true →
     (crear_carpetas_necesarias env w).1 = Valor tt →
     orden_de_llegada env
       (pendientes env (disco (crear_carpetas_necesarias env w).2))
     ≡ₚ pendientes env (disco (crear_carpetas_necesarias env w).2) →
     (main env w).1 = Valor tt).
Proof.
  destruct (main_casos env w)
    as [[Hcuda ->]|[(Hcuda & e & He & ->)|[(_ & _ & _ & ->)
       |[(_ & _ & _ & _ & ->)|(Hcuda & Hcrear & Hd & _ & ->)]]]].
  - split; [by left|]. congruence.
  - split; [right; left; eauto|]. congruence.
  - split; [by left|done].
  - split; [by left|done].
  - destruct (pool_y_reporte env
                (pendientes env (disco (crear_carpetas_necesarias env w).2))
                (registrar (crear_carpetas_necesarias env w).2
                   [linea_buscando;
                    linea_encontrados
                      (length (pendientes env
                         (disco (crear_carpetas_necesarias env w).2)));
                    Imprime linea_iniciando]))
      as [(rs & w3 & Hrun & ->)|[Hb ->]].
    + rewrite reporte_final_exacto. split; [by left|done].
    + assert (¬ (orden_de_llegada env
                   (pendientes env
                      (disco (crear_carpetas_necesarias env w).2))
                 ≡ₚ pendientes env
                      (disco (crear_carpetas_necesarias env w).2))) as Hno.
      { intros Hperm.
        apply (ejecutar_pool_vuelve_sii env _
                 (registrar (crear_carpetas_necesarias env w).2
                    [linea_buscando;
                     linea_encontrados
                       (length (pendientes env
                          (disco (crear_carpetas_necesarias env w).2)));
                     Imprime linea_iniciando])) in Hperm as [rs Hrs].
        rewrite Hb in Hrs. discriminate Hrs. }
      split; [right; right; by split_and!|]. intros _ _ Hperm.
      by destruct Hno.
Qed.

(** Where the file system of a run ends: as it was, as the making of the
    output folder left it, or as a pool run from there left it. *)
Lemma main_disco (w : Mundo) :
  disco (main env w).2 = disco w
  ∨ disco (main env w).2 = disco (crear_carpetas_necesarias env w).2
  ∨ ∃ items w2,
      disco w2 = disco (crear_carpetas_necesarias env w).2
      ∧ disco (main env w).2 = disco (ejecutar_pool env items w2).2.
Proof.
  destruct (main_casos env w)
    as [[_ ->]|[(_ & e & _ & ->)|[(_ & _ & _ & ->)|[(_ & _ & _ & _ & ->)
       |(_ & _ & _ & _ & ->)]]]];
    [by left|right; by left|right; by left|right; by left|].
  right. right. eexists _, _. split; [|].
  2:{ destruct (pool_y_reporte env
                  (pendientes env (disco (crear_carpetas_necesarias env w).2))
                  (registrar (crear_carpetas_necesarias env w).2
                     [linea_buscando;
                      linea_encontrados
                        (length (pendientes env
                           (disco (crear_carpetas_necesarias env w).2)));
                      Imprime linea_iniciando]))
        as [(rs & w3 & Hrun & ->)|[Hb ->]].
      - rewrite reporte_final_exacto, Hrun. reflexivity.
      - reflexivity. }
  done.
Qed.

(** What a run keeps: the paths that existed, the directories, and the
    input folder with everything below it. *)
Lemma main_conserva_nodos (w : Mundo) :
  (∀ q, is_Some (disco w !! q) → is_Some (disco (main env w).2 !! q))
  ∧ (∀ q, isdir (disco w) q = true → isdir (disco (main env w).2) q = true)
  ∧ (∀ x, disco (main env w).2 !! (CARPETA_AUDIOS env ++ x)
          = disco w !! (CARPETA_AUDIOS env ++ x)).
Proof.
  destruct (crear_carpetas_necesarias_efecto env w) as (Hc & _ & _).
  pose proof (crear_carpetas_necesarias_AUDIOS env w) as Hca.
  destruct (main_disco w) as [->|[->|(items & w2 & Hw2 & ->)]].
  - by split_and!.
  - split_and!.
    + intros q [v Hv]. exists v. by apply Hc.
    + intros q Hq%isdir_true. apply isdir_true. by apply Hc.
    + exact Hca.
  - destruct (ejecutar_pool_mundo env items w2) as (Hdir & Hmono & Hotros).
    rewrite Hw2 in *. split_and!.
    + intros q [v Hv]. apply Hmono. exists v. by apply Hc.
    + intros q Hq%isdir_true. rewrite Hdir. apply isdir_true. by apply Hc.
    + intros x. rewrite Hotros; [apply Hca|].
      intros ruta _ Heq. by apply (salida_fuera_de_AUDIOS ruta x).
Qed.

(** X9. A run of [main] removes nothing and overwrites nothing outside the
    output folder: every path that existed still exists, a directory is
    still a directory, the input folder and everything below it is as it
    was, and a regular file that is not inside the output folder keeps its
    text. *)
Theorem main_conserva (w : Mundo) :
  (∀ q, is_Some (disco w !! q) → is_Some (disco (main env w).2 !! q))
  ∧ (∀ q, isdir (disco w) q = true → isdir (disco (main env w).2) q = true)
  ∧ (∀ x, disco (main env w).2 !! (CARPETA_AUDIOS env ++ x)
          = disco w !! (CARPETA_AUDIOS env ++ x))
  ∧ (∀ q t, disco w !! q = Some (Archivo t) →
            ¬ (CARPETA_TRANSCRIPCIONES env ++ [sep]) `prefix_of` q →
            disco (main env w).2 !! q = Some (Archivo t)).
Proof.
  destruct (main_conserva_nodos w) as (Hmono & Hdir & Hca).
  split_and!; [done|done|done|].
  destruct (crear_carpetas_necesarias_efecto env w) as (Hc & _ & _).
  intros q t Hq Hfuera.
  destruct (main_disco w) as [->|[->|(items & w2 & Hw2 & ->)]];
    [done|by apply Hc|].
  destruct (ejecutar_pool_mundo env items w2) as (_ & _ & Hotros).
  rewrite Hw2 in *. rewrite Hotros; [by apply Hc|].
  intros ruta _ ->. apply Hfuera. apply salida_bajo_TRANSCRIPCIONES.
Qed.


End CorridaEntera.


(** ** The worker, case by case *)

Section TrabajadorCasos.
Import Py os_path os os_io Transcriber.
Context (env : Entorno).

Lemma lstrip_sep (c : N) (s : str) :
  c ≠ sep → lstrip (sep :: c :: s) sep = c :: s.
Proof.
  intros Hc. cbn [lstrip]. rewrite N.eqb_refl. cbn [lstrip].
  by destruct (N.eqb_spec c sep).
Qed.

(** [dirname] gives back the directory a name was joined to. *)
Lemma dirname_dir_sep (a : str) (c : N) (x : str) :
  c ≠ sep → sep ∉ x → dirname ((a ++ [c]) ++ [sep] ++ x) = a ++ [c].
Proof.
  intros Hc Hx. unfold dirname. cbn zeta.
  change ([sep] ++ x) with (sep :: x).
  rewrite rfind_last by done.
  replace (Z.of_nat (length (a ++ [c])) + 1)
    with (Z.of_nat (length ((a ++ [c]) ++ [sep])))
    by (rewrite !length_app; cbn [length]; lia).
  rewrite slice_to_nat.
  replace ((a ++ [c]) ++ sep :: x) with (((a ++ [c]) ++ [sep]) ++ x)
    by by rewrite <-!app_assoc.
  rewrite take_app_length.
  rewrite bool_decide_eq_true_2 by by destruct a.
  rewrite bool_decide_eq_true_2.
  2:{ intros Heq.
      assert (c ∈ (a ++ [c]) ++ [sep]) as Hin by set_solver.
      rewrite Heq in Hin. apply elem_of_replicate in Hin as [? _]. done. }
  cbn [andb]. unfold rstrip.
  rewrite !reverse_app. cbn [reverse rev_append app].
  change (reverse [sep]) with [sep]. change (reverse [c]) with [c].
  cbn [app]. rewrite lstrip_sep by done.
  rewrite reverse_cons, reverse_involutive. done.
Qed.

(** The output path of any item is directly inside the output folder. *)
Lemma dirname_salida (ruta : str) :
  dirname (salida_de_procesar env ruta) = CARPETA_TRANSCRIPCIONES env.
Proof.
  destruct (salida_de_procesar_forma env ruta) as (x & Hx & ->).
  rewrite CARPETA_TRANSCRIPCIONES_eq. by apply dirname_dir_sep.
Qed.

(** The path through the [try] body on which nothing raises. *)
Lemma procesar_archivo_camino_feliz (m : Modelo) (ruta : str)
    (d : gmap str str) (t : str) (w : Mundo) :
  transcribe m ruta true IDIOMA_AUDIO = Valor d →
  d !! lit "text" = Some t →
  isdir (disco w) (CARPETA_TRANSCRIPCIONES env) = true →
  isdir (disco w) (salida_de_procesar env ruta) = false →
  falla_abrir env (salida_de_procesar env ruta) = None →
  falla_escribir env (salida_de_procesar env ruta) t = None →
  procesar_archivo env (Some m) ruta w
  = (Valor (basename ruta, EXITO, []),
     {| disco := <[salida_de_procesar env ruta := Archivo t]> (disco w);
        traza := traza w |}).
Proof.
  intros Ht Hd Hct Hs Ha He.
  unfold procesar_archivo, intento_procesar, llamar_transcribe, abrir_w,
    escribir, getitem. fold (salida_de_procesar env ruta). mred.
  rewrite Ht. mred. rewrite Hs, dirname_salida, Hct. mred.
  rewrite Ha. mred. rewrite Hd. mred. rewrite He. mred.
  by rewrite insert_insert_eq.
Qed.

(** X11. The success path. When the model returns a dictionary with a
    "text", the output folder is a directory, the output path is not one,
    and neither opening nor writing is refused, [procesar_archivo] returns
    [(name, "ÉXITO", "")] and the file at the output path holds exactly
    that text, whatever it held before; nothing else changes. *)
Theorem procesar_archivo_exito (m : Modelo) (ruta : str) (d : gmap str str)
    (t : str) (w : Mundo) :
  transcribe m ruta true IDIOMA_AUDIO = Valor d →
  d !! lit "text" = Some t →
  isdir (disco w) (CARPETA_TRANSCRIPCIONES env) = true →
  isdir (disco w) (salida_de_procesar env ruta) = false →
  falla_abrir env (salida_de_procesar env ruta) = None →
  falla_escribir env (salida_de_procesar env ruta) t = None →
  procesar_archivo env (Some m) ruta w
  = (Valor (basename ruta, EXITO, []),
     {| disco := <[salida_de_procesar env ruta := Archivo t]> (disco w);
        traza := traza w |})
  ∧ ∀ q, q ≠ salida_de_procesar env ruta →
         disco (procesar_archivo env (Some m) ruta w).2 !! q = disco w !! q.
Proof.
  intros Ht Hd Hct Hs Ha He.
  rewrite (procesar_archivo_camino_feliz m ruta d t w) by done.
  split; [done|]. intros q Hq. cbn [snd disco]. by rewrite lookup_insert_ne.
Qed.

(** X12. A transcription that raises leaves the world as it was: no file is
    made, nothing is printed, and discovery afterwards returns what it
    returned before, so the item is pending again on the next run. *)
Theorem procesar_archivo_fallo_deja_pendiente (m : Modelo) (ruta : str)
    (e : excepcion) (w : Mundo) :
  transcribe m ruta true IDIOMA_AUDIO = Lanza e →
  procesar_archivo env (Some m) ruta w
  = (Valor (basename ruta, FALLO, mensaje e), w)
  ∧ (encontrar_archivos_pendientes env
       (procesar_archivo env (Some m) ruta w).2).1
    = (encontrar_archivos_pendientes env w).1.
Proof.
  intros He.
  rewrite (procesar_archivo_transcribe_falla env m ruta e w He). done.
Qed.


(** X14. Whatever happens, [procesar_archivo] prints nothing and changes at
    most one path, its output path, which lies directly inside the output
    folder: every other path keeps its node, no path is removed, and a
    directory stays a directory. *)
Theorem procesar_archivo_solo_su_salida (mg : option Modelo) (ruta : str)
    (w : Mundo) :
  traza (procesar_archivo env mg ruta w).2 = traza w
  ∧ (∀ q, q ≠ salida_de_procesar env ruta →
          disco (procesar_archivo env mg ruta w).2 !! q = disco w !! q)
  ∧ (∀ q, is_Some (disco w !! q) →
          is_Some (disco (procesar_archivo env mg ruta w).2 !! q))
  ∧ (∀ q, isdir (disco (procesar_archivo env mg ruta w).2) q
          = isdir (disco w) q)
  ∧ dirname (salida_de_procesar env ruta) = CARPETA_TRANSCRIPCIONES env.
Proof.
  destruct (procesar_archivo_disco env mg ruta w) as [Htr Hd].
  split_and!; [done| | |apply procesar_archivo_isdir|apply dirname_salida].
  - intros q Hq. destruct Hd as [->|[_ [t ->]]]; [done|].
    by rewrite lookup_insert_ne.
  - intros q Hq. destruct Hd as [->|[_ [t ->]]]; [done|].
    rewrite lookup_insert_is_Some.
    destruct (decide (salida_de_procesar env ruta = q)); auto.
Qed.

End TrabajadorCasos.


(** ** Names and their output names *)

Section Nombres.
Import Py os_path os os_io Transcriber.
Context (env : Entorno).

Lemma basename_basename (p : str) : basename (basename p) = basename p.
Proof. apply basename_sin_sep, basename_sin_separador. Qed.

(** X15. The name shown in a line of the final failure list is the name of
    the Outcome as it is: [os.path.basename] at line 123 is applied to what
    is already a base name. *)
Theorem linea_fallo_nombre (mg : option Modelo) (ruta : str) (w w' : Mundo)
    (o : Outcome) :
  procesar_archivo env mg ruta w = (Valor o, w') →
  basename (r0 o) = r0 o
  ∧ linea_fallo o
    = lit "Archivo: " ++ r0 o ++ lit " | Error: " ++ take 100 (r2 o)
      ++ lit "...".
Proof.
  intros [Hn _]%procesar_archivo_estado.
  assert (basename (r0 o) = r0 o) as Hb
    by (rewrite Hn; apply basename_basename).
  split; [done|]. unfold linea_fallo. rewrite Hb.
  change 100 with (Z.of_nat 100). by rewrite slice_to_nat.
Qed.

Lemma puntos_o_no (s : str) :
  s = replicate (length s) extsep ∨ ∃ c, c ∈ s ∧ c ≠ extsep.
Proof.
  induction s as [|x s [IH|(c & Hc & Hne)]].
  - by left.
  - destruct (decide (x = extsep)) as [->|Hx].
    + left. cbn [length replicate]. by rewrite <-IH.
    + right. exists x. split; [apply list_elem_of_here|done].
  - right. exists c. split; [by apply list_elem_of_further|done].
Qed.

(** X16. The output name of a file name that ends in ".opus": the name
    with ".opus" replaced by ".txt" when something other than dots comes
    before ".opus"; the whole name with ".txt" added when the name is dots
    followed by "opus". *)
Theorem salida_de_nombre_opus (s : str) :
  sep ∉ s →
  (∃ c, c ∈ s ∧ c ≠ extsep)
  ∧ salida_de_encontrar env (s ++ lit ".opus")
    = CARPETA_TRANSCRIPCIONES env ++ [sep] ++ s ++ lit ".txt"
  ∨ s = replicate (length s) extsep
    ∧ salida_de_encontrar env (s ++ lit ".opus")
      = CARPETA_TRANSCRIPCIONES env ++ [sep] ++ s ++ lit ".opus.txt".
Proof.
  intros Hs. destruct (puntos_o_no s) as [Hp|Hc].
  - right. split; [done|]. rewrite Hp at 1.
    unfold salida_de_encontrar. rewrite splitext_puntos_opus, <-Hp.
    rewrite join_TRANSCRIPCIONES.
    + by rewrite <-!app_assoc.
    + rewrite !not_elem_of_app. split_and!; [done| |].
      * apply (bool_decide_unpack (sep ∉ lit ".opus")). exact I.
      * apply (bool_decide_unpack (sep ∉ lit ".txt")). exact I.
  - left. split; [done|]. by apply salida_de_encontrar_opus.
Qed.

End Nombres.


(** ** Discovery after a run *)

Section Reanudar.
Import Py os_path os os_io Transcriber.
Context (env : Entorno).

(** Between two file systems where the second has everything the first has
    and the same entries in the input folder, the pending list can only
    lose items. *)
Lemma pendientes_sublist (fs fs' : filesystem) :
  (∀ q, is_Some (fs !! q) → is_Some (fs' !! q)) →
  (∀ x, fs' !! (CARPETA_AUDIOS env ++ x) = fs !! (CARPETA_AUDIOS env ++ x)) →
  pendientes env fs' `sublist_of` pendientes env fs.
Proof.
  intros Hmono Hca. unfold pendientes.
  assert (sorted (listdir fs' (CARPETA_AUDIOS env))
          = sorted (listdir fs (CARPETA_AUDIOS env))) as ->.
  { apply sorted_perm_eq. apply NoDup_Permutation; [apply NoDup_listdir..|].
    intros n. by rewrite !elem_of_listdir, Hca. }
  apply fmap_sublist.
  rewrite <-(list_filter_filter_l (λ n, pendiente env fs' n = true)
                                  (λ n, pendiente env fs n = true)).
  - apply sublist_filter.
  - intros n. unfold pendiente. rewrite !andb_true_iff, !negb_true_iff.
    intros [He Hx]. split; [done|].
    apply not_true_iff_false. intros Hex%exists_true.
    apply Hmono in Hex. apply exists_true in Hex. congruence.
Qed.

(** X17. A run never adds pending work: when discovery returns a list
    before a run of [main], discovery after the run returns a list too,
    with the same items in the same order except those that are no longer
    pending. *)
Theorem main_reduce_pendientes (w : Mundo) (l : list str) :
  (encontrar_archivos_pendientes env w).1 = Valor (Some l) →
  ∃ l', (encontrar_archivos_pendientes env (main env w).2).1 = Valor (Some l')
        ∧ l' `sublist_of` l.
Proof.
  rewrite !encontrar_archivos_pendientes_run.
  destruct (main_conserva_nodos env w) as (Hmono & Hdir & Hca).
  destruct (isdir (disco w) (CARPETA_AUDIOS env)) eqn:Hd; cbn [fst]; [|done].
  intros [= <-]. rewrite (Hdir _ Hd). cbn [fst]. eexists. split; [done|].
  by apply pendientes_sublist.
Qed.

(** X18. The main process shows every failure twice, in the same order.
    The lines the main process prints during a pool run that returns (the
    workers print their own start-up lines, each in its own process) are
    exactly the error lines of the Outcomes whose state is 'FALLO', in
    arrival order; and the final report lists the same Outcomes in the same
    order, under its title, or has no list when there is no failure. *)
Theorem fallos_en_linea_y_en_reporte (items : list str) (w w' : Mundo)
    (rs : list Outcome) :
  ejecutar_pool env items w = (Valor rs, w') →
  lineas (traza w')
  = lineas (traza w) ++ (linea_error <$> filter (λ r, r1 r = FALLO) rs)
  ∧ lineas (traza (reporte_final rs w').2)
    = lineas (traza w')
      ++ cabecera_reporte (length (filter (λ r, r1 r = EXITO) rs))
                          (length (filter (λ r, r1 r = FALLO) rs))
      ++ (if bool_decide (filter (λ r, r1 r = FALLO) rs ≠ [])
          then titulo_fallos
               :: (linea_fallo <$> filter (λ r, r1 r = FALLO) rs)
          else [])
      ++ [pie_reporte].
Proof.
  intros Hrun.
  pose proof (ejecutar_pool_estados env items w w' rs Hrun) as Hest.
  assert (orden_de_llegada env items ≡ₚ items) as Hperm.
  { apply (ejecutar_pool_vuelve_sii env items w). exists rs.
    by rewrite Hrun. }
  destruct (ejecutar_pool_llegan env items w Hperm)
    as (rs' & w2 & evs & Hrun' & _ & _ & Htr & _ & _ & _ & _ & Hlin & _).
  rewrite Hrun in Hrun'. injection Hrun' as <- <-. split.
  - rewrite Htr. unfold lineas at 1. rewrite omap_app.
    fold (lineas (traza w)). fold (lineas evs). rewrite Hlin. do 2 f_equal.
    clear -Hest. induction Hest as [|r rs Hr _ IH]; [done|].
    rewrite !filter_cons, IH.
    destruct Hr as [Hr|Hr]; rewrite Hr.
    + rewrite decide_False by done.
      by rewrite decide_False by (intros ?; by apply EXITO_FALLO).
    + rewrite decide_True by done. by rewrite decide_True.
  - rewrite reporte_final_exacto. cbn [snd registrar traza].
    unfold lineas at 1. rewrite omap_app. fold (lineas (traza w')).
    f_equal. apply proyecciones_Imprime.
Qed.

End Reanudar.

(** ** Workers do not interfere *)

Section SinInterferencia.
Import Py os_path os os_io Transcriber.
Context (env : Entorno).

(** X19. Workers do not interfere. When the output paths of the items are
    pairwise different, a pool run leaves at each item's output path what
    [procesar_archivo] alone would have left there on the file system the
    pool started with, returns for each item the Outcome of that lone
    call, and leaves every other path as it was: neither depends on the
    order in which the items come back. *)
Theorem ejecutar_pool_sin_interferencia (items : list str) (w : Mundo) :
  orden_de_llegada env items ≡ₚ items →
  NoDup (salida_de_procesar env <$> items) →
  ∃ rs,
    (ejecutar_pool env items w).1 = Valor rs
    ∧ Forall2 (λ ruta o,
         (procesar_archivo env (Some (modelo_cargado env)) ruta w).1 = Valor o)
        (orden_de_llegada env items) rs
    ∧ (∀ ruta, ruta ∈ items →
         disco (ejecutar_pool env items w).2 !! salida_de_procesar env ruta
         = disco (procesar_archivo env (Some (modelo_cargado env)) ruta w).2
             !! salida_de_procesar env ruta)
    ∧ (∀ q, q ∉ salida_de_procesar env <$> items →
         disco (ejecutar_pool env items w).2 !! q = disco w !! q).
Proof.
  intros Hperm Hnd.
  destruct (orden_de_llegada_todos env items Hperm) as (_ & _ & Hload).
  destruct (ejecutar_pool_llegan env items w Hperm)
    as (rs & w' & evs & Hrun & Hrs & _).
  destruct (ejecutar_pool_mundo env items w) as (_ & _ & Hotros).
  exists rs. split_and!.
  - by rewrite Hrun.
  - done.
  - intros ruta Hruta. apply ejecutar_pool_cada_salida; [|done|done].
    apply Hload. intros ->. by apply elem_of_nil in Hruta.
  - intros q Hq. apply Hotros.
    intros ruta Hruta ->. apply Hq. by apply list_elem_of_fmap_2.
Qed.

(** X20. Every success a pool run reports has its output: at the end of
    the run there is a regular file at the output path of each item whose
    Outcome is a success, also when two items share an output path. *)
Theorem ejecutar_pool_exito_con_archivo (items : list str) (w w' : Mundo)
    (rs : list Outcome) :
  ejecutar_pool env items w = (Valor rs, w') →
  Forall2 (λ ruta o,
     r1 o = EXITO →
     exists_ (disco w') (salida_de_procesar env ruta) = true
     ∧ isdir (disco w') (salida_de_procesar env ruta) = false)
    (orden_de_llegada env items) rs.
Proof.
  intros Hrun.
  assert (orden_de_llegada env items ≡ₚ items) as Hperm.
  { apply (ejecutar_pool_vuelve_sii env items w). exists rs.
    by rewrite Hrun. }
  destruct (ejecutar_pool_mundo env items w) as (Hdir & _ & _).
  destruct (ejecutar_pool_llegan env items w Hperm)
    as (rs' & w2 & evs & Hrun' & Hrs & Hex & _).
  rewrite Hrun in Hrun', Hdir. injection Hrun' as <- <-. cbn [snd] in Hdir.
  clear Hrun. revert Hrs Hex.
  generalize (orden_de_llegada env items) as l. intros l Hrs Hex.
  induction Hex as [|ruta o l rs' Ho Hex IH]; [constructor|].
  apply Forall2_cons_1 in Hrs as [Hr Hrs].
  constructor; [|by apply IH].
  intros Hok. split; [by apply exists_true, Ho|].
  rewrite Hdir.
  destruct (procesar_archivo env (Some (modelo_cargado env)) ruta w)
    as [r w1] eqn:Hp. cbn [fst] in Hr. subst r.
  destruct (procesar_archivo_disco env (Some (modelo_cargado env)) ruta w)
    as [_ Hd]. rewrite Hp in Hd. cbn [snd] in Hd.
  pose proof (procesar_archivo_exito_escribe env (Some (modelo_cargado env))
                ruta w w1 o Hp Hok) as [t Ht].
  destruct Hd as [Hd|[Hd _]]; [|done].
  rewrite Hd in Ht. unfold isdir. by rewrite Ht.
Qed.

End SinInterferencia.

(** ** A run in which everything goes well *)

Section CorridaCompleta.
Import Py os_path os os_io Transcriber.
Context (env : Entorno).

Lemma crear_carpetas_necesarias_ya_existe (w : Mundo) :
  exists_ (disco w) (CARPETA_TRANSCRIPCIONES env) = true →
  crear_carpetas_necesarias env w = (Valor tt, w).
Proof.
  intros H1. unfold crear_carpetas_necesarias. mred. rewrite H1.
  by destruct w.
Qed.

Lemma isdir_exists (fs : filesystem) (p : str) :
  isdir fs p = true → exists_ fs p = true.
Proof. intros H%isdir_true. apply exists_true. by rewrite H. Qed.

Lemma filtros_todo_exito (rs : list Outcome) :
  Forall (λ o, r1 o = EXITO) rs →
  filter (λ r, r1 r = EXITO) rs = rs ∧ filter (λ r, r1 r = FALLO) rs = [].
Proof.
  induction 1 as [|o rs Ho _ [IH1 IH2]]; [done|].
  rewrite !filter_cons, IH1, IH2, decide_True by done.
  rewrite decide_False; [done|].
  rewrite Ho. apply EXITO_FALLO.
Qed.

(** A pending item whose transcription, opening and writing all go well:
    what [procesar_archivo] does with it in a world where the output folder
    is a directory. *)
Lemma procesar_archivo_pendiente (w w0 : Mundo) (ruta t : str) :
  disco w0 = disco w →
  isdir (disco w) (CARPETA_TRANSCRIPCIONES env) = true →
  ruta ∈ pendientes env (disco w) →
  (∃ d, transcribe (modelo_cargado env) ruta true IDIOMA_AUDIO = Valor d
        ∧ d !! lit "text" = Some t) →
  falla_abrir env (salida_de_procesar env ruta) = None →
  falla_escribir env (salida_de_procesar env ruta) t = None →
  procesar_archivo env (Some (modelo_cargado env)) ruta w0
  = (Valor (basename ruta, EXITO, []),
     {| disco := <[salida_de_procesar env ruta := Archivo t]> (disco w0);
        traza := traza w0 |}).
Proof.
  intros Hw0 Hct Hruta (d & Ht & Hd) Ha He.
  apply (procesar_archivo_camino_feliz env _ ruta d t w0); try done.
  - by rewrite Hw0.
  - rewrite Hw0.
    apply elem_of_pendientes in Hruta as (n & Hn & _ & Hex & ->).
    apply elem_of_listdir in Hn as (_ & Hs & _).
    unfold salida_de_procesar. rewrite basename_join_AUDIOS by done.
    fold (salida_de_encontrar env n).
    destruct (isdir (disco w) (salida_de_encontrar env n)) eqn:Hdir; [|done].
    apply isdir_exists in Hdir. congruence.
Qed.

(** X21. A run in which everything goes well transcribes everything. With
    CUDA there, both folders in place, every pending item coming back
    once, no two pending items sharing an output path, and the model, the
    opening and the writing succeeding on each, [main] returns; each
    pending item's output path then holds a regular file with exactly the
    text the model gave for that item; every other path is as it was; a
    discovery after the run finds nothing pending; and the report, printed
    when there was an item, counts every item as a success and none as
    a failure. *)
Theorem main_transcribe_todo (w : Mundo) (texto : str → str) :
  cuda_is_available env = true →
  isdir (disco w) (CARPETA_TRANSCRIPCIONES env) = true →
  isdir (disco w) (CARPETA_AUDIOS env) = true →
  orden_de_llegada env (pendientes env (disco w))
  ≡ₚ pendientes env (disco w) →
  NoDup (salida_de_procesar env <$> pendientes env (disco w)) →
  (∀ ruta, ruta ∈ pendientes env (disco w) →
     (∃ d, transcribe (modelo_cargado env) ruta true IDIOMA_AUDIO = Valor d
           ∧ d !! lit "text" = Some (texto ruta))
     ∧ falla_abrir env (salida_de_procesar env ruta) = None
     ∧ falla_escribir env (salida_de_procesar env ruta) (texto ruta) = None) →
  (main env w).1 = Valor tt
  ∧ (∀ ruta, ruta ∈ pendientes env (disco w) →
       disco (main env w).2 !! salida_de_procesar env ruta
       = Some (Archivo (texto ruta)))
  ∧ (∀ q, q ∉ salida_de_procesar env <$> pendientes env (disco w) →
       disco (main env w).2 !! q = disco w !! q)
  ∧ (encontrar_archivos_pendientes env (main env w).2).1 = Valor (Some [])
  ∧ (pendientes env (disco w) ≠ [] →
     ∃ antes,
       lineas (traza (main env w).2)
       = antes
         ++ cabecera_reporte (length (pendientes env (disco w))) 0
         ++ [pie_reporte]).
Proof.
  intros Hcuda Hct Hca Hperm Hnd Hbien.
  pose proof (crear_carpetas_necesarias_ya_existe w (isdir_exists _ _ Hct))
    as Hcrear.
  destruct (main_casos env w)
    as [[? _]|[(_ & e & He & _)|[(_ & _ & Hd & _)|[(_ & _ & _ & Hnil & Hmain)
       |(_ & _ & _ & Hne & Hmain)]]]];
    rewrite ?Hcrear in *; cbn [fst snd] in *; try congruence.
  - (* nothing pending *)
    rewrite Hmain. cbn [fst snd registrar disco]. rewrite Hnil.
    split_and!; try done.
    + by intros ruta ?%elem_of_nil.
    + rewrite encontrar_archivos_pendientes_run. unfold registrar.
      cbn [disco]. by rewrite Hca, Hnil.
  - (* the pool runs *)
    set (l := pendientes env (disco w)) in *.
    set (w0 := registrar w _) in Hmain.
    assert (disco w0 = disco w) as Hw0 by done.
    destruct (orden_de_llegada_todos env l Hperm) as (_ & _ & Hload).
    specialize (Hload Hne).
    destruct (ejecutar_pool_llegan env l w0 Hperm)
      as (rs & w3 & evs & Hrun & Hrs & _).
    destruct (ejecutar_pool_mundo env l w0) as (Hdir & Hmono & Hotros).
    pose proof (λ r, ejecutar_pool_cada_salida env l w0 r Hload) as Hsin.
    rewrite Hrun in Hdir, Hmono, Hotros, Hsin. cbn [snd] in *.
    rewrite run_bind, Hrun in Hmain.
    assert (∀ ruta, ruta ∈ l →
              procesar_archivo env (Some (modelo_cargado env)) ruta w0
              = (Valor (basename ruta, EXITO, []),
                 {| disco := <[salida_de_procesar env ruta
                               := Archivo (texto ruta)]> (disco w0);
                    traza := traza w0 |})) as Hcada.
    { intros ruta Hruta. destruct (Hbien ruta Hruta) as (Ht & Ha & He).
      by apply (procesar_archivo_pendiente w). }
    assert (disco (main env w).2 = disco w3) as Hfin.
    { by rewrite Hmain, reporte_final_exacto. }
    assert (∀ ruta, ruta ∈ l →
              disco w3 !! salida_de_procesar env ruta
              = Some (Archivo (texto ruta))) as Hescrito.
    { intros ruta Hruta. rewrite Hsin by done.
      rewrite (Hcada ruta Hruta). cbn [snd disco].
      by rewrite lookup_insert_eq. }
    assert (∀ q, q ∉ salida_de_procesar env <$> l →
              disco w3 !! q = disco w !! q) as Hresto.
    { intros q Hq. rewrite Hotros; [done|].
      intros ruta Hruta ->. by apply Hq, list_elem_of_fmap_2. }
    assert (Forall (λ o, r1 o = EXITO) rs) as Hok.
    { apply Forall_lookup. intros i o Hi.
      destruct (Forall2_lookup_r _ _ _ _ _ Hrs Hi) as (ruta & Hl & Ho).
      apply list_elem_of_lookup_2 in Hl. rewrite Hperm in Hl.
      rewrite (Hcada ruta Hl) in Ho. cbn [fst] in Ho. by injection Ho as <-. }
    rewrite Hfin. split_and!.
    + by rewrite Hmain, reporte_final_exacto.
    + exact Hescrito.
    + exact Hresto.
    + rewrite encontrar_archivos_pendientes_run, Hfin, Hdir, Hw0, Hca.
      cbn [fst]. do 2 f_equal. apply pendientes_nil. intros n Hn Hopus.
      apply elem_of_listdir in Hn as (Hn0 & Hs & Hq).
      rewrite Hotros, Hw0 in Hq
        by (intros r _ Heq; by apply (salida_no_en_AUDIOS env r n)).
      destruct (exists_ (disco w) (salida_de_encontrar env n)) eqn:Hx.
      * apply exists_true, Hmono. rewrite Hw0. by apply exists_true.
      * assert (join (CARPETA_AUDIOS env) n ∈ l) as Hin.
        { apply elem_of_pendientes. exists n. split_and!; try done.
          by apply elem_of_listdir. }
        apply exists_true. apply Hescrito in Hin.
        unfold salida_de_procesar in Hin.
        rewrite basename_join_AUDIOS in Hin by done.
        fold (salida_de_encontrar env n) in Hin. by rewrite Hin.
    + intros _. exists (lineas (traza w3)).
      rewrite Hmain, reporte_final_exacto. cbn [snd registrar traza].
      destruct (filtros_todo_exito rs Hok) as [-> ->].
      rewrite bool_decide_eq_false_2 by (intros H; by apply H).
      rewrite <-(Forall2_length _ _ _ Hrs), Hperm.
      unfold lineas at 1. rewrite omap_app. fold (lineas (traza w3)).
      by f_equal.
Qed.

End CorridaCompleta.

(** ** A failed item is tried again *)

Section Reintento.
Import Py os_path os os_io Transcriber.
Context (env : Entorno).

(** X22. A file whose transcription raised is tried again on the next
    run. With CUDA there, the output folder in place, every pending item
    coming back once and no two pending items sharing an output path, an
    item on which the model raises is still in the list discovery returns
    after [main] has run. *)
Theorem main_fallo_queda_pendiente (w : Mundo) (l : list str) (ruta : str)
    (e : excepcion) :
  cuda_is_available env = true →
  isdir (disco w) (CARPETA_TRANSCRIPCIONES env) = true →
  (encontrar_archivos_pendientes env w).1 = Valor (Some l) →
  orden_de_llegada env l ≡ₚ l →
  NoDup (salida_de_procesar env <$> l) →
  ruta ∈ l →
  transcribe (modelo_cargado env) ruta true IDIOMA_AUDIO = Lanza e →
  ∃ l', (encontrar_archivos_pendientes env (main env w).2).1
        = Valor (Some l')
        ∧ ruta ∈ l'.
Proof.
  intros Hcuda Hct Hdesc Hperm Hnd Hruta Hfalla.
  rewrite encontrar_archivos_pendientes_run in Hdesc.
  destruct (isdir (disco w) (CARPETA_AUDIOS env)) eqn:Hca;
    cbn [fst] in Hdesc; [|done].
  injection Hdesc as <-.
  pose proof (crear_carpetas_necesarias_ya_existe env w
                (isdir_exists _ _ Hct)) as Hcrear.
  destruct (main_casos env w)
    as [[? _]|[(_ & e' & He & _)|[(_ & _ & Hd & _)|[(_ & _ & _ & Hnil & _)
       |(_ & _ & _ & Hne & Hmain)]]]];
    rewrite ?Hcrear in *; cbn [fst snd] in *; try congruence.
  { rewrite Hnil in Hruta. by apply elem_of_nil in Hruta. }
  set (l := pendientes env (disco w)) in *.
  set (w0 := registrar w _) in Hmain.
  assert (disco w0 = disco w) as Hw0 by done.
  destruct (orden_de_llegada_todos env l Hperm) as (_ & _ & Hload).
  specialize (Hload Hne).
  destruct (ejecutar_pool_llegan env l w0 Hperm)
    as (rs & w3 & evs & Hrun & _).
  destruct (ejecutar_pool_mundo env l w0) as (Hdir & Hmono & _).
  pose proof (ejecutar_pool_cada_salida env l w0 ruta Hload Hnd) as Hsin.
  rewrite Hrun in Hdir, Hmono, Hsin. cbn [snd] in *.
  rewrite run_bind, Hrun in Hmain.
  rewrite (procesar_archivo_transcribe_falla env _ ruta e w0 Hfalla) in Hsin.
  cbn [snd] in Hsin. rewrite Hw0 in Hsin, Hdir, Hmono.
  assert (disco (main env w).2 = disco w3) as Hfin
    by (by rewrite Hmain, reporte_final_exacto).
  rewrite encontrar_archivos_pendientes_run, Hfin, Hdir, Hca. cbn [fst].
  eexists. split; [done|].
  apply elem_of_pendientes in Hruta as (n & Hn & Hopus & Hex & ->).
  apply elem_of_pendientes. exists n.
  apply elem_of_listdir in Hn as (Hn0 & Hs & Hq).
  split_and!; try done.
  - apply elem_of_listdir. split_and!; try done. by apply Hmono.
  - unfold salida_de_procesar in Hsin.
    rewrite basename_join_AUDIOS in Hsin by done.
    fold (salida_de_encontrar env n) in Hsin.
    apply not_true_iff_false. intros [v Hv]%exists_true.
    rewrite Hsin in Hv.
    + apply not_true_iff_false in Hex. apply Hex, exists_true. by exists v.
    + apply elem_of_pendientes. exists n.
      split_and!; try done. by apply elem_of_listdir.
Qed.

End Reintento.

Section TestigoReintento.
Import Py os_path os os_io Transcriber.

Lemma main_fallo_queda_pendiente_testigo :
  transcribe (modelo_cargado (Ejemplo.env Ejemplo.boom)) Ejemplo.ruta_rota
    true IDIOMA_AUDIO
  = Lanza (Excepcion (lit "RuntimeError") Ejemplo.boom)
  ∧ ∃ l',
      (encontrar_archivos_pendientes (Ejemplo.env Ejemplo.boom)
         (main (Ejemplo.env Ejemplo.boom) Ejemplo.mundo_inicial).2).1
      = Valor (Some l')
      ∧ Ejemplo.ruta_rota ∈ l'.
Proof.
  assert (cuda_is_available (Ejemplo.env Ejemplo.boom) = true) as H1
    by reflexivity.
  assert (isdir (disco Ejemplo.mundo_inicial)
            (CARPETA_TRANSCRIPCIONES (Ejemplo.env Ejemplo.boom)) = true) as H2
    by (vm_compute; reflexivity).
  assert ((encontrar_archivos_pendientes (Ejemplo.env Ejemplo.boom)
             Ejemplo.mundo_inicial).1 = Valor (Some Ejemplo.dos_rutas)) as H3
    by (vm_compute; reflexivity).
  assert (orden_de_llegada (Ejemplo.env Ejemplo.boom) Ejemplo.dos_rutas
          ≡ₚ Ejemplo.dos_rutas) as H4 by apply Permutation_swap.
  assert (NoDup (salida_de_procesar (Ejemplo.env Ejemplo.boom)
                 <$> Ejemplo.dos_rutas)) as H5.
  { apply (bool_decide_unpack
             (NoDup (salida_de_procesar (Ejemplo.env Ejemplo.boom)
                     <$> Ejemplo.dos_rutas))).
    vm_compute. exact I. }
  assert (Ejemplo.ruta_rota ∈ Ejemplo.dos_rutas) as H6
    by apply list_elem_of_further, list_elem_of_here.
  assert (transcribe (modelo_cargado (Ejemplo.env Ejemplo.boom))
            Ejemplo.ruta_rota true IDIOMA_AUDIO
          = Lanza (Excepcion (lit "RuntimeError") Ejemplo.boom)) as H7
    by (vm_compute; reflexivity).
  split; [exact H7|].
  exact (main_fallo_queda_pendiente (Ejemplo.env Ejemplo.boom)
           Ejemplo.mundo_inicial Ejemplo.dos_rutas Ejemplo.ruta_rota _
           H1 H2 H3 H4 H5 H6 H7).
Defined.

End TestigoReintento.


(** ** The added theorems on the concrete run *)

Section MasTestigos.
Import Py os_path os os_io Transcriber.


Lemma main_solo_lanza_por_makedirs_testigo :
  orden_de_llegada (Ejemplo.env Ejemplo.boom)
    (pendientes (Ejemplo.env Ejemplo.boom)
       (disco (crear_carpetas_necesarias (Ejemplo.env Ejemplo.boom)
                 Ejemplo.mundo_dos).2))
  ≡ₚ pendientes (Ejemplo.env Ejemplo.boom)
       (disco (crear_carpetas_necesarias (Ejemplo.env Ejemplo.boom)
                 Ejemplo.mundo_dos).2)
  ∧ (main (Ejemplo.env Ejemplo.boom) Ejemplo.mundo_dos).1 = Valor tt.
Proof.
  assert (cuda_is_available (Ejemplo.env Ejemplo.boom) = true) as H1
    by reflexivity.
  assert ((crear_carpetas_necesarias (Ejemplo.env Ejemplo.boom)
             Ejemplo.mundo_dos).1 = Valor tt) as H2
    by (vm_compute; reflexivity).
  assert (orden_de_llegada (Ejemplo.env Ejemplo.boom)
            (pendientes (Ejemplo.env Ejemplo.boom)
               (disco (crear_carpetas_necesarias (Ejemplo.env Ejemplo.boom)
                         Ejemplo.mundo_dos).2))
          ≡ₚ pendientes (Ejemplo.env Ejemplo.boom)
               (disco (crear_carpetas_necesarias (Ejemplo.env Ejemplo.boom)
                         Ejemplo.mundo_dos).2)) as H3.
  { assert (orden_de_llegada (Ejemplo.env Ejemplo.boom)
              (pendientes (Ejemplo.env Ejemplo.boom)
                 (disco (crear_carpetas_necesarias (Ejemplo.env Ejemplo.boom)
                           Ejemplo.mundo_dos).2))
            = reverse (pendientes (Ejemplo.env Ejemplo.boom)
                 (disco (crear_carpetas_necesarias (Ejemplo.env Ejemplo.boom)
                           Ejemplo.mundo_dos).2))) as ->
      by (vm_compute; reflexivity).
    apply reverse_Permutation. }
  split; [exact H3|].
  exact (proj2 (main_solo_lanza_por_makedirs (Ejemplo.env Ejemplo.boom)
                  Ejemplo.mundo_dos) H1 H2 H3).
Defined.

Lemma procesar_archivo_exito_testigo :
  transcribe (Ejemplo.modelo Ejemplo.boom) Ejemplo.ruta_a true IDIOMA_AUDIO
  = Valor Ejemplo.dicc_hola
  ∧ procesar_archivo (Ejemplo.env Ejemplo.boom)
      (Some (Ejemplo.modelo Ejemplo.boom)) Ejemplo.ruta_a
      Ejemplo.mundo_inicial
    = (Valor (basename Ejemplo.ruta_a, EXITO, []),
       {| disco :=
            <[salida_de_procesar (Ejemplo.env Ejemplo.boom) Ejemplo.ruta_a
              := Archivo (lit "hola")]> (disco Ejemplo.mundo_inicial);
          traza := traza Ejemplo.mundo_inicial |}).
Proof.
  assert (transcribe (Ejemplo.modelo Ejemplo.boom) Ejemplo.ruta_a true
            IDIOMA_AUDIO = Valor Ejemplo.dicc_hola) as H1
    by (vm_compute; reflexivity).
  split; [exact H1|].
  assert (Ejemplo.dicc_hola !! lit "text" = Some (lit "hola")) as H2
    by (vm_compute; reflexivity).
  assert (isdir (disco Ejemplo.mundo_inicial)
            (CARPETA_TRANSCRIPCIONES (Ejemplo.env Ejemplo.boom)) = true) as H3
    by (vm_compute; reflexivity).
  assert (isdir (disco Ejemplo.mundo_inicial)
            (salida_de_procesar (Ejemplo.env Ejemplo.boom) Ejemplo.ruta_a)
          = false) as H4 by (vm_compute; reflexivity).
  exact (proj1 (procesar_archivo_exito (Ejemplo.env Ejemplo.boom)
                  (Ejemplo.modelo Ejemplo.boom) Ejemplo.ruta_a
                  Ejemplo.dicc_hola (lit "hola") Ejemplo.mundo_inicial
                  H1 H2 H3 H4 eq_refl eq_refl)).
Defined.

Lemma procesar_archivo_fallo_deja_pendiente_testigo :
  transcribe (Ejemplo.modelo Ejemplo.boom) Ejemplo.ruta_rota true IDIOMA_AUDIO
  = Lanza (Excepcion (lit "RuntimeError") Ejemplo.boom)
  ∧ (encontrar_archivos_pendientes (Ejemplo.env Ejemplo.boom)
       (procesar_archivo (Ejemplo.env Ejemplo.boom)
          (Some (Ejemplo.modelo Ejemplo.boom)) Ejemplo.ruta_rota
          Ejemplo.mundo_inicial).2).1
    = (encontrar_archivos_pendientes (Ejemplo.env Ejemplo.boom)
         Ejemplo.mundo_inicial).1.
Proof.
  assert (transcribe (Ejemplo.modelo Ejemplo.boom) Ejemplo.ruta_rota true
            IDIOMA_AUDIO
          = Lanza (Excepcion (lit "RuntimeError") Ejemplo.boom)) as H1
    by (vm_compute; reflexivity).
  split; [exact H1|].
  exact (proj2 (procesar_archivo_fallo_deja_pendiente
                  (Ejemplo.env Ejemplo.boom) (Ejemplo.modelo Ejemplo.boom)
                  Ejemplo.ruta_rota _ Ejemplo.mundo_inicial H1)).
Defined.


Lemma linea_fallo_nombre_testigo :
  procesar_archivo (Ejemplo.env Ejemplo.boom)
    (Some (Ejemplo.modelo Ejemplo.boom)) Ejemplo.ruta_rota
    Ejemplo.mundo_inicial
  = (Valor Ejemplo.resultado_roto, Ejemplo.mundo_inicial)
  ∧ basename (r0 Ejemplo.resultado_roto) = r0 Ejemplo.resultado_roto.
Proof.
  assert (procesar_archivo (Ejemplo.env Ejemplo.boom)
            (Some (Ejemplo.modelo Ejemplo.boom)) Ejemplo.ruta_rota
            Ejemplo.mundo_inicial
          = (Valor Ejemplo.resultado_roto, Ejemplo.mundo_inicial)) as Hp
    by (vm_compute; reflexivity).
  split; [exact Hp|].
  exact (proj1 (linea_fallo_nombre (Ejemplo.env Ejemplo.boom) _ _ _ _ _ Hp)).
Defined.

Lemma salida_de_nombre_opus_testigo :
  (sep ∉ lit "a")
  ∧ salida_de_encontrar (Ejemplo.env Ejemplo.boom) (lit "a" ++ lit ".opus")
    = lit "/home/u/wa/transcripciones/a.txt".
Proof.
  assert (sep ∉ lit "a") as Hs.
  { apply (bool_decide_unpack (sep ∉ lit "a")). vm_compute. exact I. }
  split; [exact Hs|].
  destruct (salida_de_nombre_opus (Ejemplo.env Ejemplo.boom) (lit "a") Hs)
    as [[_ H]|[Hp _]].
  - rewrite H. vm_compute. reflexivity.
  - vm_compute in Hp. discriminate Hp.
Defined.

Lemma salida_inyectiva_con_nombre_testigo :
  salida_de_encontrar (Ejemplo.env Ejemplo.boom) (lit "a" ++ lit ".opus")
  = salida_de_encontrar (Ejemplo.env Ejemplo.boom) (lit "a" ++ lit ".opus")
  ∧ lit "a" = lit "a".
Proof.
  assert (sep ∉ lit "a") as Hs.
  { apply (bool_decide_unpack (sep ∉ lit "a")). vm_compute. exact I. }
  assert (∃ c, c ∈ lit "a" ∧ c ≠ extsep) as Hc.
  { exists 97%N. split; [apply list_elem_of_here|discriminate]. }
  split; [reflexivity|].
  exact (salida_inyectiva_con_nombre (Ejemplo.env Ejemplo.boom)
           (lit "a") (lit "a") Hs Hs Hc Hc eq_refl).
Defined.

Lemma main_reduce_pendientes_testigo :
  (encontrar_archivos_pendientes (Ejemplo.env Ejemplo.boom)
     Ejemplo.mundo_inicial).1 = Valor (Some Ejemplo.dos_rutas)
  ∧ ∃ l',
      (encontrar_archivos_pendientes (Ejemplo.env Ejemplo.boom)
         (main (Ejemplo.env Ejemplo.boom) Ejemplo.mundo_inicial).2).1
      = Valor (Some l')
      ∧ l' `sublist_of` Ejemplo.dos_rutas.
Proof.
  assert ((encontrar_archivos_pendientes (Ejemplo.env Ejemplo.boom)
             Ejemplo.mundo_inicial).1 = Valor (Some Ejemplo.dos_rutas)) as H
    by (vm_compute; reflexivity).
  split; [exact H|].
  exact (main_reduce_pendientes (Ejemplo.env Ejemplo.boom)
           Ejemplo.mundo_inicial Ejemplo.dos_rutas H).
Defined.

Lemma fallos_en_linea_y_en_reporte_testigo :
  ejecutar_pool (Ejemplo.env Ejemplo.boom) Ejemplo.dos_rutas
    Ejemplo.mundo_inicial
  = (Valor [Ejemplo.resultado_roto; (lit "a.opus", EXITO, [])],
     (ejecutar_pool (Ejemplo.env Ejemplo.boom) Ejemplo.dos_rutas
        Ejemplo.mundo_inicial).2)
  ∧ lineas (traza (ejecutar_pool (Ejemplo.env Ejemplo.boom) Ejemplo.dos_rutas
                     Ejemplo.mundo_inicial).2)
    = lineas (traza Ejemplo.mundo_inicial)
      ++ (linea_error
          <$> filter (λ r, r1 r = FALLO)
                [Ejemplo.resultado_roto; (lit "a.opus", EXITO, [])]).
Proof.
  assert (ejecutar_pool (Ejemplo.env Ejemplo.boom) Ejemplo.dos_rutas
            Ejemplo.mundo_inicial
          = (Valor [Ejemplo.resultado_roto; (lit "a.opus", EXITO, [])],
             (ejecutar_pool (Ejemplo.env Ejemplo.boom) Ejemplo.dos_rutas
                Ejemplo.mundo_inicial).2)) as H
    by (vm_compute; reflexivity).
  split; [exact H|].
  exact (proj1 (fallos_en_linea_y_en_reporte (Ejemplo.env Ejemplo.boom)
                  Ejemplo.dos_rutas Ejemplo.mundo_inicial _ _ H)).
Defined.

Lemma segunda_pasada_sin_pendientes_testigo :
  ejecutar_pool (Ejemplo.env Ejemplo.boom)
    (pendientes (Ejemplo.env Ejemplo.boom) (disco Ejemplo.mundo_dos))
    Ejemplo.mundo_dos
  = (Valor Ejemplo.resultados_dos,
     (ejecutar_pool (Ejemplo.env Ejemplo.boom)
        (pendientes (Ejemplo.env Ejemplo.boom) (disco Ejemplo.mundo_dos))
        Ejemplo.mundo_dos).2)
  ∧ (encontrar_archivos_pendientes (Ejemplo.env Ejemplo.boom)
       (ejecutar_pool (Ejemplo.env Ejemplo.boom)
          (pendientes (Ejemplo.env Ejemplo.boom) (disco Ejemplo.mundo_dos))
          Ejemplo.mundo_dos).2).1 = Valor (Some []).
Proof.
  assert (ejecutar_pool (Ejemplo.env Ejemplo.boom)
            (pendientes (Ejemplo.env Ejemplo.boom) (disco Ejemplo.mundo_dos))
            Ejemplo.mundo_dos
          = (Valor Ejemplo.resultados_dos,
             (ejecutar_pool (Ejemplo.env Ejemplo.boom)
                (pendientes (Ejemplo.env Ejemplo.boom) (disco Ejemplo.mundo_dos))
                Ejemplo.mundo_dos).2)) as Hrun
    by (vm_compute; reflexivity).
  split; [exact Hrun|].
  assert (isdir (disco Ejemplo.mundo_dos)
            (CARPETA_AUDIOS (Ejemplo.env Ejemplo.boom)) = true) as Hd
    by (vm_compute; reflexivity).
  assert (Forall (λ o : Outcome, r1 o = EXITO) Ejemplo.resultados_dos) as Hok.
  { repeat constructor. }
  assert (orden_de_llegada (Ejemplo.env Ejemplo.boom)
            (pendientes (Ejemplo.env Ejemplo.boom) (disco Ejemplo.mundo_dos))
          ≡ₚ pendientes (Ejemplo.env Ejemplo.boom) (disco Ejemplo.mundo_dos))
    as Hperm.
  { assert (orden_de_llegada (Ejemplo.env Ejemplo.boom)
              (pendientes (Ejemplo.env Ejemplo.boom)
                 (disco Ejemplo.mundo_dos))
            = reverse (pendientes (Ejemplo.env Ejemplo.boom)
                         (disco Ejemplo.mundo_dos))) as ->
      by (vm_compute; reflexivity).
    apply reverse_Permutation. }
  exact (segunda_pasada_sin_pendientes (Ejemplo.env Ejemplo.boom)
           Ejemplo.mundo_dos _ Ejemplo.resultados_dos
           Hperm Hrun Hok Hd).
Defined.

End MasTestigos.

Section TestigosDelPool.
Import Py os_path os os_io Transcriber.

Lemma ejecutar_pool_sin_interferencia_testigo :
  NoDup (salida_de_procesar (Ejemplo.env Ejemplo.boom) <$> Ejemplo.dos_rutas)
  ∧ disco (ejecutar_pool (Ejemplo.env Ejemplo.boom) Ejemplo.dos_rutas
             Ejemplo.mundo_inicial).2
      !! salida_de_procesar (Ejemplo.env Ejemplo.boom) Ejemplo.ruta_a
    = disco (procesar_archivo (Ejemplo.env Ejemplo.boom)
               (Some (modelo_cargado (Ejemplo.env Ejemplo.boom)))
               Ejemplo.ruta_a Ejemplo.mundo_inicial).2
        !! salida_de_procesar (Ejemplo.env Ejemplo.boom) Ejemplo.ruta_a.
Proof.
  assert (orden_de_llegada (Ejemplo.env Ejemplo.boom) Ejemplo.dos_rutas
          ≡ₚ Ejemplo.dos_rutas) as Hp by apply Permutation_swap.
  assert (NoDup (salida_de_procesar (Ejemplo.env Ejemplo.boom)
                 <$> Ejemplo.dos_rutas)) as Hnd.
  { apply (bool_decide_unpack
             (NoDup (salida_de_procesar (Ejemplo.env Ejemplo.boom)
                     <$> Ejemplo.dos_rutas))).
    vm_compute. exact I. }
  assert (Ejemplo.ruta_a ∈ Ejemplo.dos_rutas) as Hin
    by apply list_elem_of_here.
  split; [exact Hnd|].
  destruct (ejecutar_pool_sin_interferencia (Ejemplo.env Ejemplo.boom)
              Ejemplo.dos_rutas Ejemplo.mundo_inicial Hp Hnd)
    as (rs & _ & _ & Hd & _).
  exact (Hd Ejemplo.ruta_a Hin).
Defined.

Lemma ejecutar_pool_exito_con_archivo_testigo :
  ejecutar_pool (Ejemplo.env Ejemplo.boom) Ejemplo.dos_rutas
    Ejemplo.mundo_inicial
  = (Valor [Ejemplo.resultado_roto; (lit "a.opus", EXITO, [])],
     (ejecutar_pool (Ejemplo.env Ejemplo.boom) Ejemplo.dos_rutas
        Ejemplo.mundo_inicial).2)
  ∧ Forall2 (λ ruta o,
       r1 o = EXITO →
       exists_ (disco (ejecutar_pool (Ejemplo.env Ejemplo.boom)
                         Ejemplo.dos_rutas Ejemplo.mundo_inicial).2)
         (salida_de_procesar (Ejemplo.env Ejemplo.boom) ruta) = true
       ∧ isdir (disco (ejecutar_pool (Ejemplo.env Ejemplo.boom)
                         Ejemplo.dos_rutas Ejemplo.mundo_inicial).2)
           (salida_de_procesar (Ejemplo.env Ejemplo.boom) ruta) = false)
      (orden_de_llegada (Ejemplo.env Ejemplo.boom) Ejemplo.dos_rutas)
      [Ejemplo.resultado_roto; (lit "a.opus", EXITO, [])].
Proof.
  assert (ejecutar_pool (Ejemplo.env Ejemplo.boom) Ejemplo.dos_rutas
            Ejemplo.mundo_inicial
          = (Valor [Ejemplo.resultado_roto; (lit "a.opus", EXITO, [])],
             (ejecutar_pool (Ejemplo.env Ejemplo.boom) Ejemplo.dos_rutas
                Ejemplo.mundo_inicial).2)) as H
    by (vm_compute; reflexivity).
  split; [exact H|].
  exact (ejecutar_pool_exito_con_archivo (Ejemplo.env Ejemplo.boom)
           Ejemplo.dos_rutas Ejemplo.mundo_inicial _ _ H).
Defined.

End TestigosDelPool.

Section TestigoCorridaCompleta.
Import Py os_path os os_io Transcriber.

Lemma main_transcribe_todo_testigo :
  NoDup (salida_de_procesar (Ejemplo.env Ejemplo.boom)
         <$> pendientes (Ejemplo.env Ejemplo.boom) (disco Ejemplo.mundo_dos))
  ∧ (main (Ejemplo.env Ejemplo.boom) Ejemplo.mundo_dos).1 = Valor tt
  ∧ (encontrar_archivos_pendientes (Ejemplo.env Ejemplo.boom)
       (main (Ejemplo.env Ejemplo.boom) Ejemplo.mundo_dos).2).1
    = Valor (Some []).
Proof.
  assert (cuda_is_available (Ejemplo.env Ejemplo.boom) = true) as H1
    by reflexivity.
  assert (isdir (disco Ejemplo.mundo_dos)
            (CARPETA_TRANSCRIPCIONES (Ejemplo.env Ejemplo.boom)) = true) as H2
    by (vm_compute; reflexivity).
  assert (isdir (disco Ejemplo.mundo_dos)
            (CARPETA_AUDIOS (Ejemplo.env Ejemplo.boom)) = true) as H3
    by (vm_compute; reflexivity).
  assert (pendientes (Ejemplo.env Ejemplo.boom) (disco Ejemplo.mundo_dos)
          = [lit "/home/u/wa/audios/a.opus"; lit "/home/u/wa/audios/c.opus"])
    as Hp by (vm_compute; reflexivity).
  assert (NoDup (salida_de_procesar (Ejemplo.env Ejemplo.boom)
                 <$> pendientes (Ejemplo.env Ejemplo.boom)
                       (disco Ejemplo.mundo_dos))) as H5.
  { apply (bool_decide_unpack
             (NoDup (salida_de_procesar (Ejemplo.env Ejemplo.boom)
                     <$> pendientes (Ejemplo.env Ejemplo.boom)
                           (disco Ejemplo.mundo_dos)))).
    vm_compute. exact I. }
  assert (∀ ruta,
            ruta ∈ pendientes (Ejemplo.env Ejemplo.boom)
                     (disco Ejemplo.mundo_dos) →
            (∃ d, transcribe (modelo_cargado (Ejemplo.env Ejemplo.boom)) ruta
                    true IDIOMA_AUDIO = Valor d
                  ∧ d !! lit "text" = Some (lit "hola"))
            ∧ falla_abrir (Ejemplo.env Ejemplo.boom)
                (salida_de_procesar (Ejemplo.env Ejemplo.boom) ruta) = None
            ∧ falla_escribir (Ejemplo.env Ejemplo.boom)
                (salida_de_procesar (Ejemplo.env Ejemplo.boom) ruta)
                (lit "hola") = None) as H6.
  { intros ruta Hin. rewrite Hp in Hin.
    split; [|split; reflexivity].
    exists Ejemplo.dicc_hola.
    apply elem_of_cons in Hin as [->|Hin];
      [split; vm_compute; reflexivity|].
    apply elem_of_cons in Hin as [->|Hin];
      [split; vm_compute; reflexivity|].
    destruct (elem_of_nil ruta) as [Hnil _]. destruct (Hnil Hin). }
  assert (orden_de_llegada (Ejemplo.env Ejemplo.boom)
            (pendientes (Ejemplo.env Ejemplo.boom) (disco Ejemplo.mundo_dos))
          ≡ₚ pendientes (Ejemplo.env Ejemplo.boom) (disco Ejemplo.mundo_dos))
    as H4.
  { assert (orden_de_llegada (Ejemplo.env Ejemplo.boom)
              (pendientes (Ejemplo.env Ejemplo.boom)
                 (disco Ejemplo.mundo_dos))
            = reverse (pendientes (Ejemplo.env Ejemplo.boom)
                         (disco Ejemplo.mundo_dos))) as ->
      by (vm_compute; reflexivity).
    apply reverse_Permutation. }
  split; [exact H5|].
  destruct (main_transcribe_todo (Ejemplo.env Ejemplo.boom) Ejemplo.mundo_dos
              (λ _, lit "hola") H1 H2 H3 H4 H5 H6)
    as (Hret & _ & _ & Hdesc & _).
  split; [exact Hret|exact Hdesc].
Defined.

End TestigoCorridaCompleta.
